(** * Batch partitioning, shard extraction and reconciliation

    A shallow embedding of three scripts of the pipeline:

    - [code/01_setup/generate_batches.py]   (module [GenerateBatches]),
    - [code/02_extraction/extract_names_batch.py] (module [ExtractNamesBatch]),
    - [code/02_extraction/verify_extraction.py]   (module [VerifyExtraction]),

    together with the directories and file names of
    [code/01_setup/config.py] (module [Config]) and the Python primitives
    they rely on (module [Py]).

    A function of a script is modelled by its body, with the globals it
    reads bound as the script binds them: [generate_batches.py] takes
    [DATA_DIR] and [BATCH_DIR] from config.py, where they are values of type
    [str], not paths.

    Python integers are unbounded, so they are [Z]; a DataFrame is the list of
    its rows; a directory is a finite map from file names to file contents;
    an exception is the [Raise] branch of [result]. *)

From Stdlib Require Import Ascii.
From stdpp Require Import base numbers list list_numbers sorting strings gmap fin_maps fin_sets.

#[local] Open Scope Z_scope.

(* ===================================================================== *)
(** * Python primitives *)
(* ===================================================================== *)

Module Py.

(** The exceptions the three scripts can meet. All of them derive from
    [Exception]; [SystemExit] is not one of them, it is modelled by the
    outcome of a run. *)
Inductive exn : Set :=
  | ZeroDivisionError
  | ValueError
  | IndexError
  | FileNotFoundError
  | ParserError
  | DatabaseError
  | AttributeError
  | TypeError
  | SyntaxError.

#[export] Instance exn_eq_dec : EqDecision exn.
Proof. solve_decision. Defined.

(** A computation that returns or raises. *)
Inductive result (A : Type) : Type :=
  | Ok (a : A)
  | Raise (e : exn).
Arguments Ok {A} a.
Arguments Raise {A} e.

#[export] Instance result_ret : MRet result := λ A a, Ok a.
#[export] Instance result_bind : MBind result := λ A B f m,
  match m with
  | Ok a => f a
  | Raise e => Raise e
  end.
#[export] Instance result_fmap : FMap result := λ A B f m,
  match m with
  | Ok a => Ok (f a)
  | Raise e => Raise e
  end.

Definition is_Ok {A} (m : result A) : Prop := ∃ a, m = Ok a.

(** The same as a test. *)
Definition returns {A} (m : result A) : bool :=
  match m with
  | Ok _ => true
  | Raise _ => false
  end.

(** [len(l)] *)
Definition len {A} (l : list A) : Z := Z.of_nat (length l).

(** Normalisation of one bound of a slice [l[start:stop]] of a sequence of
    length [n]: a negative bound counts from the end, and every bound is
    clamped to [0 .. n]. *)
Definition slice_index (n i : Z) : Z :=
  if bool_decide (i < 0) then Z.max (i + n) 0 else Z.min i n.

(** [l[start:stop]] (and [df.iloc[start:stop]] on the rows of a frame). *)
Definition slice {A} (l : list A) (start stop : Z) : list A :=
  let n := len l in
  let s := slice_index n start in
  let e := slice_index n stop in
  take (Z.to_nat (e - s)) (drop (Z.to_nat s) l).

(** [range(n)] and [range(start, stop)] *)
Definition range (n : Z) : list Z := seqZ 0 n.
Definition range_from (start stop : Z) : list Z := seqZ start (stop - start).

(** [sum(l)] on integers *)
Definition sum (l : list Z) : Z := foldr Z.add 0 l.

(** ** Text

    Strings are sequences of ASCII characters: the file names and the
    statistics files of the pipeline are ASCII. Characters above 127 are
    neither digits nor white space here. *)

(** [a / b] on two [str]: the operator is not defined for them, and Python
    raises [TypeError] whatever the texts are. *)
Definition str_truediv (a b : string) : result string := Raise TypeError.

(** [s.mkdir(parents=True, exist_ok=True)] on a [str]: a [str] has no
    attribute [mkdir], and looking it up raises [AttributeError]. *)
Definition str_mkdir (s : string) : result unit := Raise AttributeError.

(** [s.startswith(p)] *)
Fixpoint starts_with (p s : string) : bool :=
  match p, s with
  | "", _ => true
  | String _ _, "" => false
  | String a p', String b s' => bool_decide (a = b) && starts_with p' s'
  end.

(** [s.endswith(p)] *)
Definition ends_with (p s : string) : bool :=
  starts_with (String.rev p) (String.rev s).

(** [c in s] for a character [c] *)
Fixpoint contains (c : ascii) (s : string) : bool :=
  match s with
  | "" => false
  | String a s' => bool_decide (a = c) || contains c s'
  end.

(** [fnmatch.fnmatch(name, pre + "*" + post)] for literal [pre] and [post]:
    the star stands for any run of characters, the empty one too. *)
Definition fnmatch_star (pre post name : string) : bool :=
  bool_decide (String.length pre + String.length post ≤ String.length name)%nat
  && starts_with pre name && ends_with post name.

(** [s.replace(old, new)]: every occurrence of [old], scanning from the left
    and never overlapping, becomes [new]. [skip] counts the characters of the
    occurrence just replaced that are still to be passed over. With an empty
    [old], [new] goes before every character and at the end. *)
Fixpoint replace_go (old new : string) (skip : nat) (s : string) : string :=
  match s with
  | "" => if bool_decide (old = "") then new else ""
  | String c s' =>
      match skip with
      | S skip' => replace_go old new skip' s'
      | O =>
          if bool_decide (old = "") then new +:+ String c (replace_go old new 0 s')
          else if starts_with old s
          then new +:+ replace_go old new (pred (String.length old)) s'
          else String c (replace_go old new 0 s')
      end
  end.
Definition replace (old new s : string) : string := replace_go old new 0 s.

(** White space for [str.strip()]: the ASCII characters for which
    [str.isspace] holds. [int()] skips the C white space only, which is
    [Ascii.is_space]. *)
Definition is_str_space (c : ascii) : bool :=
  Ascii.is_space c ||
  match c with
  | "028" | "029" | "030" | "031" => true
  | _ => false
  end%char.

Fixpoint lstrip (sp : ascii → bool) (s : string) : string :=
  match s with
  | "" => ""
  | String c s' => if sp c then lstrip sp s' else s
  end.

Fixpoint rstrip (sp : ascii → bool) (s : string) : string :=
  match s with
  | "" => ""
  | String c s' =>
      let r := rstrip sp s' in
      if sp c && bool_decide (r = "") then "" else String c r
  end.

(** [s.strip()] *)
Definition strip (s : string) : string := rstrip is_str_space (lstrip is_str_space s).

(** [s.split(sep, 1)] for a one-character [sep], when [sep] occurs in [s]:
    the text before the first [sep] and the text after it. [None] when [sep]
    does not occur ([split] then returns the one-element list [[s]]). *)
Fixpoint split_once (sep : ascii) (s : string) : option (string * string) :=
  match s with
  | "" => None
  | String c s' =>
      if bool_decide (c = sep) then Some ("", s')
      else '(k, v) ← split_once sep s'; Some (String c k, v)
  end.

(** The digits of [int(s)] after the sign: decimal digits, where a single
    underscore may stand between two digits. [prev_digit] tells whether the
    previous character was a digit. *)
Fixpoint int_digits (s : string) (acc : Z) (prev_digit : bool) : option Z :=
  match s with
  | "" => if prev_digit then Some acc else None
  | String c s' =>
      match Ascii.is_nat c with
      | Some d => int_digits s' (10 * acc + Z.of_nat d) true
      | None =>
          if bool_decide (c = "_"%char) && prev_digit then int_digits s' acc false
          else None
      end
  end.

(** The sign in front of the digits, if there is one: whether the number is
    negative, and the rest. *)
Definition split_sign (s : string) : bool * string :=
  match s with
  | "" => (false, s)
  | String c body =>
      if bool_decide (c = "-"%char) then (true, body)
      else if bool_decide (c = "+"%char) then (false, body)
      else (false, s)
  end.

(** [int(s)]: white space around the number is skipped, one sign is allowed,
    anything else raises [ValueError]. (That recent versions of Python refuse
    numbers of more than 4300 digits is left out.) *)
Definition int (s : string) : result Z :=
  let s := rstrip Ascii.is_space (lstrip Ascii.is_space s) in
  let '(negative, body) := split_sign s in
  match int_digits body 0 false with
  | Some v => Ok (if negative : bool then - v else v)
  | None => Raise ValueError
  end.

(** [chr(ord("0") + d)] *)
Definition digit_char (d : Z) : ascii := ascii_of_N (Z.to_N (48 + d)).

(** The decimal digits of [n >= 0], last digit first, pushed in front of
    [acc]. *)
Fixpoint digits_loop (fuel : nat) (n : Z) (acc : string) : string :=
  match fuel with
  | O => acc
  | S fuel' =>
      let acc' := String (digit_char (n `mod` 10)) acc in
      if bool_decide (n `div` 10 = 0) then acc' else digits_loop fuel' (n `div` 10) acc'
  end.

(** [str(n)] for [n >= 0]; a number has no more decimal digits than bits. *)
Definition str_nonneg (n : Z) : string :=
  digits_loop (S (Z.to_nat (Z.log2 n))) n "".

(** [str(n)] *)
Definition str (n : Z) : string :=
  if bool_decide (n < 0) then "-" +:+ str_nonneg (- n) else str_nonneg n.

Fixpoint zeros (k : nat) : string :=
  match k with
  | O => ""
  | S k' => String "0" (zeros k')
  end.

(** [f"{n:0<width>d}"]: the sign, then zeros, then the digits, at least
    [width] characters in all. *)
Definition format_0d (width : nat) (n : Z) : string :=
  let sign := if bool_decide (n < 0) then "-" else "" in
  let body := str_nonneg (Z.abs n) in
  sign +:+ zeros (width - String.length sign - String.length body) +:+ body.

(** Every character of [s] satisfies [P]. *)
Fixpoint all_chars (P : ascii → bool) (s : string) : bool :=
  match s with
  | "" => true
  | String c s' => P c && all_chars P s'
  end.

(** The characters of a formatted integer: the digits and the minus sign. *)
Definition is_digit (c : ascii) : bool :=
  match Ascii.is_nat c with
  | Some _ => true
  | None => false
  end.
Definition is_number_char (c : ascii) : bool :=
  is_digit c || bool_decide (c = "-"%char).

(** [m in s] for a string [m] *)
Fixpoint occurs (m s : string) : bool :=
  starts_with m s ||
  match s with
  | "" => false
  | String _ s' => occurs m s'
  end.

(** ** Floating-point numbers

    The scripts add, divide, read and print floats and do nothing else with
    them. The operations are kept abstract: a theorem about the scripts holds
    for whatever they compute. *)
Class Float := {
  float : Type;
  (** [0.0]; this is also what the integer [0] becomes when a float is added
      to it *)
  float_zero : float;
  (** [x + y] *)
  float_add : float → float → float;
  (** [x / n] for a float [x] and an integer [n <> 0] *)
  float_div_int : float → Z → float;
  (** [a / b] for integers [a] and [b <> 0] *)
  int_truediv : Z → Z → float;
  (** [float(s)] *)
  float_of_string : string → result float;
  (** [f"{x:.2f}"] *)
  format_2f : float → string;
}.

(** What the statistics files need of the two texts: a float printed with
    [f"{x:.2f}"] is not empty, has no white space in it, and [float] reads
    it. *)
Class FloatText `{Float} : Prop := {
  format_2f_nonempty : ∀ x, format_2f x ≠ "";
  format_2f_no_space : ∀ x, all_chars (λ c, negb (is_str_space c)) (format_2f x) = true;
  format_2f_readable : ∀ x, is_Ok (float_of_string (format_2f x));
}.

(** ** Frames *)

(** [df.drop_duplicates(subset=...)]: of the rows that agree on the columns of
    the subset, the first one is kept. [key] reads these columns and [seen]
    holds the keys met so far. *)
Fixpoint drop_duplicates_from {A K} `{EqDecision K}
    (key : A → K) (seen : list K) (df : list A) : list A :=
  match df with
  | [] => []
  | r :: df' =>
      if bool_decide (key r ∈ seen) then drop_duplicates_from key seen df'
      else r :: drop_duplicates_from key (key r :: seen) df'
  end.
Definition drop_duplicates {A K} `{EqDecision K} (key : A → K) (df : list A) : list A :=
  drop_duplicates_from key [] df.

(** [series.nunique()] *)
Definition nunique {K} `{EqDecision K} (series : list K) : Z := len (remove_dups series).

(** [sorted(names)] on strings *)
Definition sorted (names : list string) : list string := merge_sort String.le names.

(** ** Processes *)

(** How a call ends: it returns, it calls [sys.exit(status)], or an exception
    leaves it uncaught. *)
Inductive outcome : Set :=
  | Returned
  | Exited (status : Z)
  | Uncaught (e : exn).

(** The exit status of a process whose main call ended this way: 0 when the
    script ran to its end, 1 after an uncaught exception. *)
Definition exit_status (o : outcome) : Z :=
  match o with
  | Returned => 0
  | Exited status => status
  | Uncaught _ => 1
  end.

End Py.

Import Py.

(* ===================================================================== *)
(** * config.py: directories and the names of the batch files *)
(* ===================================================================== *)

Module Config.

(** The directories are f-strings, that is values of type [str]:
    [HOME_DIR = "/home/uncc/nichiflu"],
    [PROJECT_DIR = f"{HOME_DIR}/managers_revelio"],
    [DATA_DIR = f"{PROJECT_DIR}/data"], [BATCH_DIR = f"{DATA_DIR}/batches"]. *)
Definition HOME_DIR : string := "/home/uncc/nichiflu".
Definition PROJECT_DIR : string := HOME_DIR +:+ "/managers_revelio".
Definition DATA_DIR : string := PROJECT_DIR +:+ "/data".
Definition BATCH_DIR : string := DATA_DIR +:+ "/batches".

(** [f"batch_{batch_number:02d}_ceos.csv"] *)
Definition get_batch_filename (batch_number : Z) : string :=
  "batch_" +:+ format_0d 2 batch_number +:+ "_ceos.csv".

(** [f"batch_{batch_number:02d}_extracted.csv"] *)
Definition get_extracted_filename (batch_number : Z) : string :=
  "batch_" +:+ format_0d 2 batch_number +:+ "_extracted.csv".

(** [f"batch_{batch_number:02d}_unmatched.csv"] *)
Definition get_unmatched_filename (batch_number : Z) : string :=
  "batch_" +:+ format_0d 2 batch_number +:+ "_unmatched.csv".

End Config.

(* ===================================================================== *)
(** * generate_batches.py *)
(* ===================================================================== *)

Module GenerateBatches.

(** [NUM_BATCHES = 5] *)
Definition NUM_BATCHES : Z := 5.

(** The list comprehension of [split_into_batches]:
    [[base_size + (1 if i < remainder else 0) for i in range(num_batches)]].
    Python's [//] and [%] are floor division and the remainder with the sign
    of the divisor, which is what [Z.div] and [Z.modulo] compute; division by
    zero is handled by the caller below. *)
Definition batch_sizes (total_ceos num_batches : Z) : list Z :=
  let base_size := total_ceos `div` num_batches in
  let remainder := total_ceos `mod` num_batches in
  (λ i, base_size + (if bool_decide (i < remainder) then 1 else 0)) <$> range num_batches.

(** The loop [for size in batch_sizes] with its cursor [start_idx]. *)
Fixpoint slice_batches {A} (df : list A) (start_idx : Z) (sizes : list Z) : list (list A) :=
  match sizes with
  | [] => []
  | size :: sizes' =>
      let end_idx := start_idx + size in
      slice df start_idx end_idx :: slice_batches df end_idx sizes'
  end.

(** [split_into_batches(df, num_batches)]. [total_ceos // num_batches] raises
    [ZeroDivisionError] when [num_batches] is 0. *)
Definition split_into_batches {A} (df : list A) (num_batches : Z) : result (list (list A)) :=
  if bool_decide (num_batches = 0) then Raise ZeroDivisionError
  else Ok (slice_batches df 0 (batch_sizes (len df) num_batches)).

(** What the script needs of a row of the CEO table: rows can be compared
    (all columns), and the columns [first_name] and [surname] can be read. *)
Class CeoRow (R : Type) := {
  ceo_row_eq_dec :: EqDecision R;
  first_name : R → string;
  surname : R → string;
}.

(** A file of the batch directory: a CSV table, by its rows, or a text file,
    by its lines. Writing a frame with [to_csv] and reading it back with
    [read_csv] is taken to give the same rows. *)
Inductive file (R : Type) : Type :=
  | Csv (rows : list R)
  | Text (lines : list string).
Arguments Csv {R} rows.
Arguments Text {R} lines.

Section with_rows.
Context {R : Type} `{CeoRow R}.

(** The files of the machine, by path. *)
#[local] Abbreviation directory := (gmap string (file R)).

(** [from code.01_setup.config import DATA_DIR, BATCH_DIR], line 21 of the
    file. Python compiles a file before it runs any of it, and [01_setup]
    is not a name of the language: the compilation of the file ends with
    [SyntaxError]. *)
Definition compile_module : result unit := Raise SyntaxError.

(** [INPUT_FILE = DATA_DIR / 'ceo_names_companies.csv'], with the [DATA_DIR]
    of config.py. *)
Definition INPUT_FILE : result string :=
  str_truediv Config.DATA_DIR "ceo_names_companies.csv".

(** [create_batch_directory()]: [BATCH_DIR.mkdir(parents=True, exist_ok=True)]
    with the [BATCH_DIR] of config.py. *)
Definition create_batch_directory : result unit :=
  str_mkdir Config.BATCH_DIR.

(** [f"batch_{i:02d}_ceos.csv"] *)
Definition batch_filename (i : Z) : string :=
  "batch_" +:+ format_0d 2 i +:+ "_ceos.csv".

(** The loop of [save_batches], [i] being the counter of
    [enumerate(batches, 1)]: [filepath = BATCH_DIR / filename], then the
    batch is written to [filepath]. An exception ends the loop with what
    was written until then. *)
Fixpoint save_batches_from (i : Z) (batches : list (list R)) (dir : directory)
    : result (list string) * directory :=
  match batches with
  | [] => (Ok [], dir)
  | batch_df :: batches' =>
      let filename := batch_filename i in
      match str_truediv Config.BATCH_DIR filename with
      | Raise e => (Raise e, dir)
      | Ok filepath =>
          let dir := <[filepath := Csv batch_df]> dir in
          let '(saved_files, dir) := save_batches_from (i + 1) batches' dir in
          (cons filepath <$> saved_files, dir)
      end
  end.

(** [save_batches(batches)]: the saved paths, or the exception, and the
    files afterwards. *)
Definition save_batches (batches : list (list R)) (dir : directory)
    : result (list string) * directory :=
  save_batches_from 1 batches dir.

(** [df.iloc[0]] and [df.iloc[-1]]: out of bounds on an empty frame. *)
Definition iloc_first (df : list R) : result R :=
  match df with
  | [] => Raise IndexError
  | r :: _ => Ok r
  end.
Definition iloc_last (df : list R) : result R :=
  match last df with
  | None => Raise IndexError
  | Some r => Ok r
  end.

(** The lines one batch adds to the summary. The f-string of a line is
    evaluated before the line is written, so when [iloc] raises the lines
    before it are in the file and the others are not. *)
Definition summary_entry (i : Z) (batch_df : list R) (filepath : string)
    : list string * result unit :=
  let head := [""; "Batch " +:+ format_0d 2 i +:+ ":";
               "  File: " +:+ filepath;
               "  CEOs: " +:+ str (len batch_df)] in
  match iloc_first batch_df with
  | Raise e => (head, Raise e)
  | Ok r0 =>
      let first := "  First CEO: " +:+ surname r0 +:+ ", " +:+ first_name r0 in
      match iloc_last batch_df with
      | Raise e => (head ++ [first], Raise e)
      | Ok r1 =>
          (head ++ [first; "  Last CEO: " +:+ surname r1 +:+ ", " +:+ first_name r1],
           Ok ())
      end
  end.

(** The loop over [enumerate(zip(batches, saved_files), 1)]. *)
Fixpoint summary_entries (i : Z) (entries : list (list R * string))
    : list string * result unit :=
  match entries with
  | [] => ([], Ok ())
  | (batch_df, filepath) :: entries' =>
      match summary_entry i batch_df filepath with
      | (ls, Raise e) => (ls, Raise e)
      | (ls, Ok _) =>
          let '(ls', r) := summary_entries (i + 1) entries' in (ls ++ ls', r)
      end
  end.

(** [create_batch_summary(batches, saved_files)]. Its first statement is
    [summary_file = BATCH_DIR / 'batch_summary.txt']; the file is opened
    after it, and then written as far as the function gets. *)
Definition create_batch_summary
    (batches : list (list R)) (saved_files : list string) (dir : directory)
    : result unit * directory :=
  match str_truediv Config.BATCH_DIR "batch_summary.txt" with
  | Raise e => (Raise e, dir)
  | Ok summary_file =>
      let header :=
        ["CEO Batch Split Summary";
         String.string_of_list_ascii (replicate 50 "="%char); "";
         "Total CEOs: " +:+ str (sum (len <$> batches));
         "Number of batches: " +:+ str (len batches);
         "Batch directory: " +:+ Config.BATCH_DIR; "";
         "Batch Details:"; String.string_of_list_ascii (replicate 30 "-"%char)] in
      let '(ls, r) := summary_entries 1 (zip batches saved_files) in
      (r, <[summary_file := Text (header ++ ls)]> dir)
  end.

(** [pd.read_csv(filepath)] *)
Definition read_csv (dir : directory) (filepath : string) : result (list R) :=
  match dir !! filepath with
  | None => Raise FileNotFoundError
  | Some (Csv rows) => Ok rows
  | Some (Text _) => Raise ParserError
  end.

(** [pd.concat(frames, ignore_index=True)]: no frame at all is an error. *)
Definition pd_concat (frames : list (list R)) : result (list R) :=
  match frames with
  | [] => Raise ValueError
  | _ => Ok (concat frames)
  end.

(** [df.duplicated()]: a row is marked when an equal row comes before it. *)
Fixpoint duplicated_from (seen : list R) (df : list R) : list bool :=
  match df with
  | [] => []
  | r :: df' => bool_decide (r ∈ seen) :: duplicated_from (r :: seen) df'
  end.
Definition duplicated (df : list R) : list bool := duplicated_from [] df.

(** [mask.sum()] *)
Definition count_true (mask : list bool) : Z := len (filter (λ b, b = true) mask).

(** [verify_batches(original_df, saved_files)] *)
Definition verify_batches (original_df : list R) (saved_files : list string)
    (dir : directory) : result bool :=
  all_batch_ceos ← mapM (read_csv dir) saved_files;
  combined_df ← pd_concat all_batch_ceos;
  let original_count := len original_df in
  let combined_count := len combined_df in
  if bool_decide (original_count = combined_count) then
    let duplicates := count_true (duplicated combined_df) in
    if bool_decide (duplicates = 0) then Ok true else Ok false
  else Ok false.

(** What a run leaves behind: the exit status of the process, what
    [verify_batches] returned when it was reached and returned, whether
    "Batch generation completed successfully!" was printed, and the files
    afterwards. *)
Record run := {
  exit_code : Z;
  verification : option bool;
  success_reported : bool;
  batch_dir_after : directory;
}.

(** A run that ends with status 1: by [sys.exit(1)] in [main], or by an
    exception that nothing catches. *)
Definition failed (dir : directory) : run :=
  {| exit_code := 1; verification := None; success_reported := false;
     batch_dir_after := dir |}.

(** [load_ceo_data()]. The function reads the global [INPUT_FILE]: what
    line 25 gives is accounted for here. [input] is what is at that path:
    [None] when there is no file, and otherwise what [pd.read_csv] makes of
    the file, a table or an exception. *)
Definition load_ceo_data (input : option (result (list R))) : result (list R) :=
  input_file ← INPUT_FILE;
  match input with
  | None => Raise FileNotFoundError
  | Some read => read
  end.

(** [main()]. Every exception is caught by [except Exception] and ends the
    process with [sys.exit(1)]; otherwise [main] returns and the process exits
    with status 0. The value of [verify_batches(df, saved_files)] is not
    used. *)
Definition main (input : option (result (list R))) (dir : directory) : run :=
  match create_batch_directory with
  | Raise _ => failed dir
  | Ok _ =>
      match load_ceo_data input with
      | Raise _ => failed dir
      | Ok df =>
          match split_into_batches df NUM_BATCHES with
          | Raise _ => failed dir
          | Ok batches =>
              match save_batches batches dir with
              | (Raise _, dir) => failed dir
              | (Ok saved_files, dir) =>
                  match create_batch_summary batches saved_files dir with
                  | (Raise _, dir) => failed dir
                  | (Ok _, dir) =>
                      match verify_batches df saved_files dir with
                      | Raise _ => failed dir
                      | Ok verdict =>
                          {| exit_code := 0; verification := Some verdict;
                             success_reported := true; batch_dir_after := dir |}
                      end
                  end
              end
          end
      end
  end.

(** [python generate_batches.py]: the file is compiled, its statements run
    in order, of which [INPUT_FILE = ...] is the first that depends on
    config.py, and the last one calls [main()]. An exception outside [main]
    is not caught: the process prints it and exits with status 1. *)
Definition script (input : option (result (list R))) (dir : directory) : run :=
  match compile_module with
  | Raise _ => failed dir
  | Ok _ =>
      match INPUT_FILE with
      | Raise _ => failed dir
      | Ok _ => main input dir
      end
  end.

End with_rows.

End GenerateBatches.

(* ===================================================================== *)
(** * The directory of name batches *)
(* ===================================================================== *)

(** [/scratch/uncc/nichiflu/managers_revelio/name_batches], which
    [extract_names_batch.py] writes and [verify_extraction.py] reads. *)
Module NameBatches.

(** A row of the query: [SELECT DISTINCT user_id, fullname]. *)
Record name_row := { user_id : Z; fullname : string }.

#[export] Instance name_row_eq_dec : EqDecision name_row.
Proof. solve_decision. Defined.

(** A file of the directory: a Parquet table, by its rows, or a text file,
    by its lines (without their line ends). *)
Inductive file : Type :=
  | Parquet (rows : list name_row)
  | Text (lines : list string).

(** The directory, by file name. It is taken to exist. *)
Abbreviation directory := (gmap string file).

(** [glob.glob(f"{batch_dir}/{pre}*{post}")], as file names. The order of
    the result is not specified. *)
Definition glob (pre post : string) (dir : directory) : list string :=
  filter (λ name, fnmatch_star pre post name = true) (elements (dom dir)).

End NameBatches.

(* ===================================================================== *)
(** * extract_names_batch.py *)
(* ===================================================================== *)

Module ExtractNamesBatch.
Import NameBatches.

(** The query of [extract_batch], of which only the two numbers vary:
    [SELECT DISTINCT user_id, fullname FROM revelio.individual_user
     WHERE fullname IS NOT NULL ORDER BY user_id LIMIT {limit} OFFSET {offset}]. *)
Record query := { limit : Z; offset : Z }.

Section with_float.
Context `{Float}.

(** What a run gets from outside: whether the connection to WRDS is made,
    what the database answers, how long the query took, how many bytes the
    Parquet file of a frame has, and the text of [datetime.now()] when the
    statistics are written. *)
Record world := {
  connect : result unit;
  raw_sql : query → result (list name_row);
  query_seconds : float;
  getsize : list name_row → Z;
  now : string;
}.

(** [offset = (task_id - 1) * rows_per_batch] *)
Definition batch_offset (task_id rows_per_batch : Z) : Z :=
  (task_id - 1) * rows_per_batch.

(** The query [extract_batch] sends. *)
Definition batch_query (task_id rows_per_batch : Z) : query :=
  {| limit := rows_per_batch; offset := batch_offset task_id rows_per_batch |}.

(** [f"batch_{task_id:04d}.parquet"] *)
Definition output_file (task_id : Z) : string :=
  "batch_" +:+ format_0d 4 task_id +:+ ".parquet".

(** [f"batch_{task_id:04d}_stats.txt"] *)
Definition stats_file (task_id : Z) : string :=
  "batch_" +:+ format_0d 4 task_id +:+ "_stats.txt".

(** The lines written to the statistics file. *)
Definition stats_lines (w : world) (task_id offset : Z) (batch_df : list name_row)
    (file_size_mb : float) : list string :=
  [ "task_id: " +:+ str task_id;
    "offset: " +:+ str offset;
    "rows: " +:+ str (len batch_df);
    "unique_users: " +:+ str (nunique (user_id <$> batch_df));
    "file_size_mb: " +:+ format_2f file_size_mb;
    "query_time_seconds: " +:+ format_2f (query_seconds w);
    "extraction_time: " +:+ now w ].

(** [extract_batch(task_id, rows_per_batch)]: how the call ends and the
    directory afterwards. An exception of [wrds.Connection] is not caught; an
    exception of [db.raw_sql] is caught and answered by [sys.exit(1)]. *)
Definition extract_batch (task_id rows_per_batch : Z) (w : world) (dir : directory)
    : outcome * directory :=
  let offset := batch_offset task_id rows_per_batch in
  match connect w with
  | Raise e => (Uncaught e, dir)
  | Ok _ =>
      match raw_sql w (batch_query task_id rows_per_batch) with
      | Raise e => (Exited 1, dir)
      | Ok batch_df =>
          if bool_decide (len batch_df = 0) then (Returned, dir)
          else
            let batch_df := drop_duplicates (λ r, (user_id r, fullname r)) batch_df in
            let dir := <[output_file task_id := Parquet batch_df]> dir in
            let file_size_mb := int_truediv (getsize w batch_df) (1024 * 1024) in
            let dir :=
              <[stats_file task_id :=
                  Text (stats_lines w task_id offset batch_df file_size_mb)]> dir in
            (Returned, dir)
      end
  end.

(** The script: [extract_batch(task_id)] with the default of 10 million rows
    per batch, [task_id] being the number read from [SGE_TASK_ID] or from the
    command line. *)
Definition main (task_id : Z) (w : world) (dir : directory) : Z * directory :=
  let '(o, dir) := extract_batch task_id 10000000 w dir in (exit_status o, dir).

(** The block under [if __name__ == "__main__"]: the task id is
    [int(os.environ.get('SGE_TASK_ID', '1'))], and [int(sys.argv[1])] takes
    its place when the command line has an argument. [sge_task_id] is the
    variable of the environment, [None] when it is not set, and [args] is
    [sys.argv[1:]]. The variable is read and converted first, also when an
    argument follows; a [ValueError] of [int] is not caught. *)
Definition script (sge_task_id : option string) (args : list string)
    (w : world) (dir : directory) : outcome * directory :=
  match int (default "1" sge_task_id) with
  | Raise e => (Uncaught e, dir)
  | Ok task_id =>
      match args with
      | [] => extract_batch task_id 10000000 w dir
      | arg :: _ =>
          match int arg with
          | Raise e => (Uncaught e, dir)
          | Ok task_id => extract_batch task_id 10000000 w dir
          end
      end
  end.

(** A directory that holds nothing but what [extract_batch] writes: shard
    files under their names and statistics files with their lines. *)
Definition shard_directory (dir : directory) : Prop :=
  ∀ name content, dir !! name = Some content →
    (∃ task_id rows, name = output_file task_id ∧ content = Parquet rows)
    ∨ (∃ w task_id offset batch_df file_size_mb,
         name = stats_file task_id
         ∧ content = Text (stats_lines w task_id offset batch_df file_size_mb)).

(** A directory in which the files come in pairs, as [extract_batch] writes
    them: every shard file has the statistics file of its rows beside it,
    and every statistics file its shard file. *)
Definition paired_directory (dir : directory) : Prop :=
  ∀ name content, dir !! name = Some content →
    ∃ w task_id offset batch_df file_size_mb,
      dir !! output_file task_id = Some (Parquet batch_df)
      ∧ dir !! stats_file task_id
        = Some (Text (stats_lines w task_id offset batch_df file_size_mb))
      ∧ (name = output_file task_id ∨ name = stats_file task_id).

(** The rows of the shard file of [task_id], none when there is no such
    file. *)
Definition shard_rows (dir : directory) (task_id : Z) : list name_row :=
  match dir !! output_file task_id with
  | Some (Parquet rows) => rows
  | _ => []
  end.

End with_float.
End ExtractNamesBatch.

(* ===================================================================== *)
(** * verify_extraction.py *)
(* ===================================================================== *)

Module VerifyExtraction.
Import NameBatches.

(** The default of [expected_batches]. *)
Definition DEFAULT_EXPECTED_BATCHES : Z := 65.

(** [int(filename.replace('batch_', '').replace('.parquet', ''))] *)
Definition task_id_of (filename : string) : result Z :=
  int (replace ".parquet" "" (replace "batch_" "" filename)).

(** The loop [for batch_file in batch_files] that fills [found_ids]. The
    names of the model are base names already. *)
Fixpoint collect_ids (batch_files : list string) (found_ids : gset Z) : result (gset Z) :=
  match batch_files with
  | [] => Ok found_ids
  | batch_file :: batch_files' =>
      task_id ← task_id_of batch_file;
      collect_ids batch_files' ({[task_id]} ∪ found_ids)
  end.

(** [set(range(1, expected_batches + 1)) - found_ids] *)
Definition missing_of (expected_batches : Z) (found_ids : gset Z) : gset Z :=
  list_to_set (range_from 1 (expected_batches + 1)) ∖ found_ids.

(** One line of a statistics file: with a colon in it, the text before the
    first colon becomes a key and the text after it the value. Stripping
    keeps the colon, so the unpacking of the two parts cannot fail; the
    branch is there as in Python. *)
Definition read_stats_line (stats : gmap string string) (line : string)
    : result (gmap string string) :=
  if contains ":" line then
    match split_once ":" (strip line) with
    | Some (key, value) => Ok (<[strip key := strip value]> stats)
    | None => Raise ValueError
    end
  else Ok stats.

(** The loop [for line in f] that builds the dictionary [stats]. *)
Fixpoint read_stats_lines (stats : gmap string string) (lines : list string)
    : result (gmap string string) :=
  match lines with
  | [] => Ok stats
  | line :: lines' =>
      stats ← read_stats_line stats line;
      read_stats_lines stats lines'
  end.

(** [open(stats_file, 'r')] and the loop over its lines. The name comes from
    a listing, so the file exists; a Parquet file is not text, and decoding
    it raises [UnicodeDecodeError], which is a [ValueError]. *)
Definition read_stats (dir : directory) (stats_file : string)
    : result (gmap string string) :=
  match dir !! stats_file with
  | Some (Text lines) => read_stats_lines ∅ lines
  | Some (Parquet _) => Raise ValueError
  | None => Raise FileNotFoundError
  end.

(** The integer a dictionary has under [key], and 0 when it has no such
    key: what the dictionary adds to an integer total. *)
Definition int_figure (key : string) (stats : gmap string string) : Z :=
  match stats !! key with
  | Some v => match int v with Ok z => z | Raise _ => 0 end
  | None => 0
  end.

Section with_float.
Context `{Float}.

(** The floats that the dictionaries have under [key], in the order of the
    dictionaries; a dictionary without the key has none. *)
Definition float_figures (key : string) (dicts : list (gmap string string)) : list float :=
  omap (λ stats : gmap string string,
          v ← stats !! key;
          match float_of_string v with Ok x => Some x | Raise _ => None end) dicts.

(** The figures that a dictionary has can be read as numbers. *)
Definition well_formed (stats : gmap string string) : Prop :=
  (∀ v, stats !! "rows" = Some v → is_Ok (int v))
  ∧ (∀ v, stats !! "unique_users" = Some v → is_Ok (int v))
  ∧ (∀ v, stats !! "file_size_mb" = Some v → is_Ok (float_of_string v))
  ∧ (∀ v, stats !! "query_time_seconds" = Some v → is_Ok (float_of_string v)).

(** The statistics file [name] can be read and its figures are numbers. *)
Definition readable (dir : directory) (name : string) : Prop :=
  ∃ stats, read_stats dir name = Ok stats ∧ well_formed stats.

(** The running totals of the statistics loop. *)
Record totals := {
  total_rows : Z;
  total_unique_users : Z;
  total_size_mb : float;
  total_query_time : float;
  batch_stats : list (gmap string string);
}.

Definition no_totals : totals :=
  {| total_rows := 0; total_unique_users := 0; total_size_mb := float_zero;
     total_query_time := float_zero; batch_stats := [] |}.

(** The body of [for stats_file in stats_files] once [stats] is read: each
    of the four keys is added to its total when the dictionary has it. *)
Definition add_stats (t : totals) (stats : gmap string string) : result totals :=
  total_rows ←
    match stats !! "rows" with
    | Some v => rows ← int v; Ok (total_rows t + rows)
    | None => Ok (total_rows t)
    end;
  total_unique_users ←
    match stats !! "unique_users" with
    | Some v => unique_users ← int v; Ok (total_unique_users t + unique_users)
    | None => Ok (total_unique_users t)
    end;
  total_size_mb ←
    match stats !! "file_size_mb" with
    | Some v => size_mb ← float_of_string v; Ok (float_add (total_size_mb t) size_mb)
    | None => Ok (total_size_mb t)
    end;
  total_query_time ←
    match stats !! "query_time_seconds" with
    | Some v => query_time ← float_of_string v; Ok (float_add (total_query_time t) query_time)
    | None => Ok (total_query_time t)
    end;
  Ok {| total_rows := total_rows; total_unique_users := total_unique_users;
        total_size_mb := total_size_mb; total_query_time := total_query_time;
        batch_stats := batch_stats t ++ [stats] |}.

(** The loop [for stats_file in stats_files]. *)
Fixpoint collect_stats (dir : directory) (stats_files : list string) (t : totals)
    : result totals :=
  match stats_files with
  | [] => Ok t
  | stats_file :: stats_files' =>
      stats ← read_stats dir stats_file;
      t ← add_stats t stats;
      collect_stats dir stats_files' t
  end.

(** The averages per batch, printed when there is a statistics file. *)
Record averages := {
  avg_rows_per_batch : float;
  avg_size_per_batch : float;
  avg_query_time : float;
}.

Definition averages_of (t : totals) : option averages :=
  let n := len (batch_stats t) in
  if bool_decide (n > 0) then
    Some {| avg_rows_per_batch := int_truediv (total_rows t) n;
            avg_size_per_batch := float_div_int (total_size_mb t) n;
            avg_query_time := float_div_int (total_query_time t) n |}
  else None.

(** What [verify_extraction] prints, writes to [extraction_summary.txt] and
    returns: the ids found and missing, the numbers of files of both kinds,
    the totals and averages, and the returned value
    [len(missing_ids) == 0]. The texts themselves are not modelled. *)
Record report := {
  found_ids : gset Z;
  missing_ids : gset Z;
  batch_file_count : Z;
  stats_file_count : Z;
  stats_totals : totals;
  stats_averages : option averages;
  returned : bool;
}.

(** [verify_extraction(batch_dir, expected_batches)]. The summary file that
    the function leaves in the directory matches neither pattern of the
    listings; the directory is read only. *)
Definition verify_extraction (dir : directory) (expected_batches : Z) : result report :=
  let batch_files := sorted (glob "batch_" ".parquet" dir) in
  let stats_files := sorted (glob "batch_" "_stats.txt" dir) in
  found_ids ← collect_ids batch_files ∅;
  let missing_ids := missing_of expected_batches found_ids in
  t ← collect_stats dir stats_files no_totals;
  Ok {| found_ids := found_ids; missing_ids := missing_ids;
        batch_file_count := len batch_files; stats_file_count := len stats_files;
        stats_totals := t; stats_averages := averages_of t;
        returned := bool_decide (size missing_ids = 0%nat) |}.

(** The script: [success = verify_extraction(batch_dir)], then
    [sys.exit(1)] when [not success] and [sys.exit(0)] otherwise. An
    exception is not caught. *)
Definition main (dir : directory) : outcome :=
  match verify_extraction dir DEFAULT_EXPECTED_BATCHES with
  | Raise e => Uncaught e
  | Ok r => if returned r then Exited 0 else Exited 1
  end.

End with_float.
End VerifyExtraction.

(* ===================================================================== *)
(** * A fixed-point stand-in for floats *)
(* ===================================================================== *)

(** Hundredths as integers, to run the scripts on examples: the texts
    [f"{x:.2f}"] of the statistics files are read and added exactly. *)
Module Hundredths.

Definition of_string (s : string) : result Z :=
  match split_once "." s with
  | Some (whole, cents) =>
      if bool_decide (String.length cents = 2%nat) then
        match int whole, int_digits cents 0 false with
        | Ok a, Some b => Ok (100 * a + b)
        | _, _ => Raise ValueError
        end
      else Raise ValueError
  | None => Raise ValueError
  end.

Definition to_string (x : Z) : string :=
  str (x `div` 100) +:+ "." +:+ format_0d 2 (x `mod` 100).

Definition hundredths : Float := {|
  float := Z;
  float_zero := 0;
  float_add := Z.add;
  float_div_int := λ x n, x `div` n;
  int_truediv := λ a b, (100 * a) `div` b;
  float_of_string := of_string;
  format_2f := to_string;
|}.

End Hundredths.

(* ===================================================================== *)
(** * Sample runs *)
(* ===================================================================== *)

(** Small inputs on which the scripts are run in the examples below. *)
Module Samples.
Import NameBatches ExtractNamesBatch Hundredths.

(** A page in which the second row repeats the first. *)
Definition page : list name_row :=
  [ {| user_id := 7; fullname := "Ada Lovelace" |};
    {| user_id := 7; fullname := "Ada Lovelace" |};
    {| user_id := 9; fullname := "Alan Turing" |} ].

(** The database answers every query with [page]. *)
Definition answering : @world hundredths :=
  {| connect := Ok (); raw_sql := λ _, Ok page; query_seconds := (1234 : @float hundredths);
     getsize := λ _, 3000000; now := "2025-01-01 00:00:00" |}.

(** A page whose rows differ, as [SELECT DISTINCT] gives them. *)
Definition distinct_page : list name_row :=
  [ {| user_id := 7; fullname := "Ada Lovelace" |};
    {| user_id := 9; fullname := "Alan Turing" |} ].

(** The database answers every query with [distinct_page]. *)
Definition answering_distinct : @world hundredths :=
  {| connect := Ok (); raw_sql := λ _, Ok distinct_page;
     query_seconds := (1234 : @float hundredths);
     getsize := λ _, 2000000; now := "2025-01-01 00:00:00" |}.

(** The database is past the end of the table. *)
Definition exhausted : @world hundredths :=
  {| connect := Ok (); raw_sql := λ _, Ok []; query_seconds := (12 : @float hundredths);
     getsize := λ _, 0; now := "2025-01-01 00:00:00" |}.

(** The database refuses the query. *)
Definition refusing : @world hundredths :=
  {| connect := Ok (); raw_sql := λ _, Raise DatabaseError; query_seconds := (12 : @float hundredths);
     getsize := λ _, 0; now := "2025-01-01 00:00:00" |}.

(** The directory after the shards [task_ids] ran, the last of the list
    first, each with a page size of 10. *)
Definition run_shards (task_ids : list Z) : directory :=
  foldr (λ task_id dir, (extract_batch task_id 10 answering dir).2) ∅ task_ids.

(** The directory after shard 3 ran. *)
Definition after_3 : directory := run_shards [3].

(** The directory after shards 1, 2 and 4 ran. *)
Definition after_1_2_4 : directory := run_shards [4; 2; 1].

(** Two statistics files, of 100 and of 50 rows, and the shard file of the
    first only. *)
Definition two_sidecars : directory :=
  <["batch_0001.parquet" := Parquet []]>
  (<["batch_0001_stats.txt" := Text ["task_id: 1"; "rows: 100"; "unique_users: 90"]]>
  (<["batch_0002_stats.txt" := Text ["task_id: 2"; "rows: 50"; "unique_users: 50"]]> ∅)).

(** The directory after each of the 65 shards ran. *)
Definition complete : directory := run_shards (seqZ 1 65).

End Samples.

(** A CEO table for [generate_batches.py]. *)
Module CeoSamples.
Import GenerateBatches.

Record ceo := { ceo_first_name : string; ceo_surname : string; company : string }.

#[export] Instance ceo_eq_dec : EqDecision ceo.
Proof. solve_decision. Defined.

#[export] Instance ceo_row : CeoRow ceo :=
  {| first_name := ceo_first_name; surname := ceo_surname |}.

(** Five rows, of which the second repeats the first. *)
Definition repeated : list ceo :=
  [ {| ceo_first_name := "Ada"; ceo_surname := "Lovelace"; company := "Analytical Engines" |};
    {| ceo_first_name := "Ada"; ceo_surname := "Lovelace"; company := "Analytical Engines" |};
    {| ceo_first_name := "Alan"; ceo_surname := "Turing"; company := "Bombe Works" |};
    {| ceo_first_name := "Grace"; ceo_surname := "Hopper"; company := "Compilers Inc" |};
    {| ceo_first_name := "Edsger"; ceo_surname := "Dijkstra"; company := "Shortest Paths" |} ].

(** Five rows that differ. *)
Definition distinct : list ceo :=
  [ {| ceo_first_name := "Ada"; ceo_surname := "Lovelace"; company := "Analytical Engines" |};
    {| ceo_first_name := "Barbara"; ceo_surname := "Liskov"; company := "Substitution Ltd" |};
    {| ceo_first_name := "Alan"; ceo_surname := "Turing"; company := "Bombe Works" |};
    {| ceo_first_name := "Grace"; ceo_surname := "Hopper"; company := "Compilers Inc" |};
    {| ceo_first_name := "Edsger"; ceo_surname := "Dijkstra"; company := "Shortest Paths" |} ].

(** Two saved batches that hold the rows of [repeated], and their paths. *)
Definition saved_paths : list string := ["batch_01_ceos.csv"; "batch_02_ceos.csv"].
Definition saved_repeated : gmap string (file ceo) :=
  <["batch_01_ceos.csv" := Csv (take 3 repeated)]>
  (<["batch_02_ceos.csv" := Csv (drop 3 repeated)]> ∅).

End CeoSamples.

(* ===================================================================== *)
(** * Facts about the Python primitives *)
(* ===================================================================== *)

Module PyFacts.

Lemma bind_Ok {A B} (a : A) (k : A → result B) : Ok a ≫= k = k a.
Proof. done. Qed.

Lemma returns_is_Ok {A} (m : result A) : returns m = true → is_Ok m.
Proof. destruct m; [by eexists | done]. Qed.

Lemma sum_app (l1 l2 : list Z) : sum (l1 ++ l2) = sum l1 + sum l2.
Proof. unfold sum. induction l1 as [|x l1 IH]; simpl; lia. Qed.

(** ** Strings *)

Lemma string_app_cons c s t : String c s +:+ t = String c (s +:+ t).
Proof. done. Qed.

Lemma string_app_nil_r s : s +:+ "" = s.
Proof. induction s as [|c s IH]; [done|]. by rewrite string_app_cons, IH. Qed.

Lemma string_app_assoc s t u : (s +:+ t) +:+ u = s +:+ t +:+ u.
Proof. induction s as [|c s IH]; [done|]. by rewrite !string_app_cons, IH. Qed.

Lemma string_length_app s t :
  String.length (s +:+ t) = (String.length s + String.length t)%nat.
Proof. induction s as [|c s IH]; [done|]. rewrite string_app_cons. simpl. by rewrite IH. Qed.

Lemma string_rev_app_app s t : String.rev_app s t = String.rev_app s "" +:+ t.
Proof.
  revert t. induction s as [|c s IH]; intros t; [done|]. simpl.
  rewrite (IH (String c t)), (IH (String c "")). by rewrite string_app_assoc.
Qed.

Lemma string_rev_app s t : String.rev (s +:+ t) = String.rev t +:+ String.rev s.
Proof.
  unfold String.rev. induction s as [|c s IH].
  - by rewrite string_app_nil_r.
  - rewrite string_app_cons. simpl.
    rewrite (string_rev_app_app (s +:+ t)), IH, (string_rev_app_app s (String c "")).
    by rewrite string_app_assoc.
Qed.

Lemma string_rev_involutive s : String.rev (String.rev s) = s.
Proof.
  induction s as [|c s IH]; [done|].
  change (String c s) with (String c "" +:+ s).
  by rewrite !string_rev_app, IH.
Qed.

Lemma string_app_inv_tail s1 s2 t : s1 +:+ t = s2 +:+ t → s1 = s2.
Proof.
  intros E. apply (f_equal String.rev) in E. rewrite !string_rev_app in E.
  apply (inj (String.app _)) in E.
  apply (f_equal String.rev) in E. by rewrite !string_rev_involutive in E.
Qed.

Lemma starts_with_app p s : starts_with p (p +:+ s) = true.
Proof.
  induction p as [|c p IH]; [done|]. rewrite string_app_cons. simpl.
  by rewrite bool_decide_eq_true_2, IH.
Qed.

Lemma ends_with_app p s : ends_with p (s +:+ p) = true.
Proof. unfold ends_with. rewrite string_rev_app. apply starts_with_app. Qed.

Lemma starts_with_other c p a s : a ≠ c → starts_with (String c p) (String a s) = false.
Proof. intros Hne. simpl. by rewrite bool_decide_eq_false_2 by congruence. Qed.

Lemma all_chars_app P s t : all_chars P (s +:+ t) = all_chars P s && all_chars P t.
Proof.
  induction s as [|c s IH]; [done|]. rewrite string_app_cons. simpl.
  by rewrite IH, andb_assoc.
Qed.

Lemma all_chars_impl (P Q : ascii → bool) s :
  (∀ c, P c = true → Q c = true) → all_chars P s = true → all_chars Q s = true.
Proof.
  intros HPQ. induction s as [|c s IH]; [done|]. simpl.
  intros [Hc Hs]%andb_true_iff. rewrite HPQ, IH; done.
Qed.

Lemma all_chars_contains P c s :
  all_chars P s = true → P c = false → contains c s = false.
Proof.
  intros Hs Hc. induction s as [|a s IH]; [done|]. simpl in *.
  apply andb_true_iff in Hs as [Ha Hs]. rewrite IH by done.
  rewrite bool_decide_eq_false_2; [done|]. intros ->. congruence.
Qed.

Lemma contains_app c s t : contains c (s +:+ t) = contains c s || contains c t.
Proof.
  induction s as [|a s IH]; [done|]. rewrite string_app_cons. simpl.
  by rewrite IH, orb_assoc.
Qed.

Lemma occurs_app p m e : occurs m (p +:+ m +:+ e) = true.
Proof.
  induction p as [|c p IH].
  - simpl. destruct (m +:+ e) eqn:E; simpl; rewrite <-?E;
      by rewrite starts_with_app.
  - rewrite string_app_cons. simpl. rewrite IH. apply orb_true_r.
Qed.

(** ** [str.replace] *)

Lemma replace_go_skip old new t s :
  replace_go old new (String.length t) (t +:+ s) = replace_go old new 0 s.
Proof. induction t as [|c t IH]; [done|]. rewrite string_app_cons. by simpl. Qed.

(** An occurrence at the head is replaced. *)
Lemma replace_go_occurrence c old' new s :
  replace_go (String c old') new 0 (String c old' +:+ s)
  = new +:+ replace_go (String c old') new 0 s.
Proof.
  pose proof (starts_with_app (String c old') s) as Hs.
  rewrite string_app_cons in Hs |- *. cbn [replace_go].
  rewrite bool_decide_eq_false_2 by done.
  rewrite Hs. cbn [String.length Nat.pred].
  by rewrite replace_go_skip.
Qed.

(** A stretch without the first character of [old] is kept. *)
Lemma replace_go_absent c old' new t s :
  contains c t = false →
  replace_go (String c old') new 0 (t +:+ s)
  = t +:+ replace_go (String c old') new 0 s.
Proof.
  induction t as [|a t IH]; [done|]. cbn [contains].
  intros [Ha Ht]%orb_false_iff. apply bool_decide_eq_false in Ha.
  rewrite !string_app_cons. cbn [replace_go].
  rewrite bool_decide_eq_false_2 by done.
  rewrite starts_with_other by done. by rewrite IH.
Qed.

(** ** [int] and the formatting of integers *)

Lemma is_nat_digit_char d : 0 ≤ d ≤ 9 → Ascii.is_nat (digit_char d) = Some (Z.to_nat d).
Proof.
  intros Hd.
  assert (d = 0 ∨ d = 1 ∨ d = 2 ∨ d = 3 ∨ d = 4 ∨ d = 5 ∨ d = 6 ∨ d = 7 ∨ d = 8 ∨ d = 9)
    as Hcases by lia.
  repeat destruct Hcases as [->|Hcases]; try subst d; reflexivity.
Qed.

Lemma is_digit_digit_char d : 0 ≤ d ≤ 9 → is_digit (digit_char d) = true.
Proof. intros Hd. unfold is_digit. by rewrite is_nat_digit_char. Qed.

Lemma digits_loop_S fuel n acc :
  digits_loop (S fuel) n acc =
    if bool_decide (n `div` 10 = 0) then String (digit_char (n `mod` 10)) acc
    else digits_loop fuel (n `div` 10) (String (digit_char (n `mod` 10)) acc).
Proof. done. Qed.

Lemma digits_loop_acc fuel n acc :
  digits_loop fuel n acc = digits_loop fuel n "" +:+ acc.
Proof.
  revert n acc. induction fuel as [|fuel IH]; intros n acc; [done|]. simpl.
  case_bool_decide; [done|].
  rewrite (IH _ (String _ acc)), (IH _ (String _ "")). by rewrite string_app_assoc.
Qed.

(** Reading the digits written for [n] appends [n] to the number read so
    far: [m] is 10 to the number of digits. *)
Lemma int_digits_digits_loop fuel n :
  0 ≤ n < 2 ^ Z.of_nat (S fuel) →
  ∃ m, ∀ a p rest,
    int_digits (digits_loop (S fuel) n rest) a p = int_digits rest (a * m + n) true.
Proof.
  revert n. induction fuel as [|fuel IH]; intros n Hn.
  - exists 10. intros a p rest.
    change (2 ^ Z.of_nat 1) with 2 in Hn. cbn [digits_loop].
    assert (n `div` 10 = 0) as -> by (apply Z.div_small; lia).
    rewrite bool_decide_eq_true_2 by done. cbn [int_digits].
    assert (n `mod` 10 = n) as -> by (apply Z.mod_small; lia).
    rewrite is_nat_digit_char by lia.
    f_equal. lia.
  - pose proof (Z.mod_pos_bound n 10 ltac:(lia)) as Hmod.
    pose proof (Z.div_mod n 10 ltac:(lia)) as Hdm.
    destruct (decide (n `div` 10 = 0)) as [Hdiv|Hdiv].
    + exists 10. intros a p rest.
      rewrite digits_loop_S, bool_decide_eq_true_2 by done. cbn [int_digits].
      rewrite is_nat_digit_char by lia. f_equal. lia.
    + destruct (IH (n `div` 10)) as [m Hm].
      { split; [apply Z.div_pos; lia|].
        apply Z.div_lt_upper_bound; [lia|].
        rewrite Nat2Z.inj_succ, Z.pow_succ_r in Hn by lia.
        assert (0 < 2 ^ Z.of_nat (S fuel)) by (apply Z.pow_pos_nonneg; lia). lia. }
      exists (10 * m). intros a p rest.
      rewrite digits_loop_S, bool_decide_eq_false_2, Hm by done. cbn [int_digits]. rewrite is_nat_digit_char by lia.
      f_equal. lia.
Qed.

Lemma log2_fuel n : 0 ≤ n → 0 ≤ n < 2 ^ Z.of_nat (S (Z.to_nat (Z.log2 n))).
Proof.
  intros Hn. split; [done|].
  rewrite Nat2Z.inj_succ, Z2Nat.id by apply Z.log2_nonneg.
  destruct (decide (n = 0)) as [->|]; [done|].
  apply Z.log2_spec. lia.
Qed.

Lemma int_digits_str_nonneg n :
  0 ≤ n →
  ∃ m, ∀ a p rest,
    int_digits (str_nonneg n +:+ rest) a p = int_digits rest (a * m + n) true.
Proof.
  intros Hn. unfold str_nonneg.
  destruct (int_digits_digits_loop (Z.to_nat (Z.log2 n)) n) as [m Hm];
    [by apply log2_fuel|].
  exists m. intros a p rest. by rewrite <-digits_loop_acc.
Qed.

Lemma int_digits_zeros k s :
  int_digits (zeros (S k) +:+ s) 0 false = int_digits s 0 true.
Proof.
  assert (∀ p, int_digits (zeros (S k) +:+ s) 0 p = int_digits s 0 true) as Hp;
    [|by apply Hp].
  induction k as [|k IH]; intros p; [done|].
  change (zeros (S (S k))) with (String "0" (zeros (S k))).
  rewrite string_app_cons. cbn [int_digits Ascii.is_nat]. apply IH.
Qed.

(** Zeros in front do not change the number read. *)
Lemma int_digits_padded k n :
  0 ≤ n → int_digits (zeros k +:+ str_nonneg n) 0 false = Some n.
Proof.
  intros Hn. destruct (int_digits_str_nonneg n Hn) as [m Hm].
  assert (∀ p, int_digits (str_nonneg n) 0 p = Some n) as Hbody.
  { intros p. rewrite <-(string_app_nil_r (str_nonneg n)), Hm. cbn [int_digits]. f_equal; lia. }
  destruct k as [|k]; [apply Hbody|].
  rewrite int_digits_zeros. apply Hbody.
Qed.

Lemma all_chars_digits_loop P fuel n acc :
  (∀ d, 0 ≤ d ≤ 9 → P (digit_char d) = true) →
  all_chars P acc = true → all_chars P (digits_loop fuel n acc) = true.
Proof.
  intros HP. revert n acc. induction fuel as [|fuel IH]; intros n acc Hacc; [done|].
  pose proof (Z.mod_pos_bound n 10 ltac:(lia)).
  assert (all_chars P (String (digit_char (n `mod` 10)) acc) = true) as Hacc'.
  { simpl. rewrite HP, Hacc by lia. done. }
  simpl. case_bool_decide; [done|]. by apply IH.
Qed.

Lemma all_chars_zeros P k : P "0"%char = true → all_chars P (zeros k) = true.
Proof. intros HP. induction k as [|k IH]; [done|]. simpl. by rewrite HP, IH. Qed.

Lemma all_chars_padded k n : all_chars is_digit (zeros k +:+ str_nonneg n) = true.
Proof.
  rewrite all_chars_app, all_chars_zeros by done. unfold str_nonneg.
  by rewrite all_chars_digits_loop by (done || apply is_digit_digit_char).
Qed.

(** A formatted integer is made of digits and at most a minus sign. *)
Lemma all_chars_format_0d width n : all_chars is_number_char (format_0d width n) = true.
Proof.
  unfold format_0d. rewrite all_chars_app.
  rewrite (all_chars_impl is_digit is_number_char (zeros _ +:+ _)).
  - by case_bool_decide.
  - intros c Hc. unfold is_number_char. by rewrite Hc.
  - apply all_chars_padded.
Qed.

Lemma is_number_char_not_space c : is_number_char c = true → Ascii.is_space c = false.
Proof.
  unfold is_number_char, is_digit.
  destruct (Ascii.is_nat c) eqn:E.
  - intros _. destruct c as [[] [] [] [] [] [] [] []]; done.
  - intros ->%bool_decide_eq_true. done.
Qed.

Lemma lstrip_id sp P s :
  (∀ c, P c = true → sp c = false) → all_chars P s = true → lstrip sp s = s.
Proof.
  intros HP. destruct s as [|c s]; [done|]. simpl.
  intros [Hc _]%andb_true_iff. by rewrite HP.
Qed.

Lemma rstrip_id sp P s :
  (∀ c, P c = true → sp c = false) → all_chars P s = true → rstrip sp s = s.
Proof.
  intros HP. induction s as [|c s IH]; [done|]. simpl.
  intros [Hc Hs]%andb_true_iff. by rewrite HP, IH.
Qed.

(** A string of digits has no sign to split off. *)
Lemma split_sign_digits s : all_chars is_digit s = true → split_sign s = (false, s).
Proof.
  destruct s as [|c s]; [done|]. simpl. intros [Hc _]%andb_true_iff.
  rewrite !bool_decide_eq_false_2; [done|..]; by intros ->.
Qed.

(** [int] reads back what [format_0d] writes, whatever the width. *)
Lemma int_format_0d width n : int (format_0d width n) = Ok n.
Proof.
  unfold int.
  rewrite (lstrip_id _ is_number_char), (rstrip_id _ is_number_char)
    by (apply is_number_char_not_space || apply all_chars_format_0d).
  unfold format_0d. case_bool_decide as Hneg.
  - rewrite string_app_cons. cbn [split_sign]. rewrite bool_decide_eq_true_2 by done.
    change ("" +:+ ?s) with s.
    rewrite int_digits_padded by lia. f_equal. lia.
  - change ("" +:+ ?s) with s.
    rewrite split_sign_digits by apply all_chars_padded.
    rewrite int_digits_padded by lia. f_equal. lia.
Qed.

Lemma format_0d_inj width i j : format_0d width i = format_0d width j → i = j.
Proof.
  intros E. apply (f_equal int) in E. rewrite !int_format_0d in E. congruence.
Qed.

Lemma str_sign_body n :
  str n = (if bool_decide (n < 0) then "-" else "") +:+ str_nonneg (Z.abs n).
Proof.
  unfold str. case_bool_decide.
  - by rewrite Z.abs_neq by lia.
  - by rewrite Z.abs_eq by lia.
Qed.

Lemma length_zeros k : String.length (zeros k) = k.
Proof. induction k as [|k IH]; [done|]. simpl. by rewrite IH. Qed.

(** Padding: the formatted integer is as long as the decimal text of the
    number and at least [width] characters long. *)
Lemma length_format_0d width n :
  String.length (format_0d width n) = (width `max` String.length (str n))%nat.
Proof.
  rewrite str_sign_body. unfold format_0d.
  rewrite !string_length_app, length_zeros. lia.
Qed.

Lemma str_format_0d n : str n = format_0d 0 n.
Proof. by rewrite str_sign_body. Qed.

(** [int] reads back what [str] writes. *)
Lemma int_str n : int (str n) = Ok n.
Proof. rewrite str_format_0d. apply int_format_0d. Qed.

Lemma all_chars_str n : all_chars is_number_char (str n) = true.
Proof. rewrite str_format_0d. apply all_chars_format_0d. Qed.

Lemma is_number_char_not_str_space c :
  is_number_char c = true → negb (is_str_space c) = true.
Proof.
  unfold is_number_char, is_digit.
  destruct (Ascii.is_nat c) eqn:E.
  - intros _. destruct c as [[] [] [] [] [] [] [] []]; done.
  - intros ->%bool_decide_eq_true. done.
Qed.

(** ** Stripping and splitting *)

Lemma rstrip_app_no_space sp p t :
  all_chars (λ c, negb (sp c)) p = true → rstrip sp (p +:+ t) = p +:+ rstrip sp t.
Proof.
  induction p as [|c p IH]; [done|]. simpl.
  intros [Hc Hp]%andb_true_iff. rewrite !string_app_cons. simpl.
  apply negb_true_iff in Hc. by rewrite Hc, IH.
Qed.

Lemma strip_no_space s :
  all_chars (λ c, negb (is_str_space c)) s = true → strip s = s.
Proof.
  intros Hs. unfold strip.
  rewrite (lstrip_id _ (λ c, negb (is_str_space c))), (rstrip_id _ (λ c, negb (is_str_space c)));
    (done || by intros c ?%negb_true_iff).
Qed.

(** A value without white space comes back from behind its blank. *)
Lemma strip_after_blank s :
  s ≠ "" → all_chars (λ c, negb (is_str_space c)) s = true →
  strip (rstrip is_str_space (String " " s)) = s.
Proof.
  intros Hne Hs.
  assert (rstrip is_str_space s = s) as Hr
    by (apply (rstrip_id _ (λ c, negb (is_str_space c))); [by intros c ?%negb_true_iff|done]).
  cbn [rstrip]. rewrite Hr, bool_decide_eq_false_2 by done.
  rewrite andb_false_r. unfold strip. cbn [lstrip]. simpl is_str_space. cbn iota.
  fold (strip s). by apply strip_no_space.
Qed.

Lemma split_once_app sep p r :
  contains sep p = false → split_once sep (p +:+ String sep r) = Some (p, r).
Proof.
  induction p as [|c p IH]; cbn [contains].
  - intros _. change ("" +:+ ?s) with s. cbn [split_once].
    by rewrite bool_decide_eq_true_2.
  - intros [Hc Hp]%orb_false_iff. apply bool_decide_eq_false in Hc.
    rewrite string_app_cons. cbn [split_once].
    rewrite bool_decide_eq_false_2 by done. by rewrite IH.
Qed.

(** ** Frames *)

Section drop_duplicates.
Context {A K : Type} `{EqDecision K} (key : A → K).

Lemma drop_duplicates_from_spec (seen : list K) (df : list A) :
  NoDup (key <$> drop_duplicates_from key seen df)
  ∧ (∀ r, r ∈ drop_duplicates_from key seen df → r ∈ df ∧ key r ∉ seen)
  ∧ (∀ r, r ∈ df → key r ∈ seen ∨ key r ∈ key <$> drop_duplicates_from key seen df)
  ∧ drop_duplicates_from key seen df `sublist_of` df.
Proof.
  revert seen. induction df as [|r df IH]; intros seen; simpl.
  { split; [apply NoDup_nil_2|]. split; [by intros r ?%elem_of_nil|].
    split; [by intros r ?%elem_of_nil|done]. }
  case_bool_decide as Hseen.
  - destruct (IH seen) as (Hnd & Hin & Hcov & Hsub).
    split; [done|]. split; [|split].
    + intros r' Hr'. apply Hin in Hr' as [??]. split; [|done].
      apply elem_of_cons. by right.
    + intros r' [->|Hr']%elem_of_cons; [by left | by apply Hcov].
    + by apply sublist_cons.
  - destruct (IH (key r :: seen)) as (Hnd & Hin & Hcov & Hsub).
    split; [|split; [|split]].
    + rewrite fmap_cons. apply NoDup_cons. split; [|done].
      intros (r' & Hk & Hr')%list_elem_of_fmap.
      apply Hin in Hr' as [_ Hr']. apply Hr'. rewrite Hk. by left.
    + intros r' [->|Hr']%elem_of_cons.
      * split; [by left|done].
      * apply Hin in Hr' as [? Hr']. split.
        -- apply elem_of_cons. by right.
        -- intros ?. apply Hr'. apply elem_of_cons. by right.
    + intros r' [->|Hr']%elem_of_cons.
      * right. rewrite fmap_cons. by left.
      * destruct (Hcov r' Hr') as [[->|?]%elem_of_cons|?].
        -- right. rewrite fmap_cons. by left.
        -- by left.
        -- right. rewrite fmap_cons. apply elem_of_cons. by right.
    + by apply sublist_skip.
Qed.

(** After [drop_duplicates] no two rows agree on the key; every row kept is
    a row of the frame, in the order of the frame; and every key of the frame
    is still there. *)
Lemma drop_duplicates_spec (df : list A) :
  NoDup (key <$> drop_duplicates key df)
  ∧ (∀ r, r ∈ drop_duplicates key df → r ∈ df)
  ∧ (∀ r, r ∈ df → key r ∈ key <$> drop_duplicates key df)
  ∧ drop_duplicates key df `sublist_of` df.
Proof.
  destruct (drop_duplicates_from_spec [] df) as (Hnd & Hin & Hcov & Hsub).
  repeat split; [done| |  |done].
  - intros r Hr. by apply Hin.
  - intros r Hr. destruct (Hcov r Hr) as [?%elem_of_nil|]; done.
Qed.

End drop_duplicates.

(** ** Slices *)

Lemma slice_nonneg {A} (l : list A) (s e : Z) :
  0 ≤ s → s ≤ e → e ≤ len l →
  slice l s e = take (Z.to_nat (e - s)) (drop (Z.to_nat s) l).
Proof.
  intros Hs He Hl. unfold slice, slice_index.
  rewrite !bool_decide_eq_false_2 by lia.
  rewrite !Z.min_l by lia. done.
Qed.

Lemma length_slice_nonneg {A} (l : list A) (s e : Z) :
  0 ≤ s → s ≤ e → e ≤ len l → len (slice l s e) = e - s.
Proof.
  intros Hs He Hl. rewrite slice_nonneg by done.
  unfold len in *. rewrite length_take, length_drop. lia.
Qed.

End PyFacts.

(* ===================================================================== *)
(** * The partition of generate_batches.py *)
(* ===================================================================== *)

Module GenerateBatchesFacts.
Import GenerateBatches CeoSamples PyFacts.

(** The size of shard [i], as the comprehension computes it. *)
Lemma lookup_batch_sizes (total k : Z) (i : nat) :
  Z.of_nat i < k →
  batch_sizes total k !! i =
    Some (total `div` k + (if bool_decide (Z.of_nat i < total `mod` k) then 1 else 0)).
Proof.
  intros Hi. unfold batch_sizes, range.
  rewrite list_lookup_fmap, lookup_seqZ_lt by done. simpl. by rewrite Z.add_0_l.
Qed.

Lemma length_batch_sizes (total k : Z) : length (batch_sizes total k) = Z.to_nat k.
Proof. unfold batch_sizes, range. by rewrite length_fmap, length_seqZ. Qed.

Lemma batch_sizes_nonneg (total k : Z) :
  0 ≤ total → 1 ≤ k → Forall (λ s, 0 ≤ s) (batch_sizes total k).
Proof.
  intros Ht Hk. unfold batch_sizes. apply Forall_fmap, Forall_forall.
  intros i _. simpl.
  assert (0 ≤ total `div` k) by (apply Z.div_pos; lia).
  case_bool_decide; lia.
Qed.

(** The first [n] sizes add up to [n * base + min n remainder]. *)
Lemma sum_sizes_prefix (b r : Z) (n : nat) :
  0 ≤ r →
  sum ((λ i, b + (if bool_decide (i < r) then 1 else 0)) <$> seqZ 0 (Z.of_nat n))
  = Z.of_nat n * b + Z.min (Z.of_nat n) r.
Proof.
  intros Hr. induction n as [|n IH].
  - simpl. lia.
  - rewrite seqZ_S, fmap_app, sum_app, IH. simpl.
    case_bool_decide; lia.
Qed.

(** The sizes add up to the number of records. *)
Lemma sum_batch_sizes (total k : Z) :
  0 ≤ total → 1 ≤ k → sum (batch_sizes total k) = total.
Proof.
  intros Ht Hk. unfold batch_sizes, range.
  replace (seqZ 0 k) with (seqZ 0 (Z.of_nat (Z.to_nat k))) by (f_equal; lia).
  assert (0 ≤ total `mod` k < k) as Hm by (apply Z.mod_pos_bound; lia).
  rewrite sum_sizes_prefix by lia.
  rewrite Z2Nat.id, Z.min_r by lia.
  pose proof (Z.div_mod total k). lia.
Qed.

(** Walking the cursor through [df] cuts the window
    [start, start + sum sizes) into consecutive pieces of the given sizes. *)
Lemma slice_batches_window {A} (df : list A) (sizes : list Z) (start : Z) :
  Forall (λ s, 0 ≤ s) sizes → 0 ≤ start → start + sum sizes ≤ len df →
  concat (slice_batches df start sizes)
    = take (Z.to_nat (sum sizes)) (drop (Z.to_nat start) df)
  ∧ len <$> slice_batches df start sizes = sizes.
Proof.
  intros Hpos. revert start.
  induction Hpos as [|size sizes Hsize Hpos IH]; intros start Hstart Hfit.
  - done.
  - cbn [slice_batches sum foldr concat fmap list_fmap] in *.
    fold (sum sizes) in *.
    assert (0 ≤ sum sizes) as Hsum.
    { clear -Hpos. induction Hpos; cbn; [lia|]. fold (sum l). lia. }
    destruct (IH (start + size)) as [IHc IHl]; [lia..|].
    split.
    + rewrite IHc, slice_nonneg by lia.
      replace (start + size - start) with size by lia.
      rewrite !Z2Nat.inj_add by lia.
      rewrite <-drop_drop. apply take_take_drop.
    + f_equal; [|done].
      rewrite length_slice_nonneg by lia. lia.
Qed.

(** The shards of [split_into_batches] for [k >= 1]: their sizes are the
    batch sizes and their concatenation is the frame. *)
Lemma slice_batches_partition {A} (R : list A) (k : Z) :
  1 ≤ k →
  concat (slice_batches R 0 (batch_sizes (len R) k)) = R
  ∧ len <$> slice_batches R 0 (batch_sizes (len R) k) = batch_sizes (len R) k.
Proof.
  intros Hk. assert (0 ≤ len R) as HR by (unfold len; lia).
  destruct (slice_batches_window R (batch_sizes (len R) k) 0) as [Hcat Hlen].
  { by apply batch_sizes_nonneg. }
  { done. }
  { rewrite sum_batch_sizes by done. lia. }
  split; [|done].
  rewrite Hcat, sum_batch_sizes by done. simpl.
  unfold len. rewrite Nat2Z.id. apply take_ge. lia.
Qed.

(** C1. For every record list [R] and every shard count [k >= 1],
    [split_into_batches] returns exactly [k] shards; shard [i] (0-indexed) has
    [base + 1] records when [i < remainder] and [base] records otherwise,
    with [base = len(R) // k] and [remainder = len(R) % k]; the shards
    concatenated in shard order are [R] itself; and the sizes of any two
    shards differ by at most 1. *)
Theorem split_into_batches_partition {A} (R : list A) (k : Z) :
  1 ≤ k →
  ∃ shards : list (list A),
    split_into_batches R k = Ok shards
    ∧ len shards = k
    ∧ (∀ i : nat, Z.of_nat i < k →
         len <$> shards !! i =
           Some (if bool_decide (Z.of_nat i < len R `mod` k)
                 then len R `div` k + 1 else len R `div` k))
    ∧ concat shards = R
    ∧ (∀ s1 s2, s1 ∈ shards → s2 ∈ shards → Z.abs (len s1 - len s2) ≤ 1).
Proof.
  intros Hk. eexists. split.
  { unfold split_into_batches. by rewrite bool_decide_eq_false_2 by lia. }
  destruct (slice_batches_partition R k Hk) as [Hcat Hlen].
  assert (∀ i : nat, Z.of_nat i < k →
    len <$> slice_batches R 0 (batch_sizes (len R) k) !! i =
      Some (len R `div` k + (if bool_decide (Z.of_nat i < len R `mod` k) then 1 else 0)))
    as Hsize.
  { intros i Hi. rewrite <-list_lookup_fmap, Hlen. by apply lookup_batch_sizes. }
  repeat split.
  - unfold len at 1.
    rewrite <-(length_fmap len), Hlen, length_batch_sizes. lia.
  - intros i Hi. rewrite Hsize by done. by case_bool_decide; rewrite ?Z.add_0_r.
  - done.
  - intros s1 s2 [i1 H1]%list_elem_of_lookup [i2 H2]%list_elem_of_lookup.
    assert (Z.of_nat i1 < k ∧ Z.of_nat i2 < k) as [Hi1 Hi2].
    { apply lookup_lt_Some in H1, H2.
      rewrite <-(length_fmap len), Hlen, length_batch_sizes in H1, H2. lia. }
    pose proof (Hsize i1 Hi1) as E1. pose proof (Hsize i2 Hi2) as E2.
    rewrite H1 in E1. rewrite H2 in E2. simpl in E1, E2.
    injection E1 as ->. injection E2 as ->.
    repeat case_bool_decide; lia.
Qed.

(** The scenario of the specification: 13 records in 5 shards have sizes
    3, 3, 3, 2, 2. *)
Lemma split_into_batches_partition_witness :
  1 ≤ 5 ∧
  ∃ shards : list (list Z),
    split_into_batches (seqZ 1 13) 5 = Ok shards
    ∧ len shards = 5
    ∧ (∀ i : nat, Z.of_nat i < 5 →
         len <$> shards !! i =
           Some (if bool_decide (Z.of_nat i < len (seqZ 1 13) `mod` 5)
                 then len (seqZ 1 13) `div` 5 + 1 else len (seqZ 1 13) `div` 5))
    ∧ concat shards = seqZ 1 13
    ∧ (∀ s1 s2, s1 ∈ shards → s2 ∈ shards → Z.abs (len s1 - len s2) ≤ 1).
Proof. split; [lia | apply (split_into_batches_partition (seqZ 1 13) 5); lia]. Defined.

Example split_13_into_5 :
  split_into_batches (seqZ 1 13) 5
  = Ok [[1; 2; 3]; [4; 5; 6]; [7; 8; 9]; [10; 11]; [12; 13]].
Proof. reflexivity. Qed.

(** ** The verification of the shards *)

Section verification.
Context {R : Type} `{CeoRow R}.

Lemma count_true_cons (b : bool) (mask : list bool) :
  count_true (b :: mask) = (if b then 1 else 0) + count_true mask.
Proof.
  unfold count_true, len. rewrite filter_cons.
  destruct b; case_decide; simpl; (lia || done).
Qed.

Lemma count_true_nonneg (mask : list bool) : 0 ≤ count_true mask.
Proof. unfold count_true, len. lia. Qed.

Lemma duplicated_from_none (seen df : list R) :
  count_true (duplicated_from seen df) = 0 ↔ NoDup df ∧ ∀ r, r ∈ df → r ∉ seen.
Proof.
  revert seen. induction df as [|r df IH]; intros seen; simpl.
  - split; [|done]. intros _. split; [apply NoDup_nil_2|by intros ? ?%elem_of_nil].
  - rewrite count_true_cons.
    pose proof (count_true_nonneg (duplicated_from (r :: seen) df)).
    rewrite NoDup_cons. split.
    + intros Hcount. case_bool_decide as Hseen; [lia|].
      apply IH in Hcount as [Hnd Hfresh]. repeat split; [|done|].
      * intros Hr. apply (Hfresh r Hr). by left.
      * intros r' [->|Hr']%elem_of_cons; [done|].
        intros ?. apply (Hfresh r' Hr'). by right.
    + intros [[Hr Hnd] Hfresh].
      rewrite bool_decide_eq_false_2 by (apply Hfresh; by left).
      rewrite (proj2 (IH (r :: seen))); [done|]. split; [done|].
      intros r' Hr' [->|?]%elem_of_cons; [done|].
      apply (Hfresh r'); [by right|done].
Qed.

(** No row is marked exactly when no row occurs twice. *)
Lemma duplicated_none (df : list R) :
  count_true (duplicated df) = 0 ↔ NoDup df.
Proof.
  unfold duplicated. rewrite duplicated_from_none. split; [by intros [? _]|].
  intros ?. split; [done|]. by intros ? _ ?%elem_of_nil.
Qed.

(** [verify_batches] returns when the shard files can be read and there is
    at least one, and then it returns true exactly when the rows read back
    are as many as the original rows and no row occurs twice among them. *)
Lemma verify_batches_verdict (original_df : list R) (saved_files : list string)
    (dir : gmap string (file R)) (verdict : bool) :
  verify_batches original_df saved_files dir = Ok verdict ↔
  ∃ frames,
    mapM (read_csv dir) saved_files = Ok frames
    ∧ frames ≠ []
    ∧ verdict = bool_decide (len original_df = len (concat frames) ∧ NoDup (concat frames)).
Proof.
  unfold verify_batches.
  destruct (mapM (read_csv dir) saved_files) as [frames|e]; simpl.
  2:{ split; [done | by intros (? & ? & _)]. }
  destruct frames as [|frame frames]; simpl.
  { split; [done | by intros (? & [= <-] & ? & _)]. }
  case_bool_decide as Hcount.
  - case_bool_decide as Hdup.
    + apply duplicated_none in Hdup. split.
      * intros [= <-]. eexists. split; [done|]. split; [done|].
        by rewrite bool_decide_eq_true_2.
      * intros (? & [= <-] & _ & ->). by rewrite bool_decide_eq_true_2.
    + rewrite duplicated_none in Hdup. split.
      * intros [= <-]. eexists. split; [done|]. split; [done|].
        rewrite bool_decide_eq_false_2; [done|]. by intros [_ ?].
      * intros (? & [= <-] & _ & ->).
        rewrite bool_decide_eq_false_2; [done|]. by intros [_ ?].
  - split.
    + intros [= <-]. eexists. split; [done|]. split; [done|].
      rewrite bool_decide_eq_false_2; [done|]. by intros [? _].
    + intros (? & [= <-] & _ & ->).
      rewrite bool_decide_eq_false_2; [done|]. by intros [? _].
Qed.

(** ** The run *)

Lemma batch_filename_inj (i j : Z) : batch_filename i = batch_filename j → i = j.
Proof.
  unfold batch_filename. intros E. apply (inj (String.app "batch_")) in E.
  by apply string_app_inv_tail, format_0d_inj in E.
Qed.

(** [main] ends at its first statement: [create_batch_directory()] raises
    [AttributeError], which [except Exception] answers by [sys.exit(1)]. *)
Lemma main_failed (input : option (result (list R))) (dir : gmap string (file R)) :
  main input dir = failed dir.
Proof. reflexivity. Qed.

(** The file does not compile: nothing of it runs. *)
Lemma script_failed (input : option (result (list R))) (dir : gmap string (file R)) :
  script input dir = failed dir.
Proof. reflexivity. Qed.

(** C2. [verify_batches] on saved files that can be read, at least one:
    it returns [False] exactly when the number of rows read back differs
    from that of the original table or a row occurs twice among them, and
    [True] exactly when neither is so. No run reports success after such a
    failure, because no run reports success: with the [BATCH_DIR] of
    config.py, [main] ends with [sys.exit(1)] in [create_batch_directory()],
    before a table is loaded or a file is written, and the script itself
    does not compile, so that the process exits with status 1 whatever the
    input. (The value of [verify_batches] is not used by [main]; no run
    gets there.) *)
Theorem verify_batches_fails_loudly (original_df : list R) (saved_files : list string)
    (dir : gmap string (file R)) (frames : list (list R)) :
  mapM (read_csv dir) saved_files = Ok frames →
  frames ≠ [] →
  (verify_batches original_df saved_files dir = Ok false
   ↔ len original_df ≠ len (concat frames) ∨ ¬ NoDup (concat frames))
  ∧ (verify_batches original_df saved_files dir = Ok true
     ↔ len original_df = len (concat frames) ∧ NoDup (concat frames))
  ∧ (∀ input files,
       exit_code (main input files) = 1
       ∧ success_reported (main input files) = false
       ∧ verification (main input files) = None
       ∧ batch_dir_after (main input files) = files)
  ∧ (∀ input files,
       exit_code (script input files) = 1
       ∧ success_reported (script input files) = false
       ∧ verification (script input files) = None
       ∧ batch_dir_after (script input files) = files).
Proof.
  intros Hread Hne.
  assert (verify_batches original_df saved_files dir
          = Ok (bool_decide (len original_df = len (concat frames)
                             ∧ NoDup (concat frames)))) as ->.
  { apply verify_batches_verdict. by exists frames. }
  split; [|split; [|split]].
  - split.
    + intros [= Hfalse]. apply bool_decide_eq_false in Hfalse.
      by apply not_and_l in Hfalse.
    + intros Hfails. f_equal. apply bool_decide_eq_false. by apply not_and_l.
  - split.
    + intros [= Htrue]. by apply bool_decide_eq_true in Htrue.
    + intros Hpasses. f_equal. by apply bool_decide_eq_true.
  - intros input files. by rewrite main_failed.
  - intros input files. by rewrite script_failed.
Qed.

End verification.

(** The rows of [CeoSamples.repeated] saved in two files: the verification
    returns [False], and a run on that table exits with status 1. *)
Lemma verify_batches_fails_loudly_witness :
  verify_batches CeoSamples.repeated CeoSamples.saved_paths CeoSamples.saved_repeated
  = Ok false
  ∧ exit_code (main (Some (Ok CeoSamples.repeated)) ∅) = 1
  ∧ success_reported (main (Some (Ok CeoSamples.repeated)) ∅) = false.
Proof.
  destruct (verify_batches_fails_loudly CeoSamples.repeated CeoSamples.saved_paths
              CeoSamples.saved_repeated
              [take 3 CeoSamples.repeated; drop 3 CeoSamples.repeated])
    as (Hfalse & _ & Hmain & _).
  - vm_compute. reflexivity.
  - discriminate.
  - split.
    + apply Hfalse. right. apply (bool_decide_unpack _). vm_compute. reflexivity.
    + destruct (Hmain (Some (Ok CeoSamples.repeated)) ∅) as (Hexit & Hsuccess & _).
      split; [exact Hexit | exact Hsuccess].
Defined.

(** Rows that differ, saved as they are, pass. *)
Example verify_batches_distinct_rows :
  verify_batches CeoSamples.distinct ["a.csv"; "b.csv"]
    (<["a.csv" := Csv (take 2 CeoSamples.distinct)]>
     (<["b.csv" := Csv (drop 2 CeoSamples.distinct)]> ∅))
  = Ok true.
Proof. vm_compute. reflexivity. Qed.

End GenerateBatchesFacts.

(* ===================================================================== *)
(** * The shard extractor of extract_names_batch.py *)
(* ===================================================================== *)

Module ExtractNamesBatchFacts.
Import NameBatches ExtractNamesBatch PyFacts.

(** ** Windows *)

(** C4. For every shard index [i >= 1] and page size [p >= 1] the offset of
    the query is [(i - 1) * p]; the first offset is 0 and consecutive offsets
    differ by [p]. Hence the windows [[offset, offset + p)] of consecutive
    indices touch, no position lies in the windows of two indices, and every
    position from 0 on lies in the window of some index. *)
Theorem batch_offset_windows (i p : Z) :
  1 ≤ i → 1 ≤ p →
  batch_offset i p = (i - 1) * p
  ∧ offset (batch_query i p) = batch_offset i p
  ∧ limit (batch_query i p) = p
  ∧ batch_offset 1 p = 0
  ∧ batch_offset (i + 1) p - batch_offset i p = p
  ∧ batch_offset i p + p = batch_offset (i + 1) p
  ∧ (∀ j x, 1 ≤ j →
       batch_offset i p ≤ x < batch_offset i p + p →
       batch_offset j p ≤ x < batch_offset j p + p → j = i)
  ∧ (∀ x, 0 ≤ x → ∃ j, 1 ≤ j ∧ batch_offset j p ≤ x < batch_offset j p + p).
Proof.
  intros Hi Hp. unfold batch_query, batch_offset. simpl.
  repeat split; try lia.
  - intros j x Hj [Hi1 Hi2] [Hj1 Hj2].
    assert ((i - 1) * p < j * p) as H1 by lia.
    assert ((j - 1) * p < i * p) as H2 by lia.
    apply Z.mul_lt_mono_pos_r in H1, H2; lia.
  - intros x Hx. exists (x `div` p + 1).
    pose proof (Z.div_pos x p Hx ltac:(lia)).
    pose proof (Z.mod_pos_bound x p ltac:(lia)).
    pose proof (Z.div_mod x p ltac:(lia)).
    nia.
Qed.

(** Page size 10, shard 3: the window starts at 20. *)
Lemma batch_offset_windows_witness :
  batch_offset 3 10 = 20 ∧ batch_offset 4 10 - batch_offset 3 10 = 10.
Proof.
  destruct (batch_offset_windows 3 10 ltac:(lia) ltac:(lia)) as (E & _ & _ & _ & D & _).
  split; [by rewrite E | done].
Defined.

(** ** Failure and the empty page *)

(** C5. When the query raises, [extract_batch] ends with [sys.exit(1)] and
    leaves the directory as it was: neither a shard file nor a statistics
    file is created, and the files of earlier runs are untouched. The process
    exits with status 1. *)
Theorem extract_batch_query_error `{Float} (task_id p : Z) (w : world)
    (dir : directory) (e : exn) :
  connect w = Ok () →
  raw_sql w (batch_query task_id p) = Raise e →
  extract_batch task_id p w dir = (Exited 1, dir)
  ∧ exit_status (Exited 1) ≠ 0
  ∧ (p = 10000000 → main task_id w dir = (1, dir)).
Proof.
  intros Hc Hq. assert (extract_batch task_id p w dir = (Exited 1, dir)) as E.
  { unfold extract_batch. by rewrite Hc, Hq. }
  split; [done|]. split; [done|]. intros ->. unfold main. by rewrite E.
Qed.

(** A refused query for shard 3 leaves the earlier output of shard 3 alone. *)
Lemma extract_batch_query_error_witness :
  extract_batch 3 10 Samples.refusing Samples.after_3 = (Exited 1, Samples.after_3)
  ∧ is_Some (Samples.after_3 !! output_file 3).
Proof.
  split.
  - apply (extract_batch_query_error 3 10 Samples.refusing Samples.after_3 DatabaseError);
      reflexivity.
  - vm_compute. eauto.
Defined.

(** C6. When the query returns no row, [extract_batch] returns normally and
    leaves the directory as it was: no shard file and no statistics file is
    written. The process exits with status 0. *)
Theorem extract_batch_empty_page `{Float} (task_id p : Z) (w : world)
    (dir : directory) (rows : list name_row) :
  connect w = Ok () →
  raw_sql w (batch_query task_id p) = Ok rows →
  len rows = 0 →
  extract_batch task_id p w dir = (Returned, dir)
  ∧ exit_status Returned = 0
  ∧ (p = 10000000 → main task_id w dir = (0, dir)).
Proof.
  intros Hc Hq Hlen. assert (extract_batch task_id p w dir = (Returned, dir)) as E.
  { unfold extract_batch. by rewrite Hc, Hq, bool_decide_eq_true_2. }
  split; [done|]. split; [done|]. intros ->. unfold main. by rewrite E.
Qed.

(** Page size 10, shard 3, past the end of the table: nothing is written. *)
Lemma extract_batch_empty_page_witness :
  batch_offset 3 10 = 20
  ∧ extract_batch 3 10 Samples.exhausted ∅ = (Returned, ∅).
Proof.
  split; [reflexivity|].
  apply (extract_batch_empty_page 3 10 Samples.exhausted ∅ []); reflexivity.
Defined.

(** ** File names *)

Lemma output_file_ne_stats_file (i j : Z) : output_file i ≠ stats_file j.
Proof.
  unfold output_file, stats_file. intros E.
  apply (f_equal (ends_with ".parquet")) in E.
  rewrite <-!string_app_assoc, ends_with_app in E.
  unfold ends_with in E. rewrite string_rev_app in E.
  change (String.rev "_stats.txt") with "txt.stats_" in E.
  rewrite !string_app_cons in E. done.
Qed.

Lemma stats_file_ne (i j : Z) : i ≠ j → stats_file i ≠ stats_file j.
Proof.
  unfold stats_file. intros Hne E. apply Hne.
  apply (inj (String.app "batch_")) in E.
  by apply string_app_inv_tail, format_0d_inj in E.
Qed.

(** ** Deduplication *)

(** C8. When the query returns at least one row, the rows are deduplicated
    on the pair [(user_id, fullname)] before they are saved: the shard file
    holds no two rows with the same pair. The rows saved are rows of the
    page, in the order of the page, and every row of the page is among
    them. *)
Theorem extract_batch_deduplicates `{Float} (task_id p : Z) (w : world)
    (dir : directory) (rows : list name_row) :
  connect w = Ok () →
  raw_sql w (batch_query task_id p) = Ok rows →
  len rows ≠ 0 →
  ∃ saved : list name_row,
    (extract_batch task_id p w dir).1 = Returned
    ∧ (extract_batch task_id p w dir).2 !! output_file task_id = Some (Parquet saved)
    ∧ NoDup ((λ r, (user_id r, fullname r)) <$> saved)
    ∧ (∀ r, r ∈ saved ↔ r ∈ rows)
    ∧ saved `sublist_of` rows.
Proof.
  intros Hc Hq Hlen.
  exists (drop_duplicates (λ r, (user_id r, fullname r)) rows).
  unfold extract_batch. rewrite Hc, Hq, bool_decide_eq_false_2 by done. simpl.
  destruct (drop_duplicates_spec (λ r, (user_id r, fullname r)) rows)
    as (Hnd & Hin & Hcov & Hsub).
  repeat split; try done.
  - rewrite lookup_insert_ne by (apply not_eq_sym, output_file_ne_stats_file).
    by rewrite lookup_insert_eq.
  - apply Hin.
  - intros Hr. apply Hcov in Hr as (r' & Hk & Hr')%list_elem_of_fmap.
    destruct r, r'. simpl in Hk. by simplify_eq.
Qed.

(** The page of three rows with one repetition is saved as two rows. *)
Lemma extract_batch_deduplicates_witness :
  ∃ saved : list name_row,
    (extract_batch 3 10 Samples.answering ∅).1 = Returned
    ∧ (extract_batch 3 10 Samples.answering ∅).2 !! output_file 3 = Some (Parquet saved)
    ∧ NoDup ((λ r, (user_id r, fullname r)) <$> saved)
    ∧ (∀ r, r ∈ saved ↔ r ∈ Samples.page)
    ∧ saved `sublist_of` Samples.page.
Proof.
  apply (extract_batch_deduplicates 3 10 Samples.answering ∅ Samples.page);
    [reflexivity | reflexivity | vm_compute; discriminate].
Defined.

Example extract_batch_drops_repetition :
  (extract_batch 3 10 Samples.answering ∅).2 !! "batch_0003.parquet"
  = Some (Parquet [ {| user_id := 7; fullname := "Ada Lovelace" |};
                    {| user_id := 9; fullname := "Alan Turing" |} ]).
Proof. vm_compute. reflexivity. Qed.

End ExtractNamesBatchFacts.

(* ===================================================================== *)
(** * The names of the shard files *)
(* ===================================================================== *)

Module FileNameFacts.
Import NameBatches ExtractNamesBatch VerifyExtraction PyFacts.

Lemma contains_format_0d c width n :
  is_number_char c = false → contains c (format_0d width n) = false.
Proof. intros Hc. by apply (all_chars_contains is_number_char), Hc; apply all_chars_format_0d. Qed.

(** The two replacements leave the index field of a shard file name. *)
Lemma strip_output_name (index : string) :
  all_chars is_number_char index = true →
  replace ".parquet" "" (replace "batch_" "" ("batch_" +:+ index +:+ ".parquet")) = index.
Proof.
  intros Hidx. unfold replace.
  rewrite replace_go_occurrence. change ("" +:+ ?s) with s.
  rewrite <-(string_app_nil_r (index +:+ ".parquet")) at 1.
  rewrite replace_go_absent.
  2:{ rewrite contains_app, (all_chars_contains is_number_char) by done. done. }
  change (replace_go "batch_" "" 0 "") with "". rewrite string_app_nil_r.
  rewrite replace_go_absent by by apply (all_chars_contains is_number_char).
  change (replace_go ".parquet" "" 0 ".parquet") with "". apply string_app_nil_r.
Qed.

Lemma task_id_of_output_file (i : Z) : task_id_of (output_file i) = Ok i.
Proof.
  unfold task_id_of, output_file.
  rewrite strip_output_name by apply all_chars_format_0d. apply int_format_0d.
Qed.

Lemma fnmatch_output_file (i : Z) : fnmatch_star "batch_" ".parquet" (output_file i) = true.
Proof.
  unfold fnmatch_star, output_file.
  rewrite starts_with_app. rewrite <-string_app_assoc, ends_with_app.
  rewrite bool_decide_eq_true_2; [done|]. rewrite !string_length_app. simpl. lia.
Qed.

Lemma fnmatch_stats_file (i : Z) : fnmatch_star "batch_" "_stats.txt" (stats_file i) = true.
Proof.
  unfold fnmatch_star, stats_file.
  rewrite starts_with_app. rewrite <-string_app_assoc, ends_with_app.
  rewrite bool_decide_eq_true_2; [done|]. rewrite !string_length_app. simpl. lia.
Qed.

Lemma fnmatch_output_file_stats (i : Z) :
  fnmatch_star "batch_" "_stats.txt" (output_file i) = false.
Proof.
  unfold fnmatch_star, output_file.
  assert (ends_with "_stats.txt" ("batch_" +:+ format_0d 4 i +:+ ".parquet") = false) as ->;
    [|apply andb_false_r].
  rewrite <-string_app_assoc. unfold ends_with. rewrite string_rev_app.
  change (String.rev ".parquet") with "teuqrap.". by rewrite !string_app_cons.
Qed.

Lemma fnmatch_stats_file_data (i : Z) : fnmatch_star "batch_" ".parquet" (stats_file i) = false.
Proof.
  unfold fnmatch_star, stats_file.
  assert (ends_with ".parquet" ("batch_" +:+ format_0d 4 i +:+ "_stats.txt") = false) as ->;
    [|apply andb_false_r].
  rewrite <-string_app_assoc. unfold ends_with. rewrite string_rev_app.
  change (String.rev "_stats.txt") with "txt.stats_". by rewrite !string_app_cons.
Qed.

(** C9, as the code has it. An input shard is named [batch_NN_ceos.csv] and
    an output shard [batch_NNNN.parquet], where the index is padded with
    zeros to 2 and to 4 characters; the statistics file of an output shard has
    the stem of the shard file, then [_stats], and the extension [.txt]. For
    every index [i], the pattern [batch_*.parquet] of the listing matches the
    output file and not the statistics file, the pattern [batch_*_stats.txt]
    matches the statistics file, and the index parsed from the name of the
    output file is [i]. *)
Theorem shard_file_name_round_trip (i : Z) :
  task_id_of (output_file i) = Ok i
  ∧ fnmatch_star "batch_" ".parquet" (output_file i) = true
  ∧ fnmatch_star "batch_" "_stats.txt" (stats_file i) = true
  ∧ fnmatch_star "batch_" ".parquet" (stats_file i) = false
  ∧ (∃ index : string,
       output_file i = "batch_" +:+ index +:+ ".parquet"
       ∧ stats_file i = "batch_" +:+ index +:+ "_stats" +:+ ".txt"
       ∧ String.length index = (4 `max` String.length (str i))%nat
       ∧ int index = Ok i)
  ∧ (∃ index : string,
       GenerateBatches.batch_filename i = "batch_" +:+ index +:+ "_ceos.csv"
       ∧ String.length index = (2 `max` String.length (str i))%nat
       ∧ int index = Ok i).
Proof.
  split; [apply task_id_of_output_file|].
  split; [apply fnmatch_output_file|].
  split; [apply fnmatch_stats_file|].
  split; [apply fnmatch_stats_file_data|].
  split.
  - exists (format_0d 4 i). split; [done|]. split; [done|].
    split; [apply length_format_0d | apply int_format_0d].
  - exists (format_0d 2 i). split; [done|].
    split; [apply length_format_0d | apply int_format_0d].
Qed.

(** C9 as it is stated does not hold: the files of shard 1 are
    [batch_0001.parquet] and [batch_01_ceos.csv], and neither is of the form
    [<prefix>_01.<ext>]. *)
Lemma shard_file_names_not_two_digit :
  ¬ (∃ prefix ext : string,
       output_file 1 = prefix +:+ "_" +:+ format_0d 2 1 +:+ "." +:+ ext)
  ∧ ¬ (∃ prefix ext : string,
       GenerateBatches.batch_filename 1 = prefix +:+ "_" +:+ format_0d 2 1 +:+ "." +:+ ext).
Proof.
  split; intros (prefix & ext & E).
  - assert (occurs "_01." (output_file 1) = true) as Ho
      by (rewrite E; apply (occurs_app prefix "_01." ext)).
    vm_compute in Ho. discriminate.
  - assert (occurs "_01." (GenerateBatches.batch_filename 1) = true) as Ho
      by (rewrite E; apply (occurs_app prefix "_01." ext)).
    vm_compute in Ho. discriminate.
Qed.

Example output_file_1 : output_file 1 = "batch_0001.parquet".
Proof. reflexivity. Qed.

Example stats_file_1 : stats_file 1 = "batch_0001_stats.txt".
Proof. reflexivity. Qed.

Example batch_filename_1 : GenerateBatches.batch_filename 1 = "batch_01_ceos.csv".
Proof. reflexivity. Qed.

End FileNameFacts.

(* ===================================================================== *)
(** * The reconciliation of verify_extraction.py *)
(* ===================================================================== *)

Module VerifyExtractionFacts.
Import NameBatches ExtractNamesBatch VerifyExtraction PyFacts FileNameFacts.

(** ** Listings *)

Lemma elem_of_glob pre post (dir : directory) name :
  name ∈ glob pre post dir ↔ name ∈ dom dir ∧ fnmatch_star pre post name = true.
Proof.
  unfold glob. rewrite list_elem_of_filter, elem_of_elements. tauto.
Qed.

Lemma NoDup_glob pre post (dir : directory) : NoDup (glob pre post dir).
Proof. apply NoDup_filter, NoDup_elements. Qed.

Lemma elem_of_sorted names name : name ∈ sorted names ↔ name ∈ names.
Proof. unfold sorted. by rewrite merge_sort_Permutation. Qed.

(** Sorting forgets the order in which a listing came. *)
Lemma sorted_ext names1 names2 :
  NoDup names1 → NoDup names2 → (∀ name, name ∈ names1 ↔ name ∈ names2) →
  sorted names1 = sorted names2.
Proof.
  intros Hnd1 Hnd2 Hiff. unfold sorted.
  apply (Sorted_unique String.le); [apply Sorted_merge_sort, _..|].
  rewrite !merge_sort_Permutation. by apply NoDup_Permutation.
Qed.

Lemma elem_of_sorted_glob pre post (dir : directory) name :
  name ∈ sorted (glob pre post dir)
  ↔ name ∈ dom dir ∧ fnmatch_star pre post name = true.
Proof. by rewrite elem_of_sorted, elem_of_glob. Qed.

(** Two directories with the same names under a pattern list alike. *)
Lemma sorted_glob_ext pre post (dir dir' : directory) :
  (∀ name, fnmatch_star pre post name = true → (name ∈ dom dir ↔ name ∈ dom dir')) →
  sorted (glob pre post dir) = sorted (glob pre post dir').
Proof.
  intros Hdom. apply sorted_ext; [apply NoDup_glob..|].
  intros name. rewrite !elem_of_glob. split; intros [??]; (split; [|done]); by apply Hdom.
Qed.

Lemma elem_of_dom_delete (dir : directory) name name' :
  name' ∈ dom (delete name dir) ↔ name' ∈ dom dir ∧ name' ≠ name.
Proof. by rewrite dom_delete_L, elem_of_difference, elem_of_singleton. Qed.

(** ** The ids found *)

Lemma collect_ids_Ok batch_files (acc ids : gset Z) :
  collect_ids batch_files acc = Ok ids →
  ∀ i, i ∈ ids ↔ i ∈ acc ∨ ∃ name, name ∈ batch_files ∧ task_id_of name = Ok i.
Proof.
  revert acc. induction batch_files as [|name batch_files IH]; intros acc; simpl.
  - intros [= <-] i. split; [by left|]. intros [?|(? & []%elem_of_nil & _)]. done.
  - destruct (task_id_of name) as [task_id|e] eqn:E; simpl; [|done].
    intros Hids i. rewrite (IH _ Hids i), elem_of_union, elem_of_singleton. split.
    + intros [[->|?]|(name' & ? & ?)].
      * right. exists name. split; [by left|done].
      * by left.
      * right. exists name'. split; [by right|done].
    + intros [?|(name' & [->|?]%elem_of_cons & E')].
      * left. by right.
      * left. left. congruence.
      * right. by exists name'.
Qed.

Lemma collect_ids_is_Ok batch_files (acc : gset Z) :
  is_Ok (collect_ids batch_files acc)
  ↔ ∀ name, name ∈ batch_files → is_Ok (task_id_of name).
Proof.
  revert acc. induction batch_files as [|name batch_files IH]; intros acc; simpl.
  - split; [by intros _ ? ?%elem_of_nil | by eexists].
  - destruct (task_id_of name) as [task_id|e] eqn:E; simpl.
    + rewrite IH. split.
      * intros Hall name' [->|?]%elem_of_cons; [by eexists | by apply Hall].
      * intros Hall name' ?. apply Hall. by right.
    + split; [by intros [? ?]|]. intros Hall.
      destruct (Hall name) as [? E']; [by left | congruence].
Qed.

Lemma elem_of_missing_of (expected_batches : Z) (found : gset Z) (i : Z) :
  i ∈ missing_of expected_batches found ↔ 1 ≤ i ≤ expected_batches ∧ i ∉ found.
Proof.
  unfold missing_of, range_from.
  rewrite elem_of_difference, elem_of_list_to_set, elem_of_seqZ. intuition lia.
Qed.

(** ** The statistics *)

Section stats.
Context `{Float}.

Lemma float_figures_cons key stats dicts :
  float_figures key (stats :: dicts) = float_figures key [stats] ++ float_figures key dicts.
Proof. unfold float_figures. simpl. by destruct (_ ≫= _). Qed.

(** One statistics file adds its figures to the totals. *)
Lemma add_stats_Ok (t t' : totals) (stats : gmap string string) :
  add_stats t stats = Ok t' →
  well_formed stats
  ∧ batch_stats t' = batch_stats t ++ [stats]
  ∧ total_rows t' = total_rows t + int_figure "rows" stats
  ∧ total_unique_users t' = total_unique_users t + int_figure "unique_users" stats
  ∧ total_size_mb t' = foldl float_add (total_size_mb t) (float_figures "file_size_mb" [stats])
  ∧ total_query_time t'
    = foldl float_add (total_query_time t) (float_figures "query_time_seconds" [stats]).
Proof.
  unfold add_stats, well_formed, int_figure, float_figures. simpl.
  destruct (stats !! "rows") as [v1|]; [destruct (int v1) eqn:E1|]; simpl; try done;
  (destruct (stats !! "unique_users") as [v2|]; [destruct (int v2) eqn:E2|]; simpl; try done);
  (destruct (stats !! "file_size_mb") as [v3|];
     [destruct (float_of_string v3) eqn:E3|]; simpl; try done);
  (destruct (stats !! "query_time_seconds") as [v4|];
     [destruct (float_of_string v4) eqn:E4|]; simpl; try done);
  intros [= <-]; simpl;
  (split; [repeat split; intros v Hv; simplify_eq; by eexists|]);
  repeat split; rewrite ?E3, ?E4; (done || lia).
Qed.

Lemma add_stats_is_Ok (t : totals) (stats : gmap string string) :
  well_formed stats → is_Ok (add_stats t stats).
Proof.
  intros (H1 & H2 & H3 & H4). unfold add_stats.
  destruct (stats !! "rows") as [v1|];
    [destruct (H1 v1 eq_refl) as [? ->]|]; simpl;
  (destruct (stats !! "unique_users") as [v2|];
    [destruct (H2 v2 eq_refl) as [? ->]|]; simpl);
  (destruct (stats !! "file_size_mb") as [v3|];
    [destruct (H3 v3 eq_refl) as [? ->]|]; simpl);
  (destruct (stats !! "query_time_seconds") as [v4|];
    [destruct (H4 v4 eq_refl) as [? ->]|]; simpl);
  by eexists.
Qed.

(** The loop over the statistics files adds up the figures of the files, in
    the order of the files. *)
Lemma collect_stats_Ok (dir : directory) stats_files (t t' : totals) :
  collect_stats dir stats_files t = Ok t' →
  ∃ dicts,
    Forall2 (λ name stats, read_stats dir name = Ok stats) stats_files dicts
    ∧ Forall well_formed dicts
    ∧ batch_stats t' = batch_stats t ++ dicts
    ∧ total_rows t' = total_rows t + sum (int_figure "rows" <$> dicts)
    ∧ total_unique_users t'
      = total_unique_users t + sum (int_figure "unique_users" <$> dicts)
    ∧ total_size_mb t' = foldl float_add (total_size_mb t) (float_figures "file_size_mb" dicts)
    ∧ total_query_time t'
      = foldl float_add (total_query_time t) (float_figures "query_time_seconds" dicts).
Proof.
  revert t. induction stats_files as [|name stats_files IH]; intros t; simpl.
  - intros [= <-]. exists []. rewrite app_nil_r. simpl.
    repeat split; (constructor || lia || done).
  - destruct (read_stats dir name) as [stats|] eqn:Hread; simpl; [|done].
    destruct (add_stats t stats) as [t1|] eqn:Hadd; simpl; [|done].
    intros (dicts & Hdicts & Hwf & Hb & Hr & Hu & Hs & Hq)%IH.
    apply add_stats_Ok in Hadd as (Hwf1 & Hb1 & Hr1 & Hu1 & Hs1 & Hq1).
    exists (stats :: dicts).
    rewrite !(float_figures_cons _ stats dicts), !foldl_app, <-Hs1, <-Hq1.
    rewrite Hb, Hb1, <-app_assoc. rewrite !fmap_cons. cbn [sum foldr].
    fold (sum (int_figure "rows" <$> dicts)).
    fold (sum (int_figure "unique_users" <$> dicts)).
    repeat split; (by constructor) || done || lia.
Qed.

Lemma collect_stats_is_Ok (dir : directory) stats_files (t : totals) :
  is_Ok (collect_stats dir stats_files t)
  ↔ ∀ name, name ∈ stats_files → readable dir name.
Proof.
  split.
  - intros [t' (dicts & Hdicts & Hwf & _)%collect_stats_Ok] name Hname.
    apply list_elem_of_lookup in Hname as [k Hk].
    destruct (Forall2_lookup_l _ _ _ _ _ Hdicts Hk) as (stats & Hstats & Hread).
    exists stats. split; [done|].
    by apply (Forall_lookup_1 _ _ _ _ Hwf Hstats).
  - revert t. induction stats_files as [|name stats_files IH]; intros t Hall; simpl.
    + by eexists.
    + destruct (Hall name) as (stats & -> & Hwf); [by left|]. simpl.
      destruct (add_stats_is_Ok t stats Hwf) as [t1 ->]. simpl.
      apply IH. intros name' ?. apply Hall. by right.
Qed.

(** The loop reads nothing but the files it is given. *)
Lemma collect_stats_ext (dir dir' : directory) stats_files (t : totals) :
  (∀ name, name ∈ stats_files → dir !! name = dir' !! name) →
  collect_stats dir stats_files t = collect_stats dir' stats_files t.
Proof.
  revert t. induction stats_files as [|name stats_files IH]; intros t Hall; [done|].
  simpl. assert (read_stats dir name = read_stats dir' name) as ->.
  { unfold read_stats. by rewrite (Hall name) by by left. }
  destruct (read_stats dir' name) as [stats|]; simpl; [|done].
  destruct (add_stats t stats); simpl; [|done].
  apply IH. intros name' ?. apply Hall. by right.
Qed.

(** [verify_extraction] returns exactly when both loops do, and then the
    report holds what they computed. *)
Lemma verify_extraction_Ok (dir : directory) (N : Z) (r : report) :
  verify_extraction dir N = Ok r ↔
  ∃ ids t,
    collect_ids (sorted (glob "batch_" ".parquet" dir)) ∅ = Ok ids
    ∧ collect_stats dir (sorted (glob "batch_" "_stats.txt" dir)) no_totals = Ok t
    ∧ r = {| found_ids := ids; missing_ids := missing_of N ids;
             batch_file_count := len (sorted (glob "batch_" ".parquet" dir));
             stats_file_count := len (sorted (glob "batch_" "_stats.txt" dir));
             stats_totals := t; stats_averages := averages_of t;
             returned := bool_decide (size (missing_of N ids) = 0%nat) |}.
Proof.
  unfold verify_extraction.
  destruct (collect_ids _ ∅) as [ids|]; simpl.
  - destruct (collect_stats _ _ _) as [t|]; simpl.
    + split; [intros [= <-]; by eexists _, _ | by intros (? & ? & [= <-] & [= <-] & ->)].
    + split; [done | by intros (? & ? & _ & ? & _)].
  - split; [done | by intros (? & ? & ? & _)].
Qed.

(** [verify_extraction] returns when the names of the shard files are read
    as numbers and the statistics files are readable, and only then. *)
Lemma verify_extraction_is_Ok (dir : directory) (N : Z) :
  is_Ok (verify_extraction dir N) ↔
    (∀ name, name ∈ dom dir → fnmatch_star "batch_" ".parquet" name = true →
             is_Ok (task_id_of name))
    ∧ (∀ name, name ∈ dom dir → fnmatch_star "batch_" "_stats.txt" name = true →
               readable dir name).
Proof.
  split.
  - intros [r (ids & t & Hids & Ht & _)%verify_extraction_Ok]. split.
    + intros name ? ?.
      apply (proj1 (collect_ids_is_Ok (sorted (glob "batch_" ".parquet" dir)) ∅));
        [by eexists|].
      by apply elem_of_sorted_glob.
    + intros name ? ?.
      apply (proj1 (collect_stats_is_Ok dir
               (sorted (glob "batch_" "_stats.txt" dir)) no_totals)); [by eexists|].
      by apply elem_of_sorted_glob.
  - intros [Hnames Hstats].
    destruct (proj2 (collect_ids_is_Ok (sorted (glob "batch_" ".parquet" dir)) ∅))
      as [ids Hids].
    { intros name [??]%elem_of_sorted_glob. by apply Hnames. }
    destruct (proj2 (collect_stats_is_Ok dir
      (sorted (glob "batch_" "_stats.txt" dir)) no_totals)) as [t Ht].
    { intros name [??]%elem_of_sorted_glob. by apply Hstats. }
    eexists. apply verify_extraction_Ok. by eexists _, _.
Qed.

(** The totals of a report are the sums of the figures of the statistics
    files that were read, which are the files listed. *)
Lemma totals_are_sums (dir : directory) (N : Z) (r : report) :
  verify_extraction dir N = Ok r →
  let t := stats_totals r in
  Forall2 (λ name stats, read_stats dir name = Ok stats)
          (sorted (glob "batch_" "_stats.txt" dir)) (batch_stats t)
  ∧ total_rows t = sum (int_figure "rows" <$> batch_stats t)
  ∧ total_unique_users t = sum (int_figure "unique_users" <$> batch_stats t)
  ∧ total_size_mb t
    = foldl float_add float_zero (float_figures "file_size_mb" (batch_stats t))
  ∧ total_query_time t
    = foldl float_add float_zero (float_figures "query_time_seconds" (batch_stats t)).
Proof.
  intros (ids & t & _ & Ht & ->)%verify_extraction_Ok. simpl.
  apply collect_stats_Ok in Ht as (dicts & Hdicts & _ & Hb & Hr & Hu & Hs & Hq).
  simpl in Hb. subst dicts. by rewrite Hr, Hu, Hs, Hq.
Qed.

(** ** Completeness *)

(** The ids of a report: found are the numbers parsed from the names that
    match [batch_*.parquet], missing are those of [1 .. N] not found, and the
    value returned tells whether none is missing. *)
Lemma report_ids (dir : directory) (N : Z) (r : report) :
  verify_extraction dir N = Ok r →
  (∀ i, i ∈ found_ids r ↔
        ∃ name, name ∈ dom dir ∧ fnmatch_star "batch_" ".parquet" name = true
                ∧ task_id_of name = Ok i)
  ∧ (∀ i, i ∈ missing_ids r ↔ 1 ≤ i ≤ N ∧ i ∉ found_ids r)
  ∧ (returned r = true ↔ missing_ids r = ∅).
Proof.
  intros (ids & t & Hids & _ & ->)%verify_extraction_Ok. simpl.
  split; [|split].
  - intros i. rewrite (collect_ids_Ok _ _ _ Hids i). split.
    + intros [[]%not_elem_of_empty|(name & [??]%elem_of_sorted_glob & ?)]. by exists name.
    + intros (name & ? & ? & ?). right. exists name.
      split; [by apply elem_of_sorted_glob|done].
  - apply elem_of_missing_of.
  - rewrite bool_decide_eq_true. rewrite size_empty_iff. by unfold_leibniz.
Qed.

(** C3. For every expected count [N >= 1] and every directory,
    [verify_extraction] returns unless a listed shard name or a statistics
    file cannot be read; the ids found are the numbers parsed from the names
    of the files that match [batch_*.parquet]; the ids missing are
    [{1 .. N}] without the ids found; the value returned tells whether no id
    is missing; and the script, which expects 65 shards, exits with status 0
    when that value is true and with status 1 when it is false. *)
Theorem verify_extraction_missing (dir : directory) (N : Z) :
  1 ≤ N →
  (is_Ok (verify_extraction dir N) ↔
     (∀ name, name ∈ dom dir → fnmatch_star "batch_" ".parquet" name = true →
              is_Ok (task_id_of name))
     ∧ (∀ name, name ∈ dom dir → fnmatch_star "batch_" "_stats.txt" name = true →
                readable dir name))
  ∧ (∀ r, verify_extraction dir N = Ok r →
       (∀ i, i ∈ found_ids r ↔
             ∃ name, name ∈ dom dir ∧ fnmatch_star "batch_" ".parquet" name = true
                     ∧ task_id_of name = Ok i)
       ∧ missing_ids r = list_to_set (seqZ 1 N) ∖ found_ids r
       ∧ (∀ i, i ∈ missing_ids r ↔ 1 ≤ i ≤ N ∧ i ∉ found_ids r)
       ∧ (returned r = true ↔ missing_ids r = ∅)
       ∧ (N = DEFAULT_EXPECTED_BATCHES →
            main dir = (if returned r then Exited 0 else Exited 1)
            ∧ exit_status (main dir) = (if returned r then 0 else 1))).
Proof.
  intros HN. split; [apply verify_extraction_is_Ok|].
  intros r Hr. destruct (report_ids dir N r Hr) as (Hfound & Hmissing & Hret).
  split; [done|]. split; [|split; [done|split; [done|]]].
  - apply verify_extraction_Ok in Hr as (ids & t & _ & _ & ->). simpl.
    unfold missing_of, range_from. by replace (N + 1 - 1) with N by lia.
  - intros ->. unfold main. rewrite Hr. by destruct (returned r).
Qed.

(** ** Aggregates *)

(** C7. When the names of the shard files and the statistics files present
    can be read, [verify_extraction] returns, whether or not every shard has
    a statistics file. The totals of rows and of unique users are the sums,
    and the totals of size and of query time the running float sums, over
    exactly the statistics files present, in the order of their names; a
    file without a figure adds nothing. The averages are the totals divided
    by the number of statistics files present, and there is none when no
    such file is present. *)
Theorem verify_extraction_totals (dir : directory) (N : Z) :
  (∀ name, name ∈ dom dir → fnmatch_star "batch_" ".parquet" name = true →
           is_Ok (task_id_of name)) →
  (∀ name, name ∈ dom dir → fnmatch_star "batch_" "_stats.txt" name = true →
           readable dir name) →
  ∃ r sidecars,
    verify_extraction dir N = Ok r
    ∧ NoDup sidecars
    ∧ (∀ name, name ∈ sidecars ↔
               name ∈ dom dir ∧ fnmatch_star "batch_" "_stats.txt" name = true)
    ∧ Forall2 (λ name stats, read_stats dir name = Ok stats)
              sidecars (batch_stats (stats_totals r))
    ∧ stats_file_count r = len sidecars
    ∧ total_rows (stats_totals r)
      = sum (int_figure "rows" <$> batch_stats (stats_totals r))
    ∧ total_unique_users (stats_totals r)
      = sum (int_figure "unique_users" <$> batch_stats (stats_totals r))
    ∧ total_size_mb (stats_totals r)
      = foldl float_add float_zero
          (float_figures "file_size_mb" (batch_stats (stats_totals r)))
    ∧ total_query_time (stats_totals r)
      = foldl float_add float_zero
          (float_figures "query_time_seconds" (batch_stats (stats_totals r)))
    ∧ stats_averages r
      = (if bool_decide (len sidecars > 0) then
           Some {| avg_rows_per_batch :=
                     int_truediv (total_rows (stats_totals r)) (len sidecars);
                   avg_size_per_batch :=
                     float_div_int (total_size_mb (stats_totals r)) (len sidecars);
                   avg_query_time :=
                     float_div_int (total_query_time (stats_totals r)) (len sidecars) |}
         else None).
Proof.
  intros Hnames Hstats.
  destruct (proj2 (verify_extraction_is_Ok dir N)) as [r Hr]; [done|].
  exists r, (sorted (glob "batch_" "_stats.txt" dir)).
  destruct (totals_are_sums dir N r Hr) as (Hdicts & Hrows & Husers & Hsize & Htime).
  assert (len (batch_stats (stats_totals r)) = len (sorted (glob "batch_" "_stats.txt" dir)))
    as Hlen.
  { unfold len. f_equal. symmetry. by eapply Forall2_length. }
  split; [done|]. split.
  { unfold sorted. rewrite merge_sort_Permutation. apply NoDup_glob. }
  split; [apply elem_of_sorted_glob|].
  split; [done|].
  apply verify_extraction_Ok in Hr as (ids & t & _ & _ & ->). simpl in *.
  repeat split; try done.
  unfold averages_of. by rewrite Hlen.
Qed.

(** ** Data files and statistics files are looked at separately *)

Lemma sum_Permutation (l1 l2 : list Z) : l1 ≡ₚ l2 → sum l1 = sum l2.
Proof. unfold sum. induction 1; simpl; lia. Qed.

(** Without the statistics file [name], the dictionaries read are the
    others. *)
Lemma batch_stats_delete (dir : directory) (N : Z) (r : report) name stats :
  verify_extraction dir N = Ok r →
  fnmatch_star "batch_" "_stats.txt" name = true →
  fnmatch_star "batch_" ".parquet" name = false →
  read_stats dir name = Ok stats →
  ∃ r', verify_extraction (delete name dir) N = Ok r'
    ∧ found_ids r' = found_ids r
    ∧ batch_stats (stats_totals r) ≡ₚ stats :: batch_stats (stats_totals r').
Proof.
  intros Hr Hmatch Hdata Hread.
  assert (name ∈ dom dir) as Hdom.
  { apply elem_of_dom. unfold read_stats in Hread. by destruct (dir !! name). }
  assert (sorted (glob "batch_" ".parquet" (delete name dir))
          = sorted (glob "batch_" ".parquet" dir)) as Hdatafiles.
  { apply sorted_glob_ext. intros name' Hm. rewrite dom_delete_L, elem_of_difference.
    rewrite elem_of_singleton. split; [tauto|]. intros ?. split; [done|].
    intros ->. congruence. }
  assert (∀ name', name' ≠ name →
            read_stats (delete name dir) name' = read_stats dir name') as Hother.
  { intros name' ?. unfold read_stats. by rewrite lookup_delete_ne. }
  destruct (proj1 (verify_extraction_is_Ok dir N)) as [Hn Hs]; [by eexists|].
  destruct (proj2 (verify_extraction_is_Ok (delete name dir) N)) as [r' Hr'].
  { split; intros name' [? ?]%elem_of_dom_delete ?.
    - by apply Hn.
    - destruct (Hs name') as (stats' & ? & ?); [done..|].
      exists stats'. by rewrite Hother. }
  exists r'. split; [done|].
  destruct (totals_are_sums _ _ _ Hr) as (Hdicts & _).
  destruct (totals_are_sums _ _ _ Hr') as (Hdicts' & _).
  apply verify_extraction_Ok in Hr as (ids & t & Hids & _ & ->).
  apply verify_extraction_Ok in Hr' as (ids' & t' & Hids' & _ & ->).
  simpl in *. split.
  { rewrite Hdatafiles in Hids'. congruence. }
  set (g := λ name', match read_stats dir name' with Ok d => d | Raise _ => ∅ end).
  assert (batch_stats t = g <$> sorted (glob "batch_" "_stats.txt" dir)) as ->.
  { clear -Hdicts. induction Hdicts as [|???? E]; [done|].
    rewrite fmap_cons. unfold g at 1. rewrite E. by f_equal. }
  assert (batch_stats t' = g <$> sorted (glob "batch_" "_stats.txt" (delete name dir))) as ->.
  { assert (Forall (λ name', name' ≠ name)
              (sorted (glob "batch_" "_stats.txt" (delete name dir)))) as Hne.
    { apply Forall_forall. intros name' [[? ?]%elem_of_dom_delete _]%elem_of_sorted_glob.
      done. }
    clear -Hdicts' Hne Hother. induction Hdicts' as [|???? E]; [done|].
    apply Forall_cons in Hne as [? ?].
    rewrite fmap_cons. unfold g at 1. rewrite <-Hother, E by done. f_equal. auto. }
  replace stats with (g name) by (unfold g; by rewrite Hread).
  rewrite <-fmap_cons. apply fmap_Permutation.
  apply NoDup_Permutation.
  - unfold sorted. rewrite merge_sort_Permutation. apply NoDup_glob.
  - apply NoDup_cons. split.
    + intros [[? ?]%elem_of_dom_delete _]%elem_of_sorted_glob. done.
    + unfold sorted. rewrite merge_sort_Permutation. apply NoDup_glob.
  - intros name'. rewrite elem_of_cons, !elem_of_sorted_glob.
    rewrite dom_delete_L, elem_of_difference, elem_of_singleton.
    destruct (decide (name' = name)) as [->|]; [tauto|]. tauto.
Qed.

(** The ids come from the names of the shard files alone. *)
Lemma found_ids_ext (dir dir' : directory) (N : Z) (r r' : report) :
  verify_extraction dir N = Ok r →
  verify_extraction dir' N = Ok r' →
  (∀ name, fnmatch_star "batch_" ".parquet" name = true →
           (name ∈ dom dir ↔ name ∈ dom dir')) →
  found_ids r' = found_ids r ∧ missing_ids r' = missing_ids r ∧ returned r' = returned r.
Proof.
  intros (ids & t & Hids & _ & ->)%verify_extraction_Ok
         (ids' & t' & Hids' & _ & ->)%verify_extraction_Ok Hdom. simpl.
  rewrite (sorted_glob_ext _ _ dir dir' Hdom) in Hids.
  by replace ids' with ids by congruence.
Qed.

(** The totals come from the statistics files alone. *)
Lemma stats_totals_ext (dir dir' : directory) (N : Z) (r r' : report) :
  verify_extraction dir N = Ok r →
  verify_extraction dir' N = Ok r' →
  (∀ name, fnmatch_star "batch_" "_stats.txt" name = true → dir' !! name = dir !! name) →
  stats_totals r' = stats_totals r ∧ stats_averages r' = stats_averages r.
Proof.
  intros (ids & t & _ & Ht & ->)%verify_extraction_Ok
         (ids' & t' & _ & Ht' & ->)%verify_extraction_Ok Hfiles. simpl.
  rewrite (sorted_glob_ext _ _ dir' dir) in Ht'.
  2:{ intros name Hm. by rewrite !elem_of_dom, (Hfiles name Hm). }
  rewrite (collect_stats_ext dir' dir) in Ht'.
  2:{ intros name [_ Hm]%elem_of_sorted_glob. by apply Hfiles. }
  by replace t' with t by congruence.
Qed.

Lemma verify_extraction_delete_is_Ok (dir : directory) (N : Z) name :
  is_Ok (verify_extraction dir N) → is_Ok (verify_extraction (delete name dir) N).
Proof.
  rewrite !verify_extraction_is_Ok. intros [Hn Hs].
  split; intros name' [? ?]%elem_of_dom_delete ?.
  - by apply Hn.
  - destruct (Hs name') as (stats' & ? & ?); [done..|].
    exists stats'. unfold read_stats in *. by rewrite lookup_delete_ne.
Qed.

(** What a report says of shard files and of statistics files: the ids come
    from the first and the totals from the second, whichever directory they
    are in. *)
Lemma report_independent (dir : directory) (N : Z) (r : report) :
  verify_extraction dir N = Ok r →
  (∀ dir' r',
     verify_extraction dir' N = Ok r' →
     (∀ name, fnmatch_star "batch_" ".parquet" name = true →
              (name ∈ dom dir ↔ name ∈ dom dir')) →
     found_ids r' = found_ids r ∧ missing_ids r' = missing_ids r
     ∧ returned r' = returned r)
  ∧ (∀ dir' r',
     verify_extraction dir' N = Ok r' →
     (∀ name, fnmatch_star "batch_" "_stats.txt" name = true →
              dir' !! name = dir !! name) →
     stats_totals r' = stats_totals r ∧ stats_averages r' = stats_averages r)
  ∧ (∀ i stats,
     1 ≤ i ≤ N →
     (∀ name, name ∈ dom dir → fnmatch_star "batch_" ".parquet" name = true →
              task_id_of name ≠ Ok i) →
     read_stats dir (stats_file i) = Ok stats →
     i ∈ missing_ids r ∧ returned r = false
     ∧ stats ∈ batch_stats (stats_totals r)
     ∧ (∀ key x, x ∈ float_figures key [stats] →
                 x ∈ float_figures key (batch_stats (stats_totals r)))
     ∧ total_size_mb (stats_totals r)
       = foldl float_add float_zero
           (float_figures "file_size_mb" (batch_stats (stats_totals r)))
     ∧ total_query_time (stats_totals r)
       = foldl float_add float_zero
           (float_figures "query_time_seconds" (batch_stats (stats_totals r)))
     ∧ ∃ r', verify_extraction (delete (stats_file i) dir) N = Ok r'
         ∧ missing_ids r' = missing_ids r
         ∧ total_rows (stats_totals r)
           = total_rows (stats_totals r') + int_figure "rows" stats
         ∧ total_unique_users (stats_totals r)
           = total_unique_users (stats_totals r') + int_figure "unique_users" stats)
  ∧ (∀ i,
     output_file i ∈ dom dir → stats_file i ∉ dom dir →
     i ∈ found_ids r ∧ (i ∉ missing_ids r)
     ∧ (stats_file i ∉ sorted (glob "batch_" "_stats.txt" dir))
     ∧ ∃ r', verify_extraction (delete (output_file i) dir) N = Ok r'
         ∧ stats_totals r' = stats_totals r
         ∧ stats_averages r' = stats_averages r).
Proof.
  intros Hr. split; [|split; [|split]].
  - intros dir' r' Hr' Hdom. by apply (found_ids_ext dir dir' N).
  - intros dir' r' Hr' Hfiles. by apply (stats_totals_ext dir dir' N).
  - intros i stats Hi Hnodata Hread.
    destruct (report_ids dir N r Hr) as (Hfound & Hmissing & Hret).
    assert (i ∈ missing_ids r) as Hmiss.
    { apply Hmissing. split; [done|]. intros (name & ? & ? & ?)%Hfound.
      by apply (Hnodata name). }
    destruct (batch_stats_delete dir N r (stats_file i) stats Hr)
      as (r' & Hr' & Hids & Hperm);
      [apply fnmatch_stats_file | apply fnmatch_stats_file_data | done |].
    destruct (totals_are_sums _ _ _ Hr) as (_ & Hrows & Husers & Hsize & Htime).
    destruct (totals_are_sums _ _ _ Hr') as (_ & Hrows' & Husers' & _).
    assert (stats ∈ batch_stats (stats_totals r)) as Hin.
    { rewrite Hperm. by left. }
    split; [done|]. split.
    { destruct (returned r) eqn:E; [|done].
      rewrite (proj1 Hret eq_refl) in Hmiss. by apply not_elem_of_empty in Hmiss. }
    split; [done|]. split.
    { intros key x. unfold float_figures. rewrite !list_elem_of_omap.
      intros (stats' & ->%list_elem_of_singleton & ?). by exists stats. }
    split; [done|]. split; [done|].
    exists r'. split; [done|]. split.
    { apply verify_extraction_Ok in Hr as (? & ? & _ & _ & ->).
      apply verify_extraction_Ok in Hr' as (? & ? & _ & _ & ->).
      simpl in *. by subst. }
    rewrite Hrows, Husers, Hrows', Husers'.
    rewrite !(sum_Permutation _ _ (fmap_Permutation _ _ _ Hperm)).
    rewrite !fmap_cons. cbn [sum foldr].
    fold (sum (int_figure "rows" <$> batch_stats (stats_totals r'))).
    fold (sum (int_figure "unique_users" <$> batch_stats (stats_totals r'))).
    lia.
  - intros i Hdata Hnostats.
    destruct (report_ids dir N r Hr) as (Hfound & Hmissing & _).
    assert (i ∈ found_ids r) as Hin.
    { apply Hfound. exists (output_file i).
      split; [done|]. split; [apply fnmatch_output_file|apply task_id_of_output_file]. }
    split; [done|]. split; [rewrite Hmissing; tauto|].
    split; [rewrite elem_of_sorted_glob; tauto|].
    destruct (verify_extraction_delete_is_Ok dir N (output_file i)) as [r' Hr'];
      [by eexists|].
    exists r'. split; [done|].
    apply (stats_totals_ext dir (delete (output_file i) dir) N); [done..|].
    intros name Hm. apply lookup_delete_ne. intros <-.
    by rewrite fnmatch_output_file_stats in Hm.
Qed.

(** C10. When the names of the shard files and the statistics files present
    can be read, [verify_extraction] returns a report in which the ids
    missing are decided by the names of the shard files alone and the totals
    by the statistics files alone: a directory with the same shard file names
    has the same ids found and missing, and a directory with the same
    statistics files has the same totals and averages. A shard within
    [1 .. N] that has a statistics file and no shard file is missing, and its
    figures are in the totals: the totals of rows and users exceed by its
    figures the totals of the directory without the file, and its size and
    time are among the floats summed. A shard that has a shard file and no
    statistics file is found, and the totals are those of the directory
    without the shard file. *)
Theorem verify_extraction_independent (dir : directory) (N : Z) :
  (∀ name, name ∈ dom dir → fnmatch_star "batch_" ".parquet" name = true →
           is_Ok (task_id_of name)) →
  (∀ name, name ∈ dom dir → fnmatch_star "batch_" "_stats.txt" name = true →
           readable dir name) →
  ∃ r, verify_extraction dir N = Ok r ∧
    (∀ dir' r',
       verify_extraction dir' N = Ok r' →
       (∀ name, fnmatch_star "batch_" ".parquet" name = true →
                (name ∈ dom dir ↔ name ∈ dom dir')) →
       found_ids r' = found_ids r ∧ missing_ids r' = missing_ids r
       ∧ returned r' = returned r)
    ∧ (∀ dir' r',
       verify_extraction dir' N = Ok r' →
       (∀ name, fnmatch_star "batch_" "_stats.txt" name = true →
                dir' !! name = dir !! name) →
       stats_totals r' = stats_totals r ∧ stats_averages r' = stats_averages r)
    ∧ (∀ i stats,
       1 ≤ i ≤ N →
       (∀ name, name ∈ dom dir → fnmatch_star "batch_" ".parquet" name = true →
                task_id_of name ≠ Ok i) →
       read_stats dir (stats_file i) = Ok stats →
       i ∈ missing_ids r ∧ returned r = false
       ∧ stats ∈ batch_stats (stats_totals r)
       ∧ (∀ key x, x ∈ float_figures key [stats] →
                   x ∈ float_figures key (batch_stats (stats_totals r)))
       ∧ total_size_mb (stats_totals r)
         = foldl float_add float_zero
             (float_figures "file_size_mb" (batch_stats (stats_totals r)))
       ∧ total_query_time (stats_totals r)
         = foldl float_add float_zero
             (float_figures "query_time_seconds" (batch_stats (stats_totals r)))
       ∧ ∃ r', verify_extraction (delete (stats_file i) dir) N = Ok r'
           ∧ missing_ids r' = missing_ids r
           ∧ total_rows (stats_totals r)
             = total_rows (stats_totals r') + int_figure "rows" stats
           ∧ total_unique_users (stats_totals r)
             = total_unique_users (stats_totals r') + int_figure "unique_users" stats)
    ∧ (∀ i,
       output_file i ∈ dom dir → stats_file i ∉ dom dir →
       i ∈ found_ids r ∧ (i ∉ missing_ids r)
       ∧ (stats_file i ∉ sorted (glob "batch_" "_stats.txt" dir))
       ∧ ∃ r', verify_extraction (delete (output_file i) dir) N = Ok r'
           ∧ stats_totals r' = stats_totals r
           ∧ stats_averages r' = stats_averages r).
Proof.
  intros Hnames Hstats.
  destruct (proj2 (verify_extraction_is_Ok dir N)) as [r Hr]; [done|].
  exists r. split; [done|]. by apply report_independent.
Qed.

End stats.

(** ** Runs *)

(** Shards 1, 2 and 4 of 5 are there: 3 and 5 are missing. *)
Lemma verify_extraction_missing_witness :
  1 ≤ 5
  ∧ ∃ r, verify_extraction (H:=Hundredths.hundredths) Samples.after_1_2_4 5 = Ok r
      ∧ missing_ids r = list_to_set (seqZ 1 5) ∖ found_ids r
      ∧ (returned r = true ↔ missing_ids r = ∅).
Proof.
  split; [lia|].
  destruct (verify_extraction_missing (H:=Hundredths.hundredths) Samples.after_1_2_4 5
              ltac:(lia)) as [_ Hspec].
  destruct (returns_is_Ok
              (verify_extraction (H:=Hundredths.hundredths) Samples.after_1_2_4 5))
    as [r Hr]; [vm_compute; reflexivity|].
  exists r. destruct (Hspec r Hr) as (_ & Hmissing & _ & Hret & _).
  split; [exact Hr|]. split; [exact Hmissing | exact Hret].
Defined.

Example found_1_2_4_of_5 :
  (λ r, (found_ids r, missing_ids r, returned r))
    <$> verify_extraction (H:=Hundredths.hundredths) Samples.after_1_2_4 5
  = Ok ({[1; 2; 4]}, {[3; 5]}, false).
Proof. vm_compute. reflexivity. Qed.

Example incomplete_exits_1 :
  exit_status (main (H:=Hundredths.hundredths) Samples.after_1_2_4) = 1.
Proof. vm_compute. reflexivity. Qed.

Example complete_exits_0 :
  exit_status (main (H:=Hundredths.hundredths) Samples.complete) = 0.
Proof. vm_compute. reflexivity. Qed.

(** A name that the pattern matches and [int] cannot read stops the script
    with an exception, and the process exits with status 1. *)
Example unreadable_name_exits_1 :
  main (H:=Hundredths.hundredths) (<["batch_0001_copy.parquet" := Parquet []]> Samples.complete)
  = Uncaught ValueError.
Proof. vm_compute. reflexivity. Qed.

(** Two statistics files of 100 and 50 rows: 150 rows in all. *)
Lemma verify_extraction_totals_witness :
  ∃ r (sidecars : list string),
    verify_extraction (H:=Hundredths.hundredths) Samples.two_sidecars 2 = Ok r
    ∧ (∀ name, name ∈ sidecars ↔
               name ∈ dom Samples.two_sidecars
               ∧ fnmatch_star "batch_" "_stats.txt" name = true)
    ∧ total_rows (stats_totals r)
      = sum (int_figure "rows" <$> batch_stats (stats_totals r)).
Proof.
  destruct (proj1 (verify_extraction_is_Ok (H:=Hundredths.hundredths)
                     Samples.two_sidecars 2)) as [Hnames Hstats].
  { apply returns_is_Ok. vm_compute. reflexivity. }
  destruct (verify_extraction_totals (H:=Hundredths.hundredths)
              Samples.two_sidecars 2 Hnames Hstats)
    as (r & sidecars & Hr & _ & Hsidecars & _ & _ & Hrows & _).
  exists r, sidecars. split; [exact Hr|]. split; [exact Hsidecars | exact Hrows].
Defined.

Example rows_100_and_50 :
  (λ r, (total_rows (stats_totals r), total_unique_users (stats_totals r),
         stats_file_count r, batch_file_count r))
    <$> verify_extraction (H:=Hundredths.hundredths) Samples.two_sidecars 2
  = Ok (150, 140, 2, 1).
Proof. vm_compute. reflexivity. Qed.

(** Shard files without any statistics file: no error, and totals of 0. *)
Example no_sidecar_no_error :
  (λ r, (total_rows (stats_totals r), stats_file_count r, returned r))
    <$> verify_extraction (H:=Hundredths.hundredths)
          (<["batch_0001.parquet" := Parquet []]> ∅) 1
  = Ok (0, 0, true).
Proof. vm_compute. reflexivity. Qed.

(** The totals of [Samples.two_sidecars] are those of every directory with
    the same statistics files. *)
Lemma verify_extraction_independent_witness :
  ∃ r, verify_extraction (H:=Hundredths.hundredths) Samples.two_sidecars 2 = Ok r
    ∧ ∀ dir' r',
        verify_extraction (H:=Hundredths.hundredths) dir' 2 = Ok r' →
        (∀ name, fnmatch_star "batch_" "_stats.txt" name = true →
                 dir' !! name = Samples.two_sidecars !! name) →
        stats_totals r' = stats_totals r ∧ stats_averages r' = stats_averages r.
Proof.
  destruct (proj1 (verify_extraction_is_Ok (H:=Hundredths.hundredths)
                     Samples.two_sidecars 2)) as [Hnames Hstats].
  { apply returns_is_Ok. vm_compute. reflexivity. }
  destruct (verify_extraction_independent (H:=Hundredths.hundredths)
              Samples.two_sidecars 2 Hnames Hstats) as (r & Hr & _ & Htotals & _).
  exists r. split; [exact Hr | exact Htotals].
Defined.

(** In [Samples.two_sidecars] shard 2 has a statistics file and no shard
    file: it is missing, and its 50 rows are in the total of 150. *)
Example orphan_sidecar_counted :
  (λ r, (elements (missing_ids r), total_rows (stats_totals r)))
    <$> verify_extraction (H:=Hundredths.hundredths) Samples.two_sidecars 2
  = Ok ([2], 150).
Proof. vm_compute. reflexivity. Qed.

End VerifyExtractionFacts.

(* ===================================================================== *)
(** * From the extractor to the reconciliation *)
(* ===================================================================== *)

Module PipelineFacts.
Import NameBatches ExtractNamesBatch VerifyExtraction.
Import PyFacts FileNameFacts VerifyExtractionFacts.

Section pipeline.
Context `{FloatText}.

(** A line [key: v] of a statistics file puts the stripped [v] under
    [key]. *)
Lemma read_stats_line_field (stats : gmap string string) (key v : string) :
  key ≠ "" → contains ":" key = false →
  all_chars (λ c, negb (is_str_space c)) key = true →
  read_stats_line stats (key +:+ ": " +:+ v)
  = Ok (<[key := strip (rstrip is_str_space (String " " v))]> stats).
Proof.
  intros Hne Hcolon Hkey. unfold read_stats_line.
  rewrite contains_app. change (": " +:+ v) with (String ":" (String " " v)).
  cbn [contains]. rewrite bool_decide_eq_true_2, orb_true_r by done.
  assert (strip (key +:+ String ":" (String " " v))
          = key +:+ String ":" (rstrip is_str_space (String " " v))) as ->.
  { unfold strip.
    assert (lstrip is_str_space (key +:+ String ":" (String " " v))
            = key +:+ String ":" (String " " v)) as ->.
    { destruct key as [|c key]; [done|]. rewrite string_app_cons.
      simpl in Hkey. apply andb_true_iff in Hkey as [Hc%negb_true_iff _].
      cbn [lstrip]. by rewrite Hc. }
    rewrite rstrip_app_no_space by done.
    by change (rstrip is_str_space (String ":" ?t))
      with (String ":" (rstrip is_str_space t)). }
  rewrite split_once_app by done. by rewrite strip_no_space.
Qed.

Lemma str_nonempty n : str n ≠ "".
Proof. intros E. pose proof (int_str n) as Hint. by rewrite E in Hint. Qed.

Lemma str_no_space n : all_chars (λ c, negb (is_str_space c)) (str n) = true.
Proof.
  apply (all_chars_impl is_number_char); [apply is_number_char_not_str_space|].
  apply all_chars_str.
Qed.

(** The dictionary read from the statistics file of a shard. *)
Lemma read_stats_lines_stats_lines (w : world) (task_id offset : Z)
    (batch_df : list name_row) (file_size_mb : float) :
  ∃ extraction_time,
    read_stats_lines ∅ (stats_lines w task_id offset batch_df file_size_mb)
    = Ok (<["extraction_time" := extraction_time]>
         (<["query_time_seconds" := format_2f (query_seconds w)]>
         (<["file_size_mb" := format_2f file_size_mb]>
         (<["unique_users" := str (nunique (user_id <$> batch_df))]>
         (<["rows" := str (len batch_df)]>
         (<["offset" := str offset]>
         (<["task_id" := str task_id]> ∅))))))).
Proof.
  exists (strip (rstrip is_str_space (String " " (now w)))).
  unfold stats_lines. cbn [read_stats_lines].
  change ("task_id: " +:+ ?v) with ("task_id" +:+ ": " +:+ v).
  change ("offset: " +:+ ?v) with ("offset" +:+ ": " +:+ v).
  change ("rows: " +:+ ?v) with ("rows" +:+ ": " +:+ v).
  change ("unique_users: " +:+ ?v) with ("unique_users" +:+ ": " +:+ v).
  change ("file_size_mb: " +:+ ?v) with ("file_size_mb" +:+ ": " +:+ v).
  change ("query_time_seconds: " +:+ ?v) with ("query_time_seconds" +:+ ": " +:+ v).
  change ("extraction_time: " +:+ ?v) with ("extraction_time" +:+ ": " +:+ v).
  do 7 (rewrite read_stats_line_field, bind_Ok by done).
  rewrite !(strip_after_blank (str _)) by (apply str_nonempty || apply str_no_space).
  rewrite !(strip_after_blank (format_2f _))
    by (apply format_2f_nonempty || apply format_2f_no_space).
  reflexivity.
Qed.

(** A statistics file written by [extract_batch] is readable. *)
Lemma stats_lines_readable (dir : directory) (name : string) (w : world)
    (task_id offset : Z) (batch_df : list name_row) (file_size_mb : float) :
  dir !! name = Some (Text (stats_lines w task_id offset batch_df file_size_mb)) →
  readable dir name.
Proof.
  intros Hname.
  destruct (read_stats_lines_stats_lines w task_id offset batch_df file_size_mb)
    as [extraction_time Hread].
  eexists. split; [unfold read_stats; by rewrite Hname|].
  repeat split; intros v Hv;
    rewrite ?lookup_insert_ne, lookup_insert_eq in Hv by done;
    injection Hv as <-; (apply format_2f_readable || (eexists; apply int_str)).
Qed.

(** ** The invariant *)

Lemma shard_directory_empty : shard_directory ∅.
Proof. intros name content Hname. by rewrite lookup_empty in Hname. Qed.

(** Every run of [extract_batch] keeps the directory a shard directory. *)
Lemma extract_batch_shard_directory (task_id p : Z) (w : world) (dir : directory) :
  shard_directory dir → shard_directory (extract_batch task_id p w dir).2.
Proof.
  intros Hdir. unfold extract_batch.
  destruct (connect w); [|done].
  destruct (raw_sql w _) as [batch_df|]; [|done].
  case_bool_decide; [done|]. simpl.
  intros name content.
  rewrite lookup_insert. case_decide as Hstats.
  { intros [= <-]. right. subst name. by eexists _, _, _, _, _. }
  rewrite lookup_insert. case_decide as Hout.
  { intros [= <-]. left. subst name. by eexists _, _. }
  apply Hdir.
Qed.

(** On a shard directory [verify_extraction] returns, and an id is found
    exactly when the shard file of that id is there. *)
Theorem shard_directory_verified (dir : directory) (N : Z) :
  shard_directory dir →
  ∃ r, verify_extraction dir N = Ok r
    ∧ (∀ i, i ∈ found_ids r ↔ output_file i ∈ dom dir)
    ∧ (∀ i, i ∈ missing_ids r ↔ 1 ≤ i ≤ N ∧ output_file i ∉ dom dir).
Proof.
  intros Hdir.
  assert (∀ name, name ∈ dom dir → fnmatch_star "batch_" ".parquet" name = true →
                  ∃ i, name = output_file i) as Hdata.
  { intros name [content Hname]%elem_of_dom Hm.
    destruct (Hdir name content Hname)
      as [(i & ? & -> & _)|(? & i & ? & ? & ? & -> & _)]; [by exists i|].
    by rewrite fnmatch_stats_file_data in Hm. }
  destruct (proj2 (verify_extraction_is_Ok dir N)) as [r Hr].
  { split.
    - intros name Hname Hm. destruct (Hdata name Hname Hm) as [i ->].
      eexists. apply task_id_of_output_file.
    - intros name [content Hname]%elem_of_dom Hm.
      destruct (Hdir name content Hname)
        as [(i & ? & -> & _)|(w & i & ? & ? & ? & -> & ->)].
      + by rewrite fnmatch_output_file_stats in Hm.
      + by eapply stats_lines_readable. }
  exists r. split; [done|].
  destruct (report_ids dir N r Hr) as (Hfound & Hmissing & _).
  assert (∀ i, i ∈ found_ids r ↔ output_file i ∈ dom dir) as Hiff.
  { intros i. rewrite Hfound. split.
    - intros (name & Hname & Hm & Hid). destruct (Hdata name Hname Hm) as [j ->].
      rewrite task_id_of_output_file in Hid. by injection Hid as ->.
    - intros Hname. exists (output_file i).
      split; [done|]. split; [apply fnmatch_output_file | apply task_id_of_output_file]. }
  split; [done|]. intros i. by rewrite Hmissing, Hiff.
Qed.

(** Whatever shards ran, in whatever order and with whatever answers of the
    database, the reconciliation returns. *)
Corollary runs_verified (runs : list (Z * Z * world)) (N : Z) :
  is_Ok (verify_extraction
           (foldr (λ '(task_id, p, w) dir, (extract_batch task_id p w dir).2) ∅ runs) N).
Proof.
  destruct (shard_directory_verified
    (foldr (λ '(task_id, p, w) dir, (extract_batch task_id p w dir).2) ∅ runs) N)
    as (r & Hr & _); [|by exists r].
  induction runs as [|[[task_id p] w] runs IH]; simpl.
  - apply shard_directory_empty.
  - by apply extract_batch_shard_directory.
Qed.

End pipeline.

(** ** The stand-in for floats writes texts that it reads *)

Lemma length_str_below_100 (m : Z) : 0 ≤ m < 100 → (String.length (str m) ≤ 2)%nat.
Proof.
  intros Hm.
  assert (Forall (λ m, (String.length (str m) ≤ 2)%nat) (seqZ 0 100)) as Hall
    by (apply (bool_decide_unpack _); vm_compute; exact I).
  apply (proj1 (Forall_forall _ _) Hall), elem_of_seqZ. lia.
Qed.

Lemma hundredths_of_to_string (x : Z) :
  Hundredths.of_string (Hundredths.to_string x) = Ok x.
Proof.
  unfold Hundredths.of_string, Hundredths.to_string.
  pose proof (Z.mod_pos_bound x 100 ltac:(lia)) as Hm.
  change ("." +:+ ?c) with (String "." c).
  rewrite split_once_app
    by (apply (all_chars_contains is_number_char); [apply all_chars_str|done]).
  rewrite bool_decide_eq_true_2.
  2:{ rewrite length_format_0d. pose proof (length_str_below_100 _ Hm). lia. }
  rewrite int_str. unfold format_0d.
  rewrite bool_decide_eq_false_2 by lia. change ("" +:+ ?t) with t.
  rewrite int_digits_padded by lia.
  f_equal. pose proof (Z.div_mod x 100 ltac:(lia)). lia.
Qed.

Lemma hundredths_float_text : @FloatText Hundredths.hundredths.
Proof.
  split; simpl; unfold Hundredths.to_string.
  - intros x E. pose proof (str_nonempty (x `div` 100)) as Hne.
    by destruct (str (x `div` 100)).
  - intros x. rewrite !all_chars_app.
    rewrite str_no_space. simpl.
    by rewrite (all_chars_impl is_number_char _ _ is_number_char_not_str_space)
      by apply all_chars_format_0d.
  - intros x. eexists. apply hundredths_of_to_string.
Qed.

(** The sample directories are shard directories, so their reconciliation
    returns. *)
Lemma run_shards_shard_directory (task_ids : list Z) :
  shard_directory (H:=Hundredths.hundredths) (Samples.run_shards task_ids).
Proof.
  induction task_ids as [|task_id task_ids IH].
  - apply shard_directory_empty.
  - change (Samples.run_shards (task_id :: task_ids))
      with (extract_batch task_id 10 Samples.answering (Samples.run_shards task_ids)).2.
    by apply extract_batch_shard_directory.
Qed.

Example complete_verified :
  ∃ r, verify_extraction (H:=Hundredths.hundredths) Samples.complete 65 = Ok r
    ∧ ∀ i, i ∈ missing_ids r ↔ 1 ≤ i ≤ 65 ∧ output_file i ∉ dom Samples.complete.
Proof.
  destruct (shard_directory_verified (H0:=hundredths_float_text) Samples.complete 65
              (run_shards_shard_directory _)) as (r & Hr & _ & Hmissing).
  exists r. split; [exact Hr | exact Hmissing].
Qed.

End PipelineFacts.

(* ===================================================================== *)
(** * More on generate_batches.py *)
(* ===================================================================== *)

Module BatchFilesFacts.
Import GenerateBatches CeoSamples PyFacts GenerateBatchesFacts.

(** ** Numbers of batches out of the ordinary *)

(** With no more rows than batches the sizes are ones, then zeros. *)
Lemma batch_sizes_few (total k : Z) :
  0 ≤ total ≤ k → 1 ≤ k →
  batch_sizes total k
  = replicate (Z.to_nat total) 1 ++ replicate (Z.to_nat (k - total)) 0.
Proof.
  intros Htotal Hk. apply list_eq. intros i.
  destruct (decide (Z.of_nat i < k)) as [Hi|Hi].
  - rewrite lookup_batch_sizes by done.
    destruct (decide (total = k)) as [->|Hne].
    + rewrite Z_div_same_full, Z_mod_same_full by lia.
      rewrite bool_decide_eq_false_2 by lia.
      rewrite lookup_app_l by (rewrite length_replicate; lia).
      rewrite lookup_replicate_2 by lia. done.
    + rewrite Z.div_small, Z.mod_small by lia.
      case_bool_decide.
      * rewrite lookup_app_l by (rewrite length_replicate; lia).
        by rewrite lookup_replicate_2 by lia.
      * rewrite lookup_app_r by (rewrite length_replicate; lia).
        rewrite lookup_replicate_2; [done|]. rewrite length_replicate. lia.
  - rewrite !lookup_ge_None_2; [done| |].
    + rewrite length_app, !length_replicate. lia.
    + rewrite length_batch_sizes. lia.
Qed.

(** Frames of one row each, then empty ones, are determined by their rows. *)
Lemma singleton_frames {A} (frames : list (list A)) (n m : nat) :
  len <$> frames = replicate n 1 ++ replicate m 0 →
  frames = ((λ r, [r]) <$> concat frames) ++ replicate m [].
Proof.
  revert frames. induction n as [|n IH]; intros frames E.
  - simpl in E.
    assert (frames = replicate m [] ∧ concat frames = []) as [Hf ->]; [|done].
    revert frames E. induction m as [|m IHm]; intros [|f frames] E; try done.
    simpl in E. injection E as Hf E. destruct f; [|done].
    destruct (IHm frames E) as [-> Hcat]. done.
  - destruct frames as [|f frames]; [done|].
    simpl in E. injection E as Hf E.
    destruct f as [|r [|r' f]].
    + done.
    + simpl. f_equal. by apply IH.
    + unfold len in Hf. simpl in Hf. lia.
Qed.

Lemma slice_batches_few {A} (df : list A) (k : Z) :
  1 ≤ k → len df ≤ k →
  slice_batches df 0 (batch_sizes (len df) k)
  = ((λ r, [r]) <$> df) ++ replicate (Z.to_nat (k - len df)) [].
Proof.
  intros Hk Hlen.
  destruct (slice_batches_partition df k Hk) as [Hcat Hsizes].
  set (batches := slice_batches df 0 (batch_sizes (len df) k)) in *.
  rewrite batch_sizes_few in Hsizes by (unfold len in *; lia).
  apply singleton_frames in Hsizes. by rewrite Hcat in Hsizes.
Qed.

(** X1. [split_into_batches] raises exactly when the number of batches is
    0, and the exception is [ZeroDivisionError]. A negative number gives no
    batch at all, whatever the table holds; in general the call returns
    [max(num_batches, 0)] batches. *)
Theorem split_into_batches_defined {A} (df : list A) (num_batches : Z) :
  (is_Ok (split_into_batches df num_batches) ↔ num_batches ≠ 0)
  ∧ (split_into_batches df num_batches = Raise ZeroDivisionError ↔ num_batches = 0)
  ∧ (num_batches < 0 → split_into_batches df num_batches = Ok [])
  ∧ (∀ batches, split_into_batches df num_batches = Ok batches →
       len batches = Z.max num_batches 0).
Proof.
  unfold split_into_batches. case_bool_decide as Hk.
  - subst. split; [|split; [|split]].
    + split; [by intros [? ?]|done].
    + done.
    + lia.
    + done.
  - split; [|split; [|split]].
    + split; [done|]. intros _. by eexists.
    + split; [done|]. done.
    + intros Hneg. unfold batch_sizes, range. by rewrite seqZ_nil by lia.
    + intros batches [= <-].
      assert (length (slice_batches df 0 (batch_sizes (len df) num_batches))
              = length (batch_sizes (len df) num_batches)) as Hl.
      { generalize (batch_sizes (len df) num_batches), 0.
        intros sizes. induction sizes as [|s sizes IH]; intros start; simpl; [done|].
        by rewrite IH. }
      unfold len at 1. rewrite Hl, length_batch_sizes. lia.
Qed.

(** X2. With at least one batch and no more rows than batches, every row
    is a batch of its own, in the order of the table, and the batches left
    over are empty. *)
Theorem split_into_batches_few_rows {A} (df : list A) (num_batches : Z) :
  1 ≤ num_batches → len df ≤ num_batches →
  split_into_batches df num_batches
  = Ok (((λ r, [r]) <$> df) ++ replicate (Z.to_nat (num_batches - len df)) []).
Proof.
  intros Hk Hlen. unfold split_into_batches.
  rewrite bool_decide_eq_false_2 by lia. by rewrite slice_batches_few.
Qed.

Lemma split_into_batches_few_rows_witness :
  split_into_batches [10; 20; 30] 5 = Ok [[10]; [20]; [30]; []; []].
Proof. apply (split_into_batches_few_rows [10; 20; 30] 5); unfold len; simpl; lia. Defined.


Section files.
Context {R : Type} `{CeoRow R}.

(** ** The verification *)

Lemma read_csv_Ok (dir : gmap string (file R)) (name : string) (rows : list R) :
  read_csv dir name = Ok rows ↔ dir !! name = Some (Csv rows).
Proof.
  unfold read_csv. destruct (dir !! name) as [[rows'|?]|]; split; try done.
  - by intros [= ->].
  - by intros [= ->].
Qed.

Lemma mapM_read_csv_Ok (dir : gmap string (file R)) (saved_files : list string)
    (frames : list (list R)) :
  mapM (read_csv dir) saved_files = Ok frames
  ↔ Forall2 (λ name rows, dir !! name = Some (Csv rows)) saved_files frames.
Proof.
  revert frames. induction saved_files as [|name saved_files IH]; intros frames.
  { split; [by intros [= <-]; constructor|]. by intros ->%Forall2_nil_inv_l. }
  cbn [mapM]. split.
  - destruct (read_csv dir name) as [rows|] eqn:Hname; [|done].
    apply read_csv_Ok in Hname. rewrite bind_Ok.
    destruct (mapM (read_csv dir) saved_files) as [frames'|] eqn:Hrest; [|done].
    intros [= <-]. constructor; [done|]. by apply IH.
  - intros (rows & frames' & Hname & Hrest & ->)%Forall2_cons_inv_l.
    apply read_csv_Ok in Hname. rewrite Hname, bind_Ok.
    apply IH in Hrest. by rewrite Hrest.
Qed.

(** X5. [verify_batches] returns [True] exactly when there is at least
    one saved file, every saved file is a table, the tables together have as
    many rows as the original table and no row occurs twice in them. It
    returns at all exactly when there is a saved file and each is a table.
    The original table counts by its number of rows only: its rows are not
    compared with the rows read back. *)
Theorem verify_batches_passes (original_df : list R) (saved_files : list string)
    (dir : gmap string (file R)) :
  (verify_batches original_df saved_files dir = Ok true ↔
     ∃ frames,
       Forall2 (λ name rows, dir !! name = Some (Csv rows)) saved_files frames
       ∧ saved_files ≠ []
       ∧ len (concat frames) = len original_df
       ∧ NoDup (concat frames))
  ∧ (is_Ok (verify_batches original_df saved_files dir) ↔
     saved_files ≠ [] ∧ ∀ name, name ∈ saved_files → ∃ rows, dir !! name = Some (Csv rows))
  ∧ (∀ other_df, len other_df = len original_df →
       verify_batches other_df saved_files dir
       = verify_batches original_df saved_files dir).
Proof.
  split; [|split].
  - rewrite verify_batches_verdict. split.
    + intros (frames & Hread & Hne & Hverdict).
      symmetry in Hverdict. apply bool_decide_eq_true in Hverdict as [Hlen Hnodup].
      exists frames. apply mapM_read_csv_Ok in Hread.
      split; [done|]. split; [|done].
      intros ->. by apply Forall2_nil_inv_l in Hread.
    + intros (frames & Hread & Hne & Hlen & Hnodup). exists frames.
      split; [by apply mapM_read_csv_Ok|]. split.
      * intros ->. by apply Forall2_nil_inv_r in Hread.
      * symmetry. by apply bool_decide_eq_true.
  - split.
    + intros [verdict Hv]. apply verify_batches_verdict in Hv as (frames & Hread & Hne & _).
      apply mapM_read_csv_Ok in Hread. split.
      * intros ->. by apply Forall2_nil_inv_l in Hread.
      * intros name [i Hi]%list_elem_of_lookup_1.
        destruct (Forall2_lookup_l _ _ _ _ _ Hread Hi) as (rows & _ & Hrows).
        by exists rows.
    + intros [Hne Hall].
      assert (∃ frames,
        Forall2 (λ name rows, dir !! name = Some (Csv rows)) saved_files frames)
        as [frames Hread].
      { clear Hne. induction saved_files as [|name saved_files IH]; [by exists []|].
        destruct (Hall name) as [rows Hrows]; [by left|].
        destruct IH as [frames Hframes]; [intros ??; apply Hall; by right|].
        exists (rows :: frames). by constructor. }
      eexists. apply verify_batches_verdict. exists frames.
      split; [by apply mapM_read_csv_Ok|]. split; [|done].
      intros ->. by apply Forall2_nil_inv_r in Hread.
  - intros other_df Hlen. unfold verify_batches. by rewrite Hlen.
Qed.


(** ** What the paths of config.py do to a run *)

(** X6. With [DATA_DIR] and [BATCH_DIR] as config.py binds them, to
    values of type [str], no step of [generate_batches.py] that touches a
    path is carried out, whatever the input file and the files there are.
    [create_batch_directory()] raises [AttributeError]; [load_ceo_data()]
    returns no table; [save_batches] returns the empty list for no batch
    and raises [TypeError] at the first batch otherwise;
    [create_batch_summary] raises [TypeError] before it opens the summary;
    and none of them writes a file. Hence [main] always ends with
    [sys.exit(1)], without a table loaded, a batch split off or verified, or
    success reported, and so does the script, which does not compile. *)
Theorem main_never_succeeds (input : option (result (list R)))
    (dir : gmap string (file R)) (batch_df : list R) (batches : list (list R))
    (saved_files : list string) :
  create_batch_directory = Raise AttributeError
  ∧ ¬ is_Ok (load_ceo_data input)
  ∧ save_batches [] dir = (Ok [], dir)
  ∧ save_batches (batch_df :: batches) dir = (Raise TypeError, dir)
  ∧ create_batch_summary batches saved_files dir = (Raise TypeError, dir)
  ∧ main input dir = failed dir
  ∧ script input dir = failed dir
  ∧ exit_code (failed dir) = 1
  ∧ success_reported (failed dir) = false
  ∧ verification (failed dir) = None
  ∧ batch_dir_after (failed dir) = dir.
Proof.
  split; [done|]. split; [by intros [df ?]|]. repeat split.
Qed.

End files.
End BatchFilesFacts.

(* ===================================================================== *)
(** * The files of a run of extract_names_batch.py *)
(* ===================================================================== *)

Module ShardRunFacts.
Import NameBatches ExtractNamesBatch VerifyExtraction.
Import PyFacts ExtractNamesBatchFacts FileNameFacts.

Lemma output_file_inj (i j : Z) : output_file i = output_file j → i = j.
Proof.
  intros E. apply (f_equal task_id_of) in E.
  rewrite !task_id_of_output_file in E. congruence.
Qed.

Section runs.
Context `{Float}.

(** ** The files of a run *)

(** The directory after a run: as before, or, when the query gave rows,
    with the shard file and the statistics file of the task put in. *)
Lemma extract_batch_directory (task_id p : Z) (w : world) (dir : directory) :
  (¬ (∃ rows, connect w = Ok () ∧ raw_sql w (batch_query task_id p) = Ok rows ∧ rows ≠ [])
   ∧ (extract_batch task_id p w dir).2 = dir)
  ∨ ∃ rows,
      connect w = Ok () ∧ raw_sql w (batch_query task_id p) = Ok rows ∧ rows ≠ []
      ∧ (extract_batch task_id p w dir).2
        = let batch_df := drop_duplicates (λ r, (user_id r, fullname r)) rows in
          <[stats_file task_id
              := Text (stats_lines w task_id (batch_offset task_id p) batch_df
                         (int_truediv (getsize w batch_df) (1024 * 1024)))]>
            (<[output_file task_id := Parquet batch_df]> dir).
Proof.
  unfold extract_batch.
  destruct (connect w) as [[]|]; [|left; split; [by intros (? & ? & _)|done]].
  destruct (raw_sql w _) as [rows|]; [|left; split; [by intros (? & _ & ? & _)|done]].
  case_bool_decide as Hlen.
  - left. split; [|done]. intros (? & _ & [= <-] & Hne).
    destruct rows; [done|]. unfold len in Hlen. simpl in Hlen. lia.
  - right. exists rows. split; [done|]. split; [done|]. split; [|done].
    by intros ->.
Qed.

(** X8. A run of [extract_batch] touches the shard file and the
    statistics file of its own task and nothing else: every other file, and
    so the two files of every other task, is as it was, and no file is
    removed. *)
Theorem extract_batch_own_files (task_id p : Z) (w : world) (dir : directory) :
  (∀ name, name ≠ output_file task_id → name ≠ stats_file task_id →
     (extract_batch task_id p w dir).2 !! name = dir !! name)
  ∧ (∀ other, other ≠ task_id →
       (extract_batch task_id p w dir).2 !! output_file other = dir !! output_file other
       ∧ (extract_batch task_id p w dir).2 !! stats_file other = dir !! stats_file other)
  ∧ dom dir ⊆ dom (extract_batch task_id p w dir).2.
Proof.
  assert (∀ name, name ≠ output_file task_id → name ≠ stats_file task_id →
     (extract_batch task_id p w dir).2 !! name = dir !! name) as Hother.
  { intros name Hout Hstats.
    destruct (extract_batch_directory task_id p w dir)
      as [[_ ->]|(rows & _ & _ & _ & ->)]; [done|].
    by rewrite !lookup_insert_ne. }
  split; [done|]. split.
  - intros other Hne. split; apply Hother.
    + by intros ?%output_file_inj.
    + apply output_file_ne_stats_file.
    + apply not_eq_sym, output_file_ne_stats_file.
    + by apply stats_file_ne.
  - destruct (extract_batch_directory task_id p w dir)
      as [[_ ->]|(rows & _ & _ & _ & ->)]; [done|].
    etrans; [|apply dom_insert_subseteq]. apply dom_insert_subseteq.
Qed.

(** X9. Running [extract_batch] again for the same task, with the same
    answers from outside, ends the same way and leaves the directory of the
    first run. *)
Theorem extract_batch_idempotent (task_id p : Z) (w : world) (dir : directory) :
  extract_batch task_id p w (extract_batch task_id p w dir).2
  = extract_batch task_id p w dir.
Proof.
  unfold extract_batch.
  destruct (connect w) as [[]|] eqn:Hconnect; simpl; rewrite ?Hconnect; [|done].
  destruct (raw_sql w _) as [rows|] eqn:Hquery; simpl; rewrite ?Hconnect, ?Hquery; [|done].
  case_bool_decide as Hlen; simpl; rewrite ?Hconnect, ?Hquery.
  - done.
  - f_equal.
    rewrite (insert_insert_ne _ (output_file task_id) (stats_file task_id))
      by apply output_file_ne_stats_file.
    by rewrite !insert_insert_eq.
Qed.


(** X10. How [extract_batch] ends. It returns exactly when the connection
    is made and the query answers; it ends with [sys.exit(1)] exactly when
    the connection is made and the query raises; and an exception of the
    connection leaves it uncaught. Unless it returns the directory is
    as it was. The script exits with status 0 exactly when the connection is
    made and the query for ten million rows answers. *)
Theorem extract_batch_outcome (task_id p : Z) (w : world) (dir : directory) :
  ((extract_batch task_id p w dir).1 = Returned
   ↔ connect w = Ok () ∧ is_Ok (raw_sql w (batch_query task_id p)))
  ∧ ((extract_batch task_id p w dir).1 = Exited 1
     ↔ connect w = Ok () ∧ ¬ is_Ok (raw_sql w (batch_query task_id p)))
  ∧ (∀ e, (extract_batch task_id p w dir).1 = Uncaught e ↔ connect w = Raise e)
  ∧ ((extract_batch task_id p w dir).1 ≠ Returned →
       (extract_batch task_id p w dir).2 = dir)
  ∧ ((ExtractNamesBatch.main task_id w dir).1 = 0
     ↔ connect w = Ok () ∧ is_Ok (raw_sql w (batch_query task_id 10000000))).
Proof.
  assert (∀ p,
    ((extract_batch task_id p w dir).1 = Returned
     ↔ connect w = Ok () ∧ is_Ok (raw_sql w (batch_query task_id p)))) as Hreturned.
  { intros p'. unfold extract_batch.
    destruct (connect w) as [[]|]; [|split; [done|by intros [? _]]].
    destruct (raw_sql w _) as [rows|]; simpl.
    - case_bool_decide; (split; [intros _; split; [done|by eexists]|done]).
    - split; [done|]. by intros [_ [? ?]]. }
  split; [apply Hreturned|]. split; [|split; [|split]].
  - unfold extract_batch.
    destruct (connect w) as [[]|]; [|split; [done|by intros [? _]]].
    destruct (raw_sql w _) as [rows|]; simpl.
    + case_bool_decide; (split; [done|]); intros [_ Hno]; destruct Hno; by eexists.
    + split; [|done]. intros _. split; [done|]. by intros [? ?].
  - intros e. unfold extract_batch.
    destruct (connect w) as [[]|e']; [|split; by intros [= ->]].
    destruct (raw_sql w _) as [rows|]; simpl; [|done].
    by case_bool_decide.
  - unfold extract_batch.
    destruct (connect w) as [[]|]; [|done].
    destruct (raw_sql w _) as [rows|]; simpl; [|done].
    by case_bool_decide.
  - unfold ExtractNamesBatch.main, extract_batch.
    destruct (connect w) as [[]|]; [|split; [done|by intros [? _]]].
    destruct (raw_sql w _) as [rows|]; simpl.
    + case_bool_decide; (split; [intros _; split; [done|by eexists]|done]).
    + split; [done|]. by intros [_ [? ?]].
Qed.


(** ** Pages without repetition *)

Lemma drop_duplicates_from_NoDup {A K} `{EqDecision K} (key : A → K)
    (seen : list K) (df : list A) :
  NoDup (key <$> df) → (∀ r, r ∈ df → key r ∉ seen) →
  drop_duplicates_from key seen df = df.
Proof.
  revert seen. induction df as [|r df IH]; intros seen Hnodup Hseen; [done|].
  rewrite fmap_cons in Hnodup. apply NoDup_cons in Hnodup as [Hr Hnodup].
  cbn [drop_duplicates_from].
  rewrite bool_decide_eq_false_2 by (apply Hseen; by left).
  f_equal. apply IH; [done|].
  intros r' Hr' [Heq|Hin]%elem_of_cons.
  - apply Hr. rewrite <-Heq. by apply list_elem_of_fmap_2.
  - apply (Hseen r'); [by right|done].
Qed.

(** X11. When no two rows of the page agree on [(user_id, fullname)], as
    in the answer to a [SELECT DISTINCT] of these columns, the shard file
    holds the page as it came. *)
Theorem extract_batch_distinct_page (task_id p : Z) (w : world) (dir : directory)
    (rows : list name_row) :
  connect w = Ok () →
  raw_sql w (batch_query task_id p) = Ok rows →
  rows ≠ [] →
  NoDup ((λ r, (user_id r, fullname r)) <$> rows) →
  (extract_batch task_id p w dir).2 !! output_file task_id = Some (Parquet rows).
Proof.
  intros Hconnect Hquery Hne Hnodup. unfold extract_batch.
  rewrite Hconnect, Hquery.
  rewrite bool_decide_eq_false_2 by (destruct rows; [done|unfold len; simpl; lia]).
  simpl. rewrite lookup_insert_ne by (apply not_eq_sym, output_file_ne_stats_file).
  rewrite lookup_insert_eq. unfold drop_duplicates.
  rewrite drop_duplicates_from_NoDup; [done..|]. intros r _. apply not_elem_of_nil.
Qed.

(** ** The task of a run of the script *)

(** X12. The task of a run of the script. Without [SGE_TASK_ID] and
    without an argument the task is 1; with [SGE_TASK_ID] the decimal text
    of a number and no argument, the task is that number; an argument that
    is the decimal text of a number takes the place of the variable, when
    the variable is read as a number; and when the variable is not read as a
    number the run ends with an uncaught [ValueError] and writes nothing,
    whatever the arguments, as for the text [undefined]. *)
Theorem script_task_id (sge_task_id : option string) (args : list string)
    (w : world) (dir : directory) (task_id : Z) :
  script None [] w dir = extract_batch 1 10000000 w dir
  ∧ script (Some (str task_id)) [] w dir = extract_batch task_id 10000000 w dir
  ∧ (is_Ok (int (default "1" sge_task_id)) →
       script sge_task_id (str task_id :: args) w dir
       = extract_batch task_id 10000000 w dir)
  ∧ (¬ is_Ok (int (default "1" sge_task_id)) →
       script sge_task_id args w dir = (Uncaught ValueError, dir))
  ∧ script (Some "undefined") args w dir = (Uncaught ValueError, dir).
Proof.
  unfold script. split; [done|]. split; [|split; [|split]].
  - simpl. by rewrite int_str.
  - intros [t ->]. by rewrite int_str.
  - intros Hno. unfold int in *.
    destruct (split_sign _) as [negative body].
    destruct (int_digits body 0 false); [|done].
    destruct Hno. by eexists.
  - done.
Qed.

(** ** Shard files and their statistics files *)

Lemma paired_directory_empty : paired_directory ∅.
Proof. intros name content Hname. by rewrite lookup_empty in Hname. Qed.

(** A run keeps the files paired. *)
Lemma extract_batch_paired_directory (task_id p : Z) (w : world) (dir : directory) :
  paired_directory dir → paired_directory (extract_batch task_id p w dir).2.
Proof.
  intros Hdir.
  destruct (extract_batch_directory task_id p w dir)
    as [[_ ->]|(rows & _ & _ & _ & ->)]; [done|].
  cbv zeta. set (batch_df := drop_duplicates _ rows).
  set (lines := stats_lines _ _ _ _ _).
  intros name content Hname.
  destruct (decide (name = output_file task_id ∨ name = stats_file task_id)) as [Hown|Hother].
  - exists w, task_id, (batch_offset task_id p), batch_df,
      (int_truediv (getsize w batch_df) (1024 * 1024)).
    split; [|split; [|done]].
    + rewrite lookup_insert_ne by (apply not_eq_sym, output_file_ne_stats_file).
      by rewrite lookup_insert_eq.
    + by rewrite lookup_insert_eq.
  - rewrite !lookup_insert_ne in Hname by (intros <-; tauto).
    destruct (Hdir name content Hname)
      as (w' & task_id' & offset' & batch_df' & size' & Hout & Hstats & Hwhich).
    assert (task_id' ≠ task_id) as Hne by (intros ->; tauto).
    exists w', task_id', offset', batch_df', size'.
    split; [|split; [|done]].
    + rewrite !lookup_insert_ne; [done| |].
      * by intros ?%output_file_inj.
      * apply not_eq_sym, output_file_ne_stats_file.
    + rewrite !lookup_insert_ne; [done| |].
      * apply output_file_ne_stats_file.
      * by apply stats_file_ne.
Qed.

(** In a paired directory a shard file is there when its statistics file
    is. *)
Lemma paired_directory_dom (dir : directory) (task_id : Z) :
  paired_directory dir →
  (output_file task_id ∈ dom dir ↔ stats_file task_id ∈ dom dir).
Proof.
  intros Hdir. split; intros [content Hname]%elem_of_dom;
    destruct (Hdir _ _ Hname)
      as (w' & task_id' & offset' & batch_df' & size' & Hout & Hstats & [E|E]).
  - apply output_file_inj in E as ->. by apply elem_of_dom.
  - by destruct (output_file_ne_stats_file task_id task_id').
  - by destruct (output_file_ne_stats_file task_id' task_id).
  - destruct (decide (task_id = task_id')) as [->|Hne]; [by apply elem_of_dom|].
    by destruct (stats_file_ne _ _ Hne).
Qed.

(** X13. After any sequence of runs of [extract_batch] that starts with
    an empty directory, the files come in pairs: every file is a shard file
    or a statistics file, the shard file of a task is there exactly when its
    statistics file is, and exactly when some run of that task made the
    connection and got a page with rows. *)
Theorem runs_paired_directory (runs : list (Z * Z * world)) :
  let dir := foldr (λ '(task_id, p, w) dir, (extract_batch task_id p w dir).2) ∅ runs in
  paired_directory dir
  ∧ shard_directory dir
  ∧ (∀ task_id, output_file task_id ∈ dom dir ↔ stats_file task_id ∈ dom dir)
  ∧ (∀ task_id, output_file task_id ∈ dom dir ↔
       ∃ p w rows, (task_id, p, w) ∈ runs ∧ connect w = Ok ()
                   ∧ raw_sql w (batch_query task_id p) = Ok rows ∧ rows ≠ []).
Proof.
  cbv zeta.
  assert (paired_directory
            (foldr (λ '(task_id, p, w) dir, (extract_batch task_id p w dir).2) ∅ runs))
    as Hpaired.
  { induction runs as [|[[task_id p] w] runs IH]; [apply paired_directory_empty|].
    by apply extract_batch_paired_directory. }
  split; [done|]. split; [|split].
  - intros name content Hname.
    destruct (Hpaired name content Hname)
      as (w' & task_id' & offset' & batch_df' & size' & Hout & Hstats & [-> | ->]).
    + left. exists task_id', batch_df'. split; [done|]. congruence.
    + right. exists w', task_id', offset', batch_df', size'. split; [done|]. congruence.
  - intros task_id. by apply paired_directory_dom.
  - intros task_id. clear Hpaired.
    induction runs as [|[[task_id' p] w] runs IH].
    { simpl. rewrite dom_empty. split; [by intros ?%elem_of_empty|].
      by intros (? & ? & ? & ?%elem_of_nil & _). }
    cbn [foldr].
    destruct (extract_batch_directory task_id' p w
                (foldr (λ '(task_id, p, w) dir, (extract_batch task_id p w dir).2) ∅ runs))
      as [[Hno ->]|(rows & Hconnect & Hquery & Hne & ->)].
    + rewrite IH. split.
      * intros (p' & w' & rows & Hin & Hrest). exists p', w', rows. split; [by right|done].
      * intros (p' & w' & rows & [[= -> -> ->]|Hin]%elem_of_cons & Hc & Hq & Hne).
        -- destruct Hno. by exists rows.
        -- by exists p', w', rows.
    + cbv zeta. rewrite !dom_insert, !elem_of_union, !elem_of_singleton, IH. split.
      * intros [E|[E|(p' & w' & rows' & Hin & Hrest)]].
        -- by destruct (output_file_ne_stats_file task_id task_id').
        -- apply output_file_inj in E as ->. exists p, w, rows. split; [by left|done].
        -- exists p', w', rows'. split; [by right|done].
      * intros (p' & w' & rows' & [[= -> -> ->]|Hin]%elem_of_cons & Hc & Hq & Hne').
        -- right. by left.
        -- right. right. by exists p', w', rows'.
Qed.

End runs.

(** ** Runs *)

Lemma extract_batch_distinct_page_witness :
  (extract_batch 3 10 Samples.answering_distinct ∅).2 !! output_file 3
  = Some (Parquet Samples.distinct_page).
Proof.
  apply (extract_batch_distinct_page 3 10 Samples.answering_distinct ∅ Samples.distinct_page).
  - reflexivity.
  - reflexivity.
  - discriminate.
  - apply (bool_decide_unpack _). by vm_compute.
Defined.

End ShardRunFacts.

(* ===================================================================== *)
(** * Reports of verify_extraction.py *)
(* ===================================================================== *)

Module ReconcileFacts.
Import NameBatches ExtractNamesBatch VerifyExtraction.
Import PyFacts FileNameFacts VerifyExtractionFacts.

Section reports.
Context `{Float}.

(** ** The number of batches expected *)

(** X14. The number of batches expected decides which ids are missing and
    nothing else: when [verify_extraction] returns for one number it returns
    for every number, with the same ids found, counts of files, totals and
    averages. With a smaller number no more ids are missing, and with a
    number below 1 none is, so that the result is [True]. *)
Theorem verify_extraction_expected (dir : directory) (N N' : Z) (r : report) :
  verify_extraction dir N = Ok r →
  ∃ r', verify_extraction dir N' = Ok r'
    ∧ found_ids r' = found_ids r
    ∧ batch_file_count r' = batch_file_count r
    ∧ stats_file_count r' = stats_file_count r
    ∧ stats_totals r' = stats_totals r
    ∧ stats_averages r' = stats_averages r
    ∧ (N' ≤ N → missing_ids r' ⊆ missing_ids r)
    ∧ (N' ≤ 0 → missing_ids r' = ∅ ∧ returned r' = true).
Proof.
  intros (ids & t & Hids & Ht & ->)%verify_extraction_Ok.
  eexists. split.
  { apply verify_extraction_Ok. by exists ids, t. }
  simpl. repeat (split; [done|]). split.
  - intros Hle i. rewrite !elem_of_missing_of. intros [? ?]. split; [lia|done].
  - intros Hle.
    assert (missing_of N' ids = ∅) as ->.
    { apply set_eq. intros i. rewrite elem_of_missing_of.
      split; [intros [? _]; lia | by intros ?%elem_of_empty]. }
    done.
Qed.


(** ** A file that is no shard file *)

Lemma int_Raise (s : string) (e : exn) : int s = Raise e → e = ValueError.
Proof.
  unfold int. destruct (split_sign _) as [negative body].
  destruct (int_digits body 0 false); [done|]. by intros [= <-].
Qed.

Lemma collect_ids_Raise batch_files (acc : gset Z) (e : exn) :
  collect_ids batch_files acc = Raise e → e = ValueError.
Proof.
  revert acc. induction batch_files as [|name batch_files IH]; intros acc; simpl; [done|].
  destruct (task_id_of name) as [task_id|e'] eqn:E; simpl.
  - apply IH.
  - intros [= <-]. by apply int_Raise in E.
Qed.

(** X15. One file that matches [batch_*.parquet] and whose name, without
    [batch_] and [.parquet], is not read as a number, stops the
    reconciliation: [verify_extraction] raises [ValueError], which the
    script does not catch, and the process exits with status 1. *)
Theorem verify_extraction_stray_file (dir : directory) (N : Z) (name : string) :
  name ∈ dom dir →
  fnmatch_star "batch_" ".parquet" name = true →
  ¬ is_Ok (task_id_of name) →
  verify_extraction dir N = Raise ValueError
  ∧ main dir = Uncaught ValueError
  ∧ exit_status (main dir) = 1.
Proof.
  intros Hname Hmatch Hid.
  assert (∀ N, verify_extraction dir N = Raise ValueError) as Hraise.
  { intros N'. unfold verify_extraction.
    destruct (collect_ids _ ∅) as [ids|e] eqn:Hids.
    - destruct Hid.
      apply (proj1 (collect_ids_is_Ok (sorted (glob "batch_" ".parquet" dir)) ∅)).
      + by exists ids.
      + by apply elem_of_sorted_glob.
    - by apply collect_ids_Raise in Hids as ->. }
  split; [done|]. unfold main. by rewrite Hraise.
Qed.

(** ** A shard that is run again *)

Lemma readable_ext (dir dir' : directory) (name : string) :
  dir' !! name = dir !! name → readable dir name → readable dir' name.
Proof.
  intros E (stats & Hread & Hwf). exists stats. split; [|done].
  unfold read_stats in *. by rewrite E.
Qed.

(** X16. Putting the shard file of a task into a directory on which
    [verify_extraction] returns adds the task to the ids found, takes it out
    of the missing ids and leaves every other missing id, the totals and the
    averages as they were; a complete extraction stays complete. *)
Theorem verify_extraction_add_shard (dir : directory) (N : Z) (r : report)
    (task_id : Z) (rows : list name_row) :
  verify_extraction dir N = Ok r →
  ∃ r', verify_extraction (<[output_file task_id := Parquet rows]> dir) N = Ok r'
    ∧ found_ids r' = {[task_id]} ∪ found_ids r
    ∧ missing_ids r' = missing_ids r ∖ {[task_id]}
    ∧ stats_totals r' = stats_totals r
    ∧ stats_averages r' = stats_averages r
    ∧ (returned r = true → returned r' = true).
Proof.
  intros Hr. set (dir' := <[output_file task_id := Parquet rows]> dir).
  assert (∀ name, fnmatch_star "batch_" "_stats.txt" name = true →
                  dir' !! name = dir !! name) as Hsame.
  { intros name Hmatch. apply lookup_insert_ne. intros <-.
    by rewrite fnmatch_output_file_stats in Hmatch. }
  destruct (proj1 (verify_extraction_is_Ok dir N)) as [Hnames Hstats]; [by exists r|].
  destruct (proj2 (verify_extraction_is_Ok dir' N)) as [r' Hr'].
  { split.
    - intros name Hname Hmatch. unfold dir' in Hname.
      rewrite dom_insert, elem_of_union, elem_of_singleton in Hname.
      destruct Hname as [->|Hname]; [|by apply Hnames].
      eexists. apply task_id_of_output_file.
    - intros name Hname Hmatch. apply (readable_ext dir); [by apply Hsame|].
      apply Hstats; [|done].
      apply elem_of_dom. rewrite <-Hsame by done. by apply elem_of_dom. }
  exists r'. split; [done|].
  destruct (report_ids dir N r Hr) as (Hfound & Hmissing & Hret).
  destruct (report_ids dir' N r' Hr') as (Hfound' & Hmissing' & Hret').
  destruct (stats_totals_ext dir dir' N r r' Hr Hr' Hsame) as [Htotals Havg].
  assert (found_ids r' = {[task_id]} ∪ found_ids r) as Hids.
  { apply set_eq. intros i. rewrite elem_of_union, elem_of_singleton, Hfound, Hfound'.
    unfold dir'. split.
    - intros (name & Hname & Hmatch & Hid).
      rewrite dom_insert, elem_of_union, elem_of_singleton in Hname.
      destruct Hname as [->|Hname].
      + left. rewrite task_id_of_output_file in Hid. by injection Hid.
      + right. by exists name.
    - intros [->|(name & Hname & Hmatch & Hid)].
      + exists (output_file task_id). split; [|split].
        * rewrite dom_insert, elem_of_union, elem_of_singleton. by left.
        * apply fnmatch_output_file.
        * apply task_id_of_output_file.
      + exists name. split; [|done].
        rewrite dom_insert, elem_of_union. by right. }
  assert (missing_ids r' = missing_ids r ∖ {[task_id]}) as Hmiss.
  { apply set_eq. intros i.
    rewrite elem_of_difference, elem_of_singleton, Hmissing, Hmissing', Hids,
      elem_of_union, elem_of_singleton. tauto. }
  split; [done|]. split; [done|]. split; [done|]. split; [done|].
  rewrite Hret, Hret', Hmiss. intros ->. apply set_eq. intros i.
  rewrite elem_of_difference. split; [by intros [?%elem_of_empty _]|by intros ?%elem_of_empty].
Qed.

End reports.

(** ** Runs *)

Lemma verify_extraction_expected_witness :
  ∃ r', verify_extraction (H:=Hundredths.hundredths) Samples.after_1_2_4 0 = Ok r'
    ∧ missing_ids r' = ∅ ∧ returned r' = true.
Proof.
  destruct (returns_is_Ok
              (verify_extraction (H:=Hundredths.hundredths) Samples.after_1_2_4 5))
    as [r Hr]; [vm_compute; reflexivity|].
  destruct (verify_extraction_expected (H:=Hundredths.hundredths)
              Samples.after_1_2_4 5 0 r Hr) as (r' & Hr' & _ & _ & _ & _ & _ & _ & Hzero).
  exists r'. split; [exact Hr'|]. apply Hzero. lia.
Defined.

Lemma verify_extraction_stray_file_witness :
  verify_extraction (H:=Hundredths.hundredths)
    (<["batch_0001_copy.parquet" := Parquet []]> Samples.after_3) 65
  = Raise ValueError.
Proof.
  apply (verify_extraction_stray_file (H:=Hundredths.hundredths)
           (<["batch_0001_copy.parquet" := Parquet []]> Samples.after_3) 65
           "batch_0001_copy.parquet").
  - apply elem_of_dom. rewrite lookup_insert_eq. by eexists.
  - reflexivity.
  - intros [i Hi]. vm_compute in Hi. discriminate.
Defined.

Lemma verify_extraction_add_shard_witness :
  ∃ r r',
    verify_extraction (H:=Hundredths.hundredths) Samples.after_1_2_4 5 = Ok r
    ∧ verify_extraction (H:=Hundredths.hundredths)
        (<[output_file 3 := Parquet Samples.page]> Samples.after_1_2_4) 5 = Ok r'
    ∧ missing_ids r' = missing_ids r ∖ {[3]}.
Proof.
  destruct (returns_is_Ok
              (verify_extraction (H:=Hundredths.hundredths) Samples.after_1_2_4 5))
    as [r Hr]; [vm_compute; reflexivity|].
  destruct (verify_extraction_add_shard (H:=Hundredths.hundredths)
              Samples.after_1_2_4 5 r 3 Samples.page Hr) as (r' & Hr' & _ & Hmissing & _).
  exists r, r'. split; [exact Hr|]. split; [exact Hr' | exact Hmissing].
Defined.

End ReconcileFacts.

(* ===================================================================== *)
(** * The statistics of the extractor in the totals of the report *)
(* ===================================================================== *)

Module EndToEndFacts.
Import NameBatches ExtractNamesBatch VerifyExtraction.
Import PyFacts ExtractNamesBatchFacts FileNameFacts VerifyExtractionFacts PipelineFacts.
Import ShardRunFacts.

Lemma nunique_bounds {K} `{EqDecision K} (series : list K) :
  series ≠ [] → 1 ≤ nunique series ≤ len series.
Proof.
  intros Hne. unfold nunique, len. split.
  - destruct series as [|k series]; [done|].
    assert (k ∈ remove_dups (k :: series)) as Hin by (apply elem_of_remove_dups; by left).
    destruct (remove_dups (k :: series)); [by apply elem_of_nil in Hin|].
    simpl. lia.
  - clear Hne. apply inj_le. induction series as [|k series IH]; [done|].
    simpl. case_decide; simpl; lia.
Qed.

Section end_to_end.
Context `{FloatText}.

(** ** The statistics file of a run, read back *)

(** The dictionary that [verify_extraction] builds from the lines that
    [extract_batch] wrote, and its figures. *)
Lemma stats_lines_figures (w : world) (task_id offset : Z)
    (batch_df : list name_row) (file_size_mb : float) :
  ∃ stats,
    read_stats_lines ∅ (stats_lines w task_id offset batch_df file_size_mb) = Ok stats
    ∧ well_formed stats
    ∧ stats !! "task_id" = Some (str task_id)
    ∧ int_figure "offset" stats = offset
    ∧ int_figure "rows" stats = len batch_df
    ∧ int_figure "unique_users" stats = nunique (user_id <$> batch_df)
    ∧ stats !! "file_size_mb" = Some (format_2f file_size_mb)
    ∧ stats !! "query_time_seconds" = Some (format_2f (query_seconds w)).
Proof.
  destruct (read_stats_lines_stats_lines w task_id offset batch_df file_size_mb)
    as [extraction_time Hread].
  eexists. split; [exact Hread|]. split.
  { destruct (stats_lines_readable
                {["stats" := Text (stats_lines w task_id offset batch_df file_size_mb)]}
                "stats" w task_id offset batch_df file_size_mb) as (stats & Hstats & Hwf).
    { apply lookup_singleton_eq. }
    unfold read_stats in Hstats. rewrite lookup_singleton_eq, Hread in Hstats.
    by injection Hstats as <-. }
  unfold int_figure.
  repeat first [rewrite lookup_insert_eq | rewrite lookup_insert_ne by done].
  by rewrite !int_str.
Qed.


(** X17. After a run of [extract_batch] whose query gave rows, the
    statistics file of the task is read back by the parser of
    [verify_extraction] as a dictionary whose figures are numbers: the task
    id as written, the offset [(task_id - 1) * rows_per_batch], the number of
    rows of the shard file, and the number of distinct users in it, which is
    at least 1 and at most the number of rows; the shard file has no more
    rows than the page. *)
Theorem extract_batch_stats_read_back (task_id p : Z) (w : world) (dir : directory)
    (rows : list name_row) :
  connect w = Ok () →
  raw_sql w (batch_query task_id p) = Ok rows →
  rows ≠ [] →
  ∃ saved stats,
    (extract_batch task_id p w dir).2 !! output_file task_id = Some (Parquet saved)
    ∧ read_stats (extract_batch task_id p w dir).2 (stats_file task_id) = Ok stats
    ∧ well_formed stats
    ∧ stats !! "task_id" = Some (str task_id)
    ∧ int_figure "offset" stats = (task_id - 1) * p
    ∧ int_figure "rows" stats = len saved
    ∧ int_figure "unique_users" stats = nunique (user_id <$> saved)
    ∧ 1 ≤ int_figure "unique_users" stats ≤ int_figure "rows" stats
    ∧ int_figure "rows" stats ≤ len rows.
Proof.
  intros Hconnect Hquery Hne.
  destruct (extract_batch_directory task_id p w dir)
    as [[Hno _]|(rows' & _ & Hquery' & _ & ->)].
  { destruct Hno. by exists rows. }
  rewrite Hquery in Hquery'. injection Hquery' as <-. cbv zeta.
  set (saved := drop_duplicates (λ r, (user_id r, fullname r)) rows).
  destruct (stats_lines_figures w task_id (batch_offset task_id p) saved
              (int_truediv (getsize w saved) (1024 * 1024)))
    as (stats & Hread & Hwf & Hid & Hoffset & Hrows & Husers & _).
  exists saved, stats.
  destruct (drop_duplicates_spec (λ r, (user_id r, fullname r)) rows)
    as (_ & _ & Hkeys & Hsub).
  fold saved in Hkeys, Hsub.
  assert (saved ≠ []) as Hsaved.
  { destruct rows as [|r rows]; [done|].
    specialize (Hkeys r ltac:(by left)). intros E. rewrite E in Hkeys.
    by apply elem_of_nil in Hkeys. }
  split; [|split; [|split; [|split; [|split; [|split; [|split; [|split]]]]]]]; try done.
  - rewrite lookup_insert_ne by (apply not_eq_sym, output_file_ne_stats_file).
    by rewrite lookup_insert_eq.
  - unfold read_stats. by rewrite lookup_insert_eq.
  - rewrite Husers, Hrows.
    replace (len saved) with (len (user_id <$> saved))
      by (unfold len; by rewrite length_fmap).
    apply nunique_bounds. by destruct saved.
  - rewrite Hrows. unfold len. apply inj_le. by apply sublist_length.
Qed.


(** ** The totals of the report and the rows in the shard files *)

Lemma paired_shard_directory (dir : directory) :
  paired_directory dir → shard_directory dir.
Proof.
  intros Hpaired name content Hname.
  destruct (Hpaired name content Hname)
    as (w' & task_id' & offset' & batch_df' & size' & Hout & Hstats & [-> | ->]).
  - left. exists task_id', batch_df'. split; [done|]. congruence.
  - right. exists w', task_id', offset', batch_df', size'. split; [done|]. congruence.
Qed.

(** What the dictionaries of a list of statistics files add to a total. *)
Lemma figures_of_files (dir : directory) (g : gmap string string → Z)
    (files : list string) (dicts : list (gmap string string)) :
  Forall2 (λ name stats, read_stats dir name = Ok stats) files dicts →
  g <$> dicts
  = (λ name, match read_stats dir name with Ok stats => g stats | Raise _ => 0 end)
      <$> files.
Proof.
  induction 1 as [|name stats files dicts Hread _ IH]; [done|].
  rewrite !fmap_cons. by rewrite Hread, IH.
Qed.

Lemma NoDup_sorted (names : list string) : NoDup names → NoDup (sorted names).
Proof. unfold sorted. by rewrite merge_sort_Permutation. Qed.

(** In a paired directory the two listings are the files of the ids
    found. *)
Lemma listings_of_found (dir : directory) (ids : gset Z) :
  paired_directory dir →
  (∀ i, i ∈ ids ↔ output_file i ∈ dom dir) →
  sorted (glob "batch_" ".parquet" dir) ≡ₚ output_file <$> elements ids
  ∧ sorted (glob "batch_" "_stats.txt" dir) ≡ₚ stats_file <$> elements ids.
Proof.
  intros Hpaired Hids. split.
  - apply NoDup_Permutation.
    + apply NoDup_sorted, NoDup_glob.
    + apply NoDup_fmap_2_strong; [|apply NoDup_elements].
      intros i j _ _. apply output_file_inj.
    + intros name. rewrite elem_of_sorted_glob, list_elem_of_fmap. split.
      * intros [[content Hname]%elem_of_dom Hmatch].
        destruct (Hpaired name content Hname)
          as (w' & i & offset' & batch_df' & size' & Hout & Hstats & [-> | ->]).
        -- exists i. split; [done|]. apply elem_of_elements, Hids. by apply elem_of_dom.
        -- by rewrite fnmatch_stats_file_data in Hmatch.
      * intros (i & -> & Hi%elem_of_elements%Hids).
        split; [done|apply fnmatch_output_file].
  - apply NoDup_Permutation.
    + apply NoDup_sorted, NoDup_glob.
    + apply NoDup_fmap_2_strong; [|apply NoDup_elements].
      intros i j _ _ E. destruct (decide (i = j)) as [|Hne]; [done|].
      by destruct (stats_file_ne i j Hne).
    + intros name. rewrite elem_of_sorted_glob, list_elem_of_fmap. split.
      * intros [[content Hname]%elem_of_dom Hmatch].
        destruct (Hpaired name content Hname)
          as (w' & i & offset' & batch_df' & size' & Hout & Hstats & [-> | ->]).
        -- by rewrite fnmatch_output_file_stats in Hmatch.
        -- exists i. split; [done|]. apply elem_of_elements, Hids. by apply elem_of_dom.
      * intros (i & -> & Hi%elem_of_elements%Hids).
        split; [exact (proj1 (paired_directory_dom dir i Hpaired) Hi)|].
        apply fnmatch_stats_file.
Qed.

(** X18. On a directory whose files come in pairs, as the runs of
    [extract_batch] leave it, [verify_extraction] returns; the ids found
    are those of the shard files; there are as many shard files and as many
    statistics files as ids found; and the total of rows is the number of
    rows in the shard files, the total of users the sum of the numbers of
    distinct users in them. *)
Theorem paired_directory_totals (dir : directory) (N : Z) :
  paired_directory dir →
  ∃ r, verify_extraction dir N = Ok r
    ∧ (∀ i, i ∈ found_ids r ↔ output_file i ∈ dom dir)
    ∧ batch_file_count r = Z.of_nat (size (found_ids r))
    ∧ stats_file_count r = Z.of_nat (size (found_ids r))
    ∧ total_rows (stats_totals r)
      = sum ((λ i, len (shard_rows dir i)) <$> elements (found_ids r))
    ∧ total_unique_users (stats_totals r)
      = sum ((λ i, nunique (user_id <$> shard_rows dir i)) <$> elements (found_ids r)).
Proof.
  intros Hpaired.
  destruct (shard_directory_verified dir N (paired_shard_directory dir Hpaired))
    as (r & Hr & Hfound & _).
  exists r. split; [done|]. split; [done|].
  destruct (listings_of_found dir (found_ids r) Hpaired Hfound) as [Hdata Hsidecars].
  pose proof Hr as (ids & t & _ & _ & Hreport)%verify_extraction_Ok.
  destruct (totals_are_sums dir N r Hr) as (Hread & Hrows & Husers & _).
  assert (∀ (g : gmap string string → Z) (h : list name_row → Z),
    (∀ w i offset batch_df size stats,
       read_stats_lines ∅ (stats_lines w i offset batch_df size) = Ok stats →
       g stats = h batch_df) →
    sum (g <$> batch_stats (stats_totals r))
    = sum ((λ i, h (shard_rows dir i)) <$> elements (found_ids r))) as Hsum.
  { intros g h Hgh.
    rewrite (figures_of_files dir g _ _ Hread).
    rewrite (sum_Permutation _ _ (fmap_Permutation _ _ _ Hsidecars)).
    rewrite <-list_fmap_compose. f_equal. apply list_fmap_ext.
    intros _ i Hi%list_elem_of_lookup_2%elem_of_elements%Hfound. simpl.
    apply elem_of_dom in Hi as [content Hname].
    destruct (Hpaired _ _ Hname)
      as (w' & i' & offset' & batch_df' & size' & Hout & Hstats & [E | E]).
    2:{ by destruct (output_file_ne_stats_file i i'). }
    apply output_file_inj in E as <-.
    unfold read_stats, shard_rows. rewrite Hstats, Hout.
    destruct (stats_lines_figures w' i offset' batch_df' size') as (stats & Hlines & _).
    rewrite Hlines. by apply (Hgh w' i offset' batch_df' size'). }
  assert (batch_file_count r = len (sorted (glob "batch_" ".parquet" dir))
          ∧ stats_file_count r = len (sorted (glob "batch_" "_stats.txt" dir)))
    as [-> ->] by (by rewrite Hreport).
  split; [|split; [|split]].
  - unfold len. by rewrite Hdata, length_fmap.
  - unfold len. by rewrite Hsidecars, length_fmap.
  - rewrite Hrows. apply (Hsum (int_figure "rows") len).
    intros w' i offset' batch_df' size' stats Hlines.
    destruct (stats_lines_figures w' i offset' batch_df' size')
      as (stats' & Hlines' & _ & _ & _ & Hfigure & _).
    rewrite Hlines in Hlines'. by injection Hlines' as <-.
  - rewrite Husers. apply (Hsum (int_figure "unique_users") (λ df, nunique (user_id <$> df))).
    intros w' i offset' batch_df' size' stats Hlines.
    destruct (stats_lines_figures w' i offset' batch_df' size')
      as (stats' & Hlines' & _ & _ & _ & _ & Hfigure & _).
    rewrite Hlines in Hlines'. by injection Hlines' as <-.
Qed.


End end_to_end.

(** ** Runs *)

Lemma run_shards_paired_directory (task_ids : list Z) :
  paired_directory (H:=Hundredths.hundredths) (Samples.run_shards task_ids).
Proof.
  induction task_ids as [|task_id task_ids IH].
  - apply paired_directory_empty.
  - change (Samples.run_shards (task_id :: task_ids))
      with (extract_batch task_id 10 Samples.answering (Samples.run_shards task_ids)).2.
    by apply extract_batch_paired_directory.
Qed.

Lemma extract_batch_stats_read_back_witness :
  ∃ saved stats,
    (extract_batch 3 10 Samples.answering ∅).2 !! output_file 3 = Some (Parquet saved)
    ∧ read_stats (extract_batch 3 10 Samples.answering ∅).2 (stats_file 3) = Ok stats
    ∧ int_figure "rows" stats = len saved
    ∧ int_figure "unique_users" stats = nunique (user_id <$> saved).
Proof.
  destruct (extract_batch_stats_read_back (H0:=hundredths_float_text)
              3 10 Samples.answering ∅ Samples.page)
    as (saved & stats & Hsaved & Hread & _ & _ & _ & Hrows & Husers & _).
  - reflexivity.
  - reflexivity.
  - discriminate.
  - exists saved, stats. split; [exact Hsaved|]. split; [exact Hread|].
    split; [exact Hrows | exact Husers].
Defined.

Lemma paired_directory_totals_witness :
  ∃ r, verify_extraction (H:=Hundredths.hundredths) Samples.after_1_2_4 5 = Ok r
    ∧ total_rows (stats_totals r)
      = sum ((λ i, len (shard_rows Samples.after_1_2_4 i)) <$> elements (found_ids r)).
Proof.
  destruct (paired_directory_totals (H0:=hundredths_float_text) Samples.after_1_2_4 5
              (run_shards_paired_directory [4; 2; 1]))
    as (r & Hr & _ & _ & _ & Hrows & _).
  exists r. split; [exact Hr | exact Hrows].
Defined.

(** Shards 1, 2 and 4 hold two rows each after the repetition is dropped. *)
Example six_rows_in_three_shards :
  (λ r, (total_rows (stats_totals r), total_unique_users (stats_totals r)))
    <$> verify_extraction (H:=Hundredths.hundredths) Samples.after_1_2_4 5
  = Ok (6, 6).
Proof. vm_compute. reflexivity. Qed.

End EndToEndFacts.

(* ===================================================================== *)
(** * The file names of config.py *)
(* ===================================================================== *)

Module ConfigFacts.
Import Config PyFacts.

(** Two names with the same ending have the same number. *)
Lemma batch_name_inj (ending : string) (i j : Z) :
  "batch_" +:+ format_0d 2 i +:+ ending = "batch_" +:+ format_0d 2 j +:+ ending → i = j.
Proof.
  intros E. apply (inj (String.app "batch_")) in E.
  by apply string_app_inv_tail, format_0d_inj in E.
Qed.

(** X19. The names of [config.py] for the three kinds of batch files:
    the name of the CEO list of a batch is the name under which
    [save_batches] writes it; within a kind two batch numbers give the same
    name only when they are equal; and names of different kinds differ,
    whatever the numbers. *)
Theorem config_filenames (i j : Z) :
  get_batch_filename i = GenerateBatches.batch_filename i
  ∧ (get_batch_filename i = get_batch_filename j ↔ i = j)
  ∧ (get_extracted_filename i = get_extracted_filename j ↔ i = j)
  ∧ (get_unmatched_filename i = get_unmatched_filename j ↔ i = j)
  ∧ get_batch_filename i ≠ get_extracted_filename j
  ∧ get_batch_filename i ≠ get_unmatched_filename j
  ∧ get_extracted_filename i ≠ get_unmatched_filename j.
Proof.
  unfold get_batch_filename, get_extracted_filename, get_unmatched_filename.
  split; [done|].
  split; [split; [apply batch_name_inj|by intros ->]|].
  split; [split; [apply batch_name_inj|by intros ->]|].
  split; [split; [apply batch_name_inj|by intros ->]|].
  split; [|split].
  - intros E. apply (f_equal (ends_with "_ceos.csv")) in E.
    rewrite <-!string_app_assoc, ends_with_app in E.
    unfold ends_with in E. rewrite string_rev_app in E.
    change (String.rev "_extracted.csv") with "vsc.detcartxe_" in E.
    rewrite !string_app_cons in E. done.
  - intros E. apply (f_equal (ends_with "_ceos.csv")) in E.
    rewrite <-!string_app_assoc, ends_with_app in E.
    unfold ends_with in E. rewrite string_rev_app in E.
    change (String.rev "_unmatched.csv") with "vsc.dehctamnu_" in E.
    rewrite !string_app_cons in E. done.
  - intros E. apply (f_equal (ends_with "_extracted.csv")) in E.
    rewrite <-!string_app_assoc, ends_with_app in E.
    unfold ends_with in E. rewrite string_rev_app in E.
    change (String.rev "_unmatched.csv") with "vsc.dehctamnu_" in E.
    rewrite !string_app_cons in E. done.
Qed.

End ConfigFacts.
